(** * IntelliMCP backend: a shallow embedding of the retrieval-augmented
      structured-generation pipeline.

    The development follows the layout of [backend/]:
    - [Py]            Python values the handlers exchange (JSON-like data,
                      exceptions, HTTP outcomes);
    - [Models]        [models.py]: the [Mcp] row and the pydantic schema
                      [McpDefinition];
    - [VectorStore]   [vector_store_services.py] and the Chroma index the
                      handlers talk to;
    - [Context]       [routers/context.py];
    - [Generation]    [routers/generation.py];
    - [Ingestion]     [routers/ingestion.py];
    - [McpRouter]     [routers/mcp.py].

    External services (the language model, the document loaders, the
    clock, the reachability of the index) are inputs of the handlers. *)

From Stdlib Require Import ZArith Ascii String List Bool Lia Sorted.
From Stdlib Require Import DecimalString DecimalZ DecimalPos.
From stdpp Require Import base option list gmap strings.

Import ListNotations.
#[local] Set Warnings "-register-all".
Local Open Scope string_scope.
Local Open Scope Z_scope.

(* ===================================================================== *)
(** * Python values                                                       *)
(* ===================================================================== *)

Module Py.

(** What [json.loads] produces and a JSONB column stores. Python's [None]
    is [JNull]; a [dict] keeps its insertion order and is a list of
    key/value pairs. Numbers are the [int]s: a [float] has no
    constructor, so a stored value that holds one is outside of what is
    stated below about values. *)
Inductive json : Type :=
| JNull
| JBool (b : bool)
| JInt (z : Z)
| JStr (s : string)
| JArr (items : list json)
| JObj (members : list (string * json)).

(** [d.get(key)] / [key in d]. *)
Fixpoint dict_get (key : string) (d : list (string * json)) : option json :=
  match d with
  | [] => None
  | (k, v) :: rest => if String.eqb k key then Some v else dict_get key rest
  end.

(** [bool(v)]: what [if not v] tests. *)
Definition truthy (v : json) : bool :=
  match v with
  | JNull => false
  | JBool b => b
  | JInt z => negb (z =? 0)
  | JStr s => negb (String.eqb s "")
  | JArr items => match items with [] => false | _ => true end
  | JObj members => match members with [] => false | _ => true end
  end.

(** [sep.join(parts)]. *)
Fixpoint join (sep : string) (parts : list string) : string :=
  match parts with
  | [] => ""
  | [p] => p
  | p :: rest => p ++ sep ++ join sep rest
  end.

(** [str(n)] for an [int]. *)
Definition str_of_Z (z : Z) : string := NilZero.string_of_int (Z.to_int z).
Definition str_of_nat (n : nat) : string := NilZero.string_of_uint (Nat.to_uint n).

(** The exception classes the handlers distinguish or construct. Every one
    of them is an [Exception]; only [RuntimeError] is caught separately
    (in [routers/context.py]). *)
Inductive exn : Type :=
| RuntimeError (msg : string)
| ValueError (msg : string)
| TypeError (msg : string)
| ValidationError (msg : string)
| OutputParserException (msg : string)
| ConnectionError (msg : string)
| OperationalError (msg : string)
| IndexError (msg : string).

Definition exn_str (e : exn) : string :=
  match e with
  | RuntimeError m | ValueError m | TypeError m | ValidationError m
  | OutputParserException m | ConnectionError m | OperationalError m
  | IndexError m => m
  end.

Definition is_RuntimeError (e : exn) : bool :=
  match e with RuntimeError _ => true | _ => false end.

(** A call either returns or raises. *)
Inductive result (A : Type) : Type :=
| Ok (a : A)
| Raise (e : exn).
Arguments Ok {A} a.
Arguments Raise {A} e.

(** What a request handler hands back to FastAPI: a value, or an
    [HTTPException(status_code, detail)]. *)
Inductive response (A : Type) : Type :=
| Return (a : A)
| HTTPException (status_code : Z) (detail : string).
Arguments Return {A} a.
Arguments HTTPException {A} status_code detail.

Definition is_Return {A} (r : response A) : bool :=
  match r with Return _ => true | HTTPException _ _ => false end.

Definition status_of {A} (r : response A) : option Z :=
  match r with Return _ => None | HTTPException c _ => Some c end.

(** The answer to a request whose handler raised an exception that
    nothing catches. *)
Definition uncaught {A : Type} : response A :=
  HTTPException 500 "Internal Server Error".

End Py.
Export Py.

(* ===================================================================== *)
(** * models.py                                                           *)
(* ===================================================================== *)

Module Models.

Record User : Type := {
  user_id : Z;
  clerk_id : string;
  email : string
}.

(** [class McpExampleItem(PydanticBaseModel)]. *)
Record McpExampleItem : Type := {
  input : string;
  output : string
}.

(** [class McpDefinition(PydanticBaseModel)]. *)
Record McpDefinition : Type := {
  system_prompt : string;
  input_schema_description : string;
  output_schema_description : string;
  def_constraints : list string;
  examples : list McpExampleItem
}.

(** [class Mcp(McpBase, table=True)]. Timestamps are seconds on the
    server clock. [definition_json] is the JSONB column: [JNull] until a
    definition is stored. *)
Record Mcp : Type := {
  id : Z;
  name : string;
  domain : string;
  goal : string;
  roles : string;
  constraints : option string;
  created_at : Z;
  updated_at : Z;
  owner_id : Z;
  generated_content : option string;
  definition_json : json
}.

(** A required [str] field: only a string validates. *)
Definition field_str (key : string) (d : list (string * json)) : option string :=
  match dict_get key d with
  | Some (JStr s) => Some s
  | _ => None
  end.

Definition as_str (v : json) : option string :=
  match v with JStr s => Some s | _ => None end.

(** [List[str]]. *)
Definition as_str_list (v : json) : option (list string) :=
  match v with
  | JArr items => mapM as_str items
  | _ => None
  end.

(** Validation of one element of [examples]: a dict with string [input]
    and [output]; other keys are ignored. *)
Definition McpExampleItem_validate (v : json) : option McpExampleItem :=
  match v with
  | JObj d =>
      i ← field_str "input" d;
      o ← field_str "output" d;
      Some {| input := i; output := o |}
  | _ => None
  end.

(** [List[McpExampleItem]] with [default=[]]: an absent key takes the
    default, a present one must be a list of example items. *)
Definition field_examples (d : list (string * json)) : option (list McpExampleItem) :=
  match dict_get "examples" d with
  | None => Some []
  | Some (JArr items) => mapM McpExampleItem_validate items
  | Some _ => None
  end.

Definition McpDefinition_fields (d : list (string * json)) : option McpDefinition :=
  sp ← field_str "system_prompt" d;
  isd ← field_str "input_schema_description" d;
  osd ← field_str "output_schema_description" d;
  cs ← dict_get "constraints" d ≫= as_str_list;
  exs ← field_examples d;
  Some {| system_prompt := sp;
          input_schema_description := isd;
          output_schema_description := osd;
          def_constraints := cs;
          examples := exs |}.

(** [McpDefinition] built from the unpacked value (the double-star call):
    unpacking anything but a dict is a [TypeError],
    a dict that does not fit the schema a [ValidationError]. *)
Definition McpDefinition_validate (v : json) : result McpDefinition :=
  match v with
  | JObj d =>
      match McpDefinition_fields d with
      | Some def => Ok def
      | None => Raise (ValidationError "validation error for McpDefinition")
      end
  | _ => Raise (TypeError "argument after ** must be a mapping")
  end.

(** An element of [examples] that validates: a dict whose [input] and
    [output] are the strings of the item. *)
Definition example_item (v : json) (ex : McpExampleItem) : Prop :=
  exists o, v = JObj o
            /\ dict_get "input" o = Some (JStr (input ex))
            /\ dict_get "output" o = Some (JStr (output ex)).

(** The shape of a dict that validates to [def]: the three descriptions
    are strings, [constraints] is the list of strings in order, and
    [examples] is either absent (then the definition has none) or the
    list of example dicts in order. *)
Definition deserializes (d : list (string * json)) (def : McpDefinition) : Prop :=
  dict_get "system_prompt" d = Some (JStr (system_prompt def))
  /\ dict_get "input_schema_description" d
     = Some (JStr (input_schema_description def))
  /\ dict_get "output_schema_description" d
     = Some (JStr (output_schema_description def))
  /\ dict_get "constraints" d = Some (JArr (List.map JStr (def_constraints def)))
  /\ ((dict_get "examples" d = None /\ examples def = [])
      \/ exists items, dict_get "examples" d = Some (JArr items)
                       /\ Forall2 example_item items (examples def)).

End Models.
Export Models.

(* ===================================================================== *)
(** * vector_store_services.py and the Chroma index                      *)
(* ===================================================================== *)

Module VectorStore.

(** Metadata values attached to a chunk: [source] is a string, [user_id]
    and [mcp_id] are integers. *)
Inductive meta_value : Type :=
| MInt (z : Z)
| MStr (s : string).

#[global] Instance meta_value_eq_dec : EqDecision meta_value.
Proof. solve_decision. Defined.

Definition metadata_t : Type := list (string * meta_value).

Fixpoint meta_get (key : string) (md : metadata_t) : option meta_value :=
  match md with
  | [] => None
  | (k, v) :: rest => if String.eqb k key then Some v else meta_get key rest
  end.

(** A LangChain [Document]. *)
Record Document : Type := {
  page_content : string;
  metadata : metadata_t
}.

(** One row of a collection: the id given to [add_texts] and the document. *)
Record entry : Type := {
  entry_id : string;
  entry_doc : Document
}.

(** A Chroma [where] filter: [{key: value}] and [{"$and": [...]}]. *)
Inductive where_clause : Type :=
| WhereEq (key : string) (value : meta_value)
| WhereAnd (clauses : list where_clause).

Fixpoint where_matches (w : where_clause) (md : metadata_t) : bool :=
  match w with
  | WhereEq key value =>
      match meta_get key md with
      | Some v => bool_decide (v = value)
      | None => false
      end
  | WhereAnd clauses =>
      (fix all (cs : list where_clause) : bool :=
         match cs with
         | [] => true
         | c :: cs' => where_matches c md && all cs'
         end) clauses
  end.

(** No [where] argument: every row is a candidate. *)
Definition where_opt_matches (w : option where_clause) (md : metadata_t) : bool :=
  match w with
  | None => true
  | Some c => where_matches c md
  end.

(** [chromadb.HttpClient(host, port)] or [chromadb.PersistentClient(path)]. *)
Inductive chroma_client : Type :=
| HttpClient (host : string) (port : Z)
| PersistentClient (path : string).

#[global] Instance chroma_client_eq_dec : EqDecision chroma_client.
Proof. solve_decision. Defined.

(** The LangChain [Chroma] handle: a client and the collection it opens. *)
Record Chroma : Type := {
  client : chroma_client;
  collection_name : string
}.

(** Everything stored behind the clients: per index and collection, the
    rows in insertion order. An index is named by the descriptor of the
    client that opens it. Whether two different descriptors open one
    directory or one server is not modelled: no property below rests on
    two descriptors opening different indexes. *)
Definition chroma_world : Type := chroma_client -> string -> list entry.

Definition empty_world : chroma_world := fun _ _ => [].

Definition rows (w : chroma_world) (vs : Chroma) : list entry :=
  w (client vs) (collection_name vs).

Definition world_add (w : chroma_world) (vs : Chroma) (e : entry) : chroma_world :=
  fun c coll =>
    if bool_decide (c = client vs) && String.eqb coll (collection_name vs)
    then (w c coll ++ [e])%list
    else w c coll.

Section Index.

(** The embedding model and the index metric: the distance between the
    query and a stored text, and its order (lower is closer). *)
Variable score : Type.
Variable score_leb : score -> score -> bool.
Variable distance : string -> string -> score.

Fixpoint insert_by_score (x : Document * score) (l : list (Document * score))
  : list (Document * score) :=
  match l with
  | [] => [x]
  | y :: rest =>
      if score_leb (snd y) (snd x) then y :: insert_by_score x rest
      else x :: y :: rest
  end.

Fixpoint sort_by_score (l : list (Document * score)) : list (Document * score) :=
  match l with
  | [] => []
  | x :: rest => insert_by_score x (sort_by_score rest)
  end.

(** The [k] nearest rows among those the [where] filter admits, by
    ascending distance. *)
Definition nearest (w : chroma_world) (vs : Chroma)
    (query : string) (k : Z) (filter : option where_clause)
  : list (Document * score) :=
  let candidates :=
    List.filter (fun e => where_opt_matches filter (metadata (entry_doc e)))
                (rows w vs) in
  let scored :=
    List.map (fun e => (entry_doc e, distance query (page_content (entry_doc e))))
             candidates in
  firstn (Z.to_nat k) (sort_by_score scored).

(** The collection query behind both search calls. The index refuses a
    number of results that is not positive. *)
Definition query_collection (w : chroma_world) (vs : Chroma)
    (query : string) (k : Z) (filter : option where_clause)
  : result (list (Document * score)) :=
  if k <=? 0 then
    Raise (TypeError ("Number of requested results " ++ str_of_Z k
                      ++ ", cannot be negative, or zero."))
  else Ok (nearest w vs query k filter).

(** [vector_store.similarity_search_with_score(query, k, filter)].
    [fault] is what the embedding call or the index raises on this
    call, if anything. *)
Definition similarity_search_with_score (fault : option exn)
    (w : chroma_world) (vs : Chroma)
    (query : string) (k : Z) (filter : option where_clause)
  : result (list (Document * score)) :=
  match fault with
  | Some e => Raise e
  | None => query_collection w vs query k filter
  end.

(** [vector_store.similarity_search(query, k, filter)]: the documents
    only. *)
Definition similarity_search (fault : option exn)
    (w : chroma_world) (vs : Chroma)
    (query : string) (k : Z) (filter : option where_clause)
  : result (list Document) :=
  match similarity_search_with_score fault w vs query k filter with
  | Ok rs => Ok (List.map fst rs)
  | Raise e => Raise e
  end.

(** The [TypeError] of a call that is given one keyword twice; the
    message names the callee and is seen in the log only. *)
Definition where_given_twice : exn :=
  TypeError
    ("langchain_community.vectorstores.chroma.Chroma.__query_collection()"
     ++ " got multiple values for keyword argument 'where'").

(** [vector_store.similarity_search(query, k, filter, where=...)]: the
    method embeds the query and hands [filter] to the collection query
    under the keyword [where], next to the keywords it does not know.
    A [where] keyword of the caller is one of those, so the collection
    query is then given [where] twice and the call raises. *)
Definition similarity_search_keywords (fault : option exn)
    (w : chroma_world) (vs : Chroma)
    (query : string) (k : Z) (filter where_keyword : option where_clause)
  : result (list Document) :=
  match where_keyword with
  | None => similarity_search fault w vs query k filter
  | Some _ =>
      match fault with
      | Some e => Raise e
      | None => Raise where_given_twice
      end
  end.

End Index.

(** [vector_store.add_texts(texts=[t], metadatas=[m], ids=[i])]. *)
Definition add_texts (fault : option exn) (w : chroma_world) (vs : Chroma)
    (text : string) (md : metadata_t) (chunk_id : string) : result chroma_world :=
  match fault with
  | Some e => Raise e
  | None =>
      Ok (world_add w vs {| entry_id := chunk_id;
                            entry_doc := {| page_content := text; metadata := md |} |})
  end.

(** [vector_store.get(where=..., include=["metadatas"])]. *)
Definition get_metadatas (fault : option exn) (w : chroma_world) (vs : Chroma)
    (filter : where_clause) : result (list metadata_t) :=
  match fault with
  | Some e => Raise e
  | None =>
      Ok (List.map (fun e => metadata (entry_doc e))
            (List.filter (fun e => where_matches filter (metadata (entry_doc e)))
                         (rows w vs)))
  end.

(** The scope filter both scoped call sites build:
    [{"$and": [{"mcp_id": mcp_id}, {"user_id": user.id}]}]. *)
Definition scope_filter (mcp_id uid : Z) : where_clause :=
  WhereAnd [WhereEq "mcp_id" (MInt mcp_id); WhereEq "user_id" (MInt uid)].

Section Service.

(** [os.getenv]. *)
Variable env : gmap string string.
(** Python's [int(s)]. *)
Variable int_of_str : string -> result Z.
(** Constructing the HTTP client and calling [client.heartbeat()]:
    returns, or raises when the server does not answer. *)
Variable heartbeat : string -> Z -> result unit.

Definition getenv (key : string) : option string := env !! key.
Definition getenv_default (key dflt : string) : string :=
  match env !! key with Some v => v | None => dflt end.

(** [if chroma_host:] -- set and not empty. *)
Definition host_configured : option string :=
  match getenv "CHROMA_HOST" with
  | Some h => if String.eqb h "" then None else Some h
  | None => None
  end.

(** The body of [get_vector_store()]. *)
Definition get_vector_store_body : result chroma_client :=
  let chroma_port := getenv_default "CHROMA_PORT" "8000" in
  match host_configured with
  | Some chroma_host =>
      match int_of_str chroma_port with
      | Raise e => Raise e
      | Ok port =>
          match heartbeat chroma_host port with
          | Raise e => Raise e
          | Ok _ => Ok (HttpClient chroma_host port)
          end
      end
  | None =>
      let local_path := getenv_default "CHROMA_LOCAL_PATH" "./chroma_data" in
      Ok (PersistentClient local_path)
  end.

(** [@lru_cache(maxsize=1) def get_vector_store()]: the first returned
    client is kept; a raised exception is not cached. *)
Definition get_vector_store (cache : option chroma_client)
  : result chroma_client * option chroma_client :=
  match cache with
  | Some c => (Ok c, cache)
  | None =>
      match get_vector_store_body with
      | Ok c => (Ok c, Some c)
      | Raise e => (Raise e, None)
      end
  end.

(** [get_vector_store_dependency()]; [embeddings_fault] is what
    [OpenAIEmbeddings()] raises, if anything. *)
Definition get_vector_store_dependency (embeddings_fault : option exn)
    (cache : option chroma_client)
  : result Chroma * option chroma_client :=
  match get_vector_store cache with
  | (Raise e, cache') => (Raise e, cache')
  | (Ok c, cache') =>
      match embeddings_fault with
      | Some e => (Raise e, cache')
      | None =>
          (Ok {| client := c; collection_name := "intellimcp_documents" |}, cache')
      end
  end.

End Service.

End VectorStore.
Export VectorStore.

(* ===================================================================== *)
(** * database.py: the session over the [mcp] table                       *)
(* ===================================================================== *)

Module Database.

(** The [mcp] table, by primary key. *)
Abbreviation table := (gmap Z Mcp).

(** [session.exec(select(Mcp).where(Mcp.id == mcp_id,
                                   Mcp.owner_id == user.id)).first()]. *)
Definition select_owned (db : table) (mcp_id : Z) (user : User) : option Mcp :=
  match db !! mcp_id with
  | Some r => if owner_id r =? user_id user then Some r else None
  | None => None
  end.

(** [session.add(r); session.commit()]: the row is written, unless the
    store rejects the write ([fault]), in which case the caller's
    [session.rollback()] leaves the table as it was. *)
Definition commit (fault : option exn) (db : table) (r : Mcp) : result table :=
  match fault with
  | Some e => Raise e
  | None => Ok (<[id r := r]> db)
  end.

End Database.
Export Database.

(* ===================================================================== *)
(** * routers/context.py                                                  *)
(* ===================================================================== *)

Module Context.

Definition CHROMA_PERSIST_DIR : string := "./chroma_data".
Definition COLLECTION_NAME : string := "mcp_context_documents".

(** [get_vector_store(embeddings)]: the router's own handle on the local
    store. *)
Definition get_vector_store : Chroma :=
  {| client := PersistentClient CHROMA_PERSIST_DIR;
     collection_name := COLLECTION_NAME |}.

(** [class RetrievalRequest(BaseModel)]; [k] defaults to 4. *)
Record RetrievalRequest : Type := {
  query : string;
  k : Z
}.

Section Retrieve.

Variable score : Type.
Variable score_leb : score -> score -> bool.
Variable distance : string -> string -> score.

(** [class RetrievedChunk(BaseModel)]. *)
Record RetrievedChunk : Type := {
  chunk_page_content : string;
  chunk_metadata : metadata_t;
  chunk_score : score
}.

(** [POST /context/retrieve]. [fault] is what opening the store,
    embedding the query or the search raises, if anything. *)
Definition retrieve_context (fault : option exn) (w : chroma_world)
    (request : RetrievalRequest) : response (list RetrievedChunk) :=
  match similarity_search_with_score score score_leb distance fault w
          get_vector_store (query request) (k request) None with
  | Ok results_with_scores =>
      Return (List.map
                (fun ds => {| chunk_page_content := page_content (fst ds);
                              chunk_metadata := metadata (fst ds);
                              chunk_score := snd ds |})
                results_with_scores)
  | Raise e =>
      if is_RuntimeError e
      then HTTPException 503 (exn_str e)
      else HTTPException 500 ("Failed to retrieve context: " ++ exn_str e)
  end.

End Retrieve.

Arguments chunk_page_content {score} _.
Arguments chunk_metadata {score} _.
Arguments chunk_score {score} _.

End Context.

(* ===================================================================== *)
(** * routers/generation.py                                               *)
(* ===================================================================== *)

Module Generation.

Definition NL : string := String (ascii_of_nat 10) EmptyString.

(** The initial value of [retrieved_chunks_str]. *)
Definition no_context : string :=
  "No relevant context found for this specific MCP.".

(** The separator of the join: a blank line, three dashes, a blank line. *)
Definition chunk_separator : string := NL ++ NL ++ "---" ++ NL ++ NL.

(** [class GenerationJsonResponse(BaseModel)]. *)
Record GenerationJsonResponse : Type := {
  definition_json : McpDefinition
}.

Section Generate.

Variable score : Type.
Variable score_leb : score -> score -> bool.
Variable distance : string -> string -> score.

(** [parser.get_format_instructions()]. *)
Variable format_instructions : string.
(** The chat model: system and human message in, raw completion out. *)
Variable llm : string -> string -> result string.
(** [JsonOutputParser]: the raw completion read as JSON. *)
Variable parser : string -> result json.

(** Step 2: the search for context. The scope filter is passed under
    the keyword [where]; [filter] is left at its default. *)
Definition context_search (search_fault : option exn) (w : chroma_world)
    (vector_store : Chroma) (mcp_record : Mcp) (mcp_id : Z) (user : User)
  : result (list Document) :=
  let context_query := "Context relevant to: " ++ goal mcp_record in
  let filter_dict := scope_filter mcp_id (user_id user) in
  similarity_search_keywords score score_leb distance search_fault w vector_store
    context_query 5 None (Some filter_dict).

(** Step 2: the value of [retrieved_chunks_str] after the [try] block,
    from what the search gave. A failed search is logged and the initial
    value is kept. *)
Definition context_block (found : result (list Document)) : string :=
  match found with
  | Ok results =>
      match results with
      | [] => no_context
      | _ => join chunk_separator (List.map page_content results)
      end
  | Raise _ => no_context
  end.

Definition retrieved_chunks_str (search_fault : option exn) (w : chroma_world)
    (vector_store : Chroma) (mcp_record : Mcp) (mcp_id : Z) (user : User)
  : string :=
  context_block (context_search search_fault w vector_store mcp_record mcp_id user).

(** Step 4: the two prompt templates, formatted. *)
Definition system_message : string :=
  "You are an expert assistant creating structured Model Context Protocols (MCPs) in JSON format. "
  ++ "Your sole output MUST be a single, valid JSON object adhering EXACTLY to the following schema. "
  ++ "Do NOT include any other text, explanations, or markdown formatting outside of the JSON object. "
  ++ "Do NOT include the input parameters (like mcp_name, mcp_goal) in the output JSON itself."
  ++ NL ++ NL ++ "JSON Schema:" ++ NL ++ format_instructions ++ NL.

(** The human template up to [{retrieved_context}], the record's
    fields filled in, and the template after it. *)
Definition human_before (mcp_record : Mcp) : string :=
  "Based on the following details, generate the MCP JSON object:" ++ NL ++ NL
  ++ "**MCP Name:** " ++ name mcp_record ++ NL
  ++ "**Domain:** " ++ domain mcp_record ++ NL
  ++ "**Primary Goal:** " ++ goal mcp_record ++ NL
  ++ "**Key Roles:** " ++ roles mcp_record ++ NL ++ NL
  ++ "**Relevant Context:**" ++ NL ++ "---" ++ NL.

Definition human_after : string :=
  NL ++ "---" ++ NL ++ NL
  ++ "Respond ONLY with the valid JSON object matching the schema provided in the system prompt:".

Definition human_message (mcp_record : Mcp) (retrieved_context : string) : string :=
  human_before mcp_record ++ retrieved_context ++ human_after.

(** Step 5: [chain = chat_prompt_template | llm | parser]. *)
Definition chain_ainvoke (mcp_record : Mcp) (retrieved_context : string)
  : result json :=
  match llm system_message (human_message mcp_record retrieved_context) with
  | Raise e => Raise e
  | Ok raw => parser raw
  end.

Definition failed {A} (e : exn) : response A :=
  HTTPException 500 ("Failed to generate or save MCP JSON definition: " ++ exn_str e).

(** [POST /generate/mcp/{mcp_id}]: the response and the table after the
    request. *)
Definition generate_mcp_json (db : table) (w : chroma_world)
    (vector_store : Chroma) (search_fault commit_fault : option exn)
    (now : Z) (mcp_id : Z) (user : User)
  : response GenerationJsonResponse * table :=
  match select_owned db mcp_id user with
  | None =>
      (HTTPException 404
         ("MCP with ID " ++ str_of_Z mcp_id ++ " not found or not owned by user."),
       db)
  | Some mcp_record =>
      let context :=
        retrieved_chunks_str search_fault w vector_store mcp_record mcp_id user in
      match chain_ainvoke mcp_record context with
      | Raise e => (failed e, db)
      | Ok generated_json_dict =>
          let mcp_record' :=
            {| id := id mcp_record;
               name := name mcp_record;
               domain := domain mcp_record;
               goal := goal mcp_record;
               roles := roles mcp_record;
               constraints := constraints mcp_record;
               created_at := created_at mcp_record;
               updated_at := now;
               owner_id := owner_id mcp_record;
               generated_content := generated_content mcp_record;
               Models.definition_json := generated_json_dict |} in
          match commit commit_fault db mcp_record' with
          | Raise e => (failed e, db)
          | Ok db' =>
              match McpDefinition_validate generated_json_dict with
              | Ok def => (Return {| definition_json := def |}, db')
              | Raise e => (failed e, db')
              end
          end
      end
  end.

End Generate.

End Generation.

(* ===================================================================== *)
(** * The text splitter used by ingestion                                 *)
(* ===================================================================== *)

(** [ingestion.py] splits with langchain's [RecursiveCharacterTextSplitter],
    whose code is not among the sources; what follows is the splitting
    policy of section 4.1 of the specification, carried out the way that
    class documents it (separators kept at the head of the piece they
    start, white space removed around every chunk, a chunk with no text
    left dropped). Lengths are counted in characters below 128. *)
Module TextSplitter.

Local Open Scope nat_scope.

(** [str.isspace] on one character: tab to carriage return, the four
    separators and the space. *)
Definition isspace (c : ascii) : bool :=
  let n := nat_of_ascii c in
  (9 <=? n) && (n <=? 13) || (28 <=? n) && (n <=? 32).

Fixpoint lstrip (s : string) : string :=
  match s with
  | EmptyString => EmptyString
  | String c rest => if isspace c then lstrip rest else s
  end.

Fixpoint rstrip (s : string) : string :=
  match s with
  | EmptyString => EmptyString
  | String c rest =>
      match rstrip rest with
      | EmptyString => if isspace c then EmptyString else String c EmptyString
      | kept => String c kept
      end
  end.

(** [s.strip()]. *)
Definition strip (s : string) : string := rstrip (lstrip s).

Section Merge.

Context {A : Type}.
Variable len : A -> nat.
Variable chunk_size chunk_overlap : nat.

(** The length of a window: the lengths of its pieces, added up. *)
Definition total (cur : list A) : nat := list_sum (List.map len cur).

(** Modelled from the spec: the window bookkeeping of the splitter. After
    a window is emitted, pieces are dropped from its front until what
    is left is within the overlap and leaves room for the next piece of
    length [next]. *)
Fixpoint shrink (next : nat) (cur : list A) : list A :=
  match cur with
  | [] => []
  | _ :: rest =>
      if (chunk_overlap <? total cur)
         || ((chunk_size <? total cur + next) && (0 <? total cur))
      then shrink next rest
      else cur
  end.

(** Modelled from the spec: pieces are gathered into the current window
    while they fit in [chunk_size]; when the next piece does not fit the
    window is emitted and the following one starts from its tail (the
    overlap). *)
Fixpoint merge_from (cur : list A) (pieces : list A) : list (list A) :=
  match pieces with
  | [] => match cur with [] => [] | _ => [cur] end
  | d :: rest =>
      if chunk_size <? total cur + len d then
        match cur with
        | [] => merge_from [d] rest
        | _ => cur :: merge_from (shrink (len d) cur ++ [d])%list rest
        end
      else merge_from (cur ++ [d])%list rest
  end.

End Merge.

Definition concat_str (pieces : list string) : string :=
  List.fold_right String.append EmptyString pieces.

(** Modelled from the spec: the text of a window. Its pieces are put
    together, the white space around the text is removed, and a window
    with no text left gives no chunk. *)
Definition join_docs (pieces : list string) : option string :=
  let text := strip (concat_str pieces) in
  if String.eqb text EmptyString then None else Some text.

(** [sep in text], for a non-empty [sep]. *)
Fixpoint contains (sep text : string) : bool :=
  match text with
  | EmptyString => false
  | String _ rest => String.prefix sep text || contains sep rest
  end.

(** Modelled from the spec: cutting [text] at every occurrence of [sep],
    each separator staying at the head of the piece it starts. [skip]
    counts the characters of a matched separator still to be copied,
    [cur] is the piece being built. *)
Fixpoint split_keep (sep : string) (skip : nat) (cur : string) (text : string)
  : list string :=
  match text with
  | EmptyString => [cur]
  | String c rest =>
      match skip with
      | S n => split_keep sep n (cur ++ String c EmptyString) rest
      | O =>
          if String.prefix sep text
          then cur :: split_keep sep (String.length sep - 1) (String c EmptyString) rest
          else split_keep sep 0 (cur ++ String c EmptyString) rest
      end
  end.

Definition nonempty (s : string) : bool := negb (String.eqb s EmptyString).

Definition split_on (sep text : string) : list string :=
  List.filter nonempty (split_keep sep 0 EmptyString text).

Section Splitter.

Variable chunk_size chunk_overlap : nat.

(** Modelled from the spec: windows over a list of pieces, each window
    rendered as its text. *)
Definition merge_splits (pieces : list string) : list string :=
  omap join_docs (merge_from String.length chunk_size chunk_overlap [] pieces).

(** Modelled from the spec: pieces shorter than the window are merged;
    a piece that is too long is split again with the finer separators
    ([finer]), after the pieces gathered so far are flushed. *)
Fixpoint split_pieces (finer : string -> list string)
    (pieces good : list string) : list string :=
  match pieces with
  | [] => merge_splits good
  | s :: rest =>
      if String.length s <? chunk_size
      then split_pieces finer rest (good ++ [s])%list
      else (merge_splits good ++ finer s ++ split_pieces finer rest [])%list
  end.

Definition characters (text : string) : list string :=
  List.map (fun c => String c EmptyString) (list_ascii_of_string text).

(** Modelled from the spec: the recursive character splitter that
    [ingestion.py] imports (its class is not part of the repository's
    sources; the handler only fixes its two parameters). Section 4.1:
    the text is split into overlapping windows of at most [chunk_size]
    characters with [chunk_overlap] characters of overlap, trying
    progressively finer separators so that windows break on natural
    boundaries; when no separator is left the text is cut between
    characters. *)
Fixpoint split_text (separators : list string) (text : string) : list string :=
  match separators with
  | [] => merge_splits (characters text)
  | sep :: finer =>
      if contains sep text
      then split_pieces (split_text finer) (split_on sep text) []
      else split_text finer text
  end.

End Splitter.

Definition NL : string := String (ascii_of_nat 10) EmptyString.

(** Modelled from the spec: the separators tried in turn -- paragraph
    break, line break, word break; single characters come last. *)
Definition separators : list string := [(NL ++ NL)%string; NL; " "%string].

(** [text] holds no white-space character, so none of the separators. *)
Definition no_whitespace (text : string) : bool :=
  forallb (fun c => negb (isspace c)) (list_ascii_of_string text).

(** The character at position [i] of [text], as a piece. *)
Definition piece_at (text : string) (i : nat) : string :=
  String (nth i (list_ascii_of_string text) " "%char) EmptyString.

End TextSplitter.

(* ===================================================================== *)
(** * routers/ingestion.py                                                *)
(* ===================================================================== *)

Module Ingestion.

(** The loader classes of [allowed_content_types]. *)
Inductive Loader : Type :=
| PyPDFLoader
| Docx2txtLoader
| TextLoader.

(** [allowed_content_types[file.content_type]], [None] when the key is
    absent. *)
Definition allowed_content_types (content_type : string) : option Loader :=
  if String.eqb content_type "application/pdf" then Some PyPDFLoader
  else if String.eqb content_type
            "application/vnd.openxmlformats-officedocument.wordprocessingml.document"
  then Some Docx2txtLoader
  else if String.eqb content_type "text/plain" then Some TextLoader
  else None.

Definition allowed_keys : string :=
  "['application/pdf', 'application/vnd.openxmlformats-officedocument.wordprocessingml.document', 'text/plain']".

(** [UploadFile]. *)
Record UploadFile : Type := {
  filename : string;
  content_type : string;
  file : string
}.

(** The dict a successful call returns ([mcp_id] is absent from the
    nothing-extracted answer). *)
Record IngestResult : Type := {
  result_filename : string;
  result_mcp_id : option Z;
  message : string
}.

Definition CHUNK_SIZE : nat := 1000.
Definition CHUNK_OVERLAP : nat := 200.

(** [text_splitter.split_documents(documents)] with
    [RecursiveCharacterTextSplitter(chunk_size=1000, chunk_overlap=200)]:
    every document is split, its metadata carried to each chunk. *)
Definition split_documents (documents : list Document) : list Document :=
  List.flat_map
    (fun d =>
       List.map (fun t => {| page_content := t; metadata := metadata d |})
         (TextSplitter.split_text CHUNK_SIZE CHUNK_OVERLAP
            TextSplitter.separators (page_content d)))
    documents.

(** The metadata attached to every chunk of one upload. *)
Definition chunk_metadata (source : string) (user : User) (mcp_id : Z) : metadata_t :=
  [("source", MStr source); ("user_id", MInt (user_id user)); ("mcp_id", MInt mcp_id)].

Section Ingest.

(** [Loader(path).load()] on the saved upload. *)
Variable load : Loader -> string -> result (list Document).
(** The ids [uuid4()] yields, in call order. *)
Variable uuid4 : nat -> string.
(** What the [i]-th [add_texts] call of the request raises, if
    anything. *)
Variable write_fault : nat -> option exn.

(** [for i, chunk in enumerate(chunks): vector_store.add_texts(...)],
    from index [i] on. The second component is the index after the
    loop, or after the call that raised. *)
Fixpoint add_chunks (vector_store : Chroma) (metadatas : list metadata_t)
    (i : nat) (chunks : list Document) (w : chroma_world)
  : option exn * chroma_world :=
  match chunks with
  | [] => (None, w)
  | chunk :: rest =>
      match metadatas !! i with
      | None => (Some (IndexError "list index out of range"), w)
      | Some md =>
          match add_texts (write_fault i) w vector_store
                  (page_content chunk) md (uuid4 i) with
          | Raise e => (Some e, w)
          | Ok w' => add_chunks vector_store metadatas (S i) rest w'
          end
      end
  end.

(** [POST /ingest/upload/file/{mcp_id}]: the response and the index
    after the request. [save_fault] is what copying the upload to the
    temporary file raises, if anything. *)
Definition ingest_file (w : chroma_world) (vector_store : Chroma)
    (save_fault : option exn) (mcp_id : Z) (upload : UploadFile) (user : User)
  : response IngestResult * chroma_world :=
  match allowed_content_types (content_type upload) with
  | None =>
      (HTTPException 400 ("Invalid file type. Allowed types: " ++ allowed_keys), w)
  | Some loader =>
      match save_fault with
      | Some _ => (HTTPException 500 "Error saving uploaded file.", w)
      | None =>
          match load loader (file upload) with
          | Raise e =>
              (HTTPException 500 ("Error processing document: " ++ exn_str e), w)
          | Ok [] =>
              (Return {| result_filename := filename upload;
                         result_mcp_id := None;
                         message := "File received, but no content could be extracted." |},
               w)
          | Ok documents =>
              let chunks := split_documents documents in
              let metadatas :=
                List.map (fun _ => chunk_metadata (filename upload) user mcp_id) chunks in
              match add_chunks vector_store metadatas 0 chunks w with
              | (Some e, w') =>
                  (HTTPException 500
                     ("Error storing document embeddings: " ++ exn_str e), w')
              | (None, w') =>
                  (Return {| result_filename := filename upload;
                             result_mcp_id := Some mcp_id;
                             message :=
                               "File processed and " ++ str_of_nat (length chunks)
                               ++ " chunks stored successfully for MCP "
                               ++ str_of_Z mcp_id ++ "." |},
                   w')
              end
          end
      end
  end.

End Ingest.

End Ingestion.

(* ===================================================================== *)
(** * JSON on the wire                                                    *)
(* ===================================================================== *)

(** What [JSONResponse] writes -- [json.dumps(content, ensure_ascii=False,
    separators=(",", ":"))] -- and how a client reads this compact form
    back. Strings are byte strings; bytes above 127 pass through. *)
Module JsonText.

Definition DQUOTE : ascii := ascii_of_nat 34.
Definition BACKSLASH : ascii := ascii_of_nat 92.

Definition hex_digit (n : nat) : ascii :=
  match n with
  | 0%nat => "0" | 1%nat => "1" | 2%nat => "2" | 3%nat => "3" | 4%nat => "4"
  | 5%nat => "5" | 6%nat => "6" | 7%nat => "7" | 8%nat => "8" | 9%nat => "9"
  | 10%nat => "a" | 11%nat => "b" | 12%nat => "c" | 13%nat => "d"
  | 14%nat => "e" | _ => "f"
  end%char.

Definition hex_value (c : ascii) : option nat :=
  let n := nat_of_ascii c in
  if (48 <=? n)%nat && (n <=? 57)%nat then Some (n - 48)%nat
  else if (97 <=? n)%nat && (n <=? 102)%nat then Some (n - 87)%nat
  else if (65 <=? n)%nat && (n <=? 70)%nat then Some (n - 55)%nat
  else None.

(** One character of a string literal, escaped as [json.dumps] does. *)
Definition escape_char (c : ascii) : string :=
  let n := nat_of_ascii c in
  if Ascii.eqb c DQUOTE then String BACKSLASH (String DQUOTE EmptyString)
  else if Ascii.eqb c BACKSLASH then String BACKSLASH (String BACKSLASH EmptyString)
  else if (n =? 10)%nat then String BACKSLASH "n"
  else if (n =? 13)%nat then String BACKSLASH "r"
  else if (n =? 9)%nat then String BACKSLASH "t"
  else if (n =? 8)%nat then String BACKSLASH "b"
  else if (n =? 12)%nat then String BACKSLASH "f"
  else if (n <? 32)%nat then
    String BACKSLASH
      (String "u" (String "0" (String "0"
         (String (hex_digit (n / 16)) (String (hex_digit (n mod 16)) EmptyString)))))
  else String c EmptyString.

Fixpoint escape (s : string) : string :=
  match s with
  | EmptyString => EmptyString
  | String c rest => escape_char c ++ escape rest
  end.

Definition quote (s : string) : string :=
  String DQUOTE (escape s ++ String DQUOTE EmptyString).

(** [json.dumps] in compact form. *)
Fixpoint dumps (j : json) : string :=
  match j with
  | JNull => "null"
  | JBool true => "true"
  | JBool false => "false"
  | JInt z => str_of_Z z
  | JStr s => quote s
  | JArr items =>
      "[" ++ join ","
               ((fix each (l : list json) : list string :=
                   match l with
                   | [] => []
                   | x :: rest => dumps x :: each rest
                   end) items)
          ++ "]"
  | JObj members =>
      "{" ++ join ","
               ((fix each (l : list (string * json)) : list string :=
                   match l with
                   | [] => []
                   | kv :: rest => (quote (fst kv) ++ ":" ++ dumps (snd kv)) :: each rest
                   end) members)
          ++ "}"
  end.

(** The character an escape sequence [\e] stands for. *)
Definition unescape (e : ascii) : option ascii :=
  if Ascii.eqb e DQUOTE then Some DQUOTE
  else if Ascii.eqb e BACKSLASH then Some BACKSLASH
  else if Ascii.eqb e "/" then Some "/"%char
  else if Ascii.eqb e "n" then Some (ascii_of_nat 10)
  else if Ascii.eqb e "r" then Some (ascii_of_nat 13)
  else if Ascii.eqb e "t" then Some (ascii_of_nat 9)
  else if Ascii.eqb e "b" then Some (ascii_of_nat 8)
  else if Ascii.eqb e "f" then Some (ascii_of_nat 12)
  else None.

(** [\uXXXX] below 128 (the others need more than one byte and are never
    written by [dumps]). *)
Definition unescape_u (a b c d : ascii) : option ascii :=
  match hex_value a, hex_value b, hex_value c, hex_value d with
  | Some x, Some y, Some z, Some t =>
      let n := (((x * 16 + y) * 16 + z) * 16 + t)%nat in
      if (n <? 128)%nat then Some (ascii_of_nat n) else None
  | _, _, _, _ => None
  end.

(** The rest of a string literal after its opening quote: the decoded
    characters and what follows the closing quote. *)
Fixpoint parse_chars (s : string) : option (string * string) :=
  match s with
  | EmptyString => None
  | String c rest =>
      if Ascii.eqb c DQUOTE then Some (EmptyString, rest)
      else if Ascii.eqb c BACKSLASH then
        match rest with
        | EmptyString => None
        | String e rest' =>
            if Ascii.eqb e "u" then
              match rest' with
              | String a (String b (String c' (String d rest''))) =>
                  match unescape_u a b c' d, parse_chars rest'' with
                  | Some ch, Some (str, r) => Some (String ch str, r)
                  | _, _ => None
                  end
              | _ => None
              end
            else
              match unescape e, parse_chars rest' with
              | Some ch, Some (str, r) => Some (String ch str, r)
              | _, _ => None
              end
        end
      else if (nat_of_ascii c <? 32)%nat then None
      else
        match parse_chars rest with
        | Some (str, r) => Some (String c str, r)
        | None => None
        end
  end.

Definition is_digit (c : ascii) : bool :=
  (48 <=? nat_of_ascii c)%nat && (nat_of_ascii c <=? 57)%nat.

(** The longest run of digits at the head of [s], and the rest. *)
Fixpoint span_digits (s : string) : string * string :=
  match s with
  | EmptyString => (EmptyString, EmptyString)
  | String c rest =>
      if is_digit c
      then let '(ds, r) := span_digits rest in (String c ds, r)
      else (EmptyString, s)
  end.

(** An integer literal: an optional minus sign and digits. *)
Definition parse_int (s : string) : option (Z * string) :=
  match s with
  | String c rest =>
      if Ascii.eqb c "-" then
        match span_digits rest with
        | (EmptyString, _) => None
        | (ds, r) =>
            match NilZero.uint_of_string ds with
            | Some u => Some (Z.opp (Z.of_uint u), r)
            | None => None
            end
        end
      else
        match span_digits s with
        | (EmptyString, _) => None
        | (ds, r) =>
            match NilZero.uint_of_string ds with
            | Some u => Some (Z.of_uint u, r)
            | None => None
            end
        end
  | EmptyString => None
  end.

(** [d[k] = v] on a dict under construction: an existing key keeps its
    place and takes the new value. *)
Fixpoint dict_set (d : list (string * json)) (k : string) (v : json)
  : list (string * json) :=
  match d with
  | [] => [(k, v)]
  | (k', v') :: rest =>
      if String.eqb k' k then (k', v) :: rest else (k', v') :: dict_set rest k v
  end.

Definition dict_of_pairs (pairs : list (string * json)) : list (string * json) :=
  List.fold_left (fun d kv => dict_set d (fst kv) (snd kv)) pairs [].

(** [s] without its prefix [lit], when it has that prefix. *)
Fixpoint expect (lit : string) (s : string) : option string :=
  match lit with
  | EmptyString => Some s
  | String a lit' =>
      match s with
      | EmptyString => None
      | String b s' => if Ascii.eqb a b then expect lit' s' else None
      end
  end.

(** Recursive descent over the compact form; [fuel] bounds the depth of
    the descent. Integer literals are read leniently (leading zeros are
    accepted; [dumps] never writes them). *)
Fixpoint parse_value (fuel : nat) (s : string) : option (json * string) :=
  match fuel with
  | O => None
  | S n =>
      match s with
      | EmptyString => None
      | String c rest =>
          if Ascii.eqb c "n" then
            match expect "ull" rest with Some r => Some (JNull, r) | None => None end
          else if Ascii.eqb c "t" then
            match expect "rue" rest with Some r => Some (JBool true, r) | None => None end
          else if Ascii.eqb c "f" then
            match expect "alse" rest with Some r => Some (JBool false, r) | None => None end
          else if Ascii.eqb c DQUOTE then
            match parse_chars rest with
            | Some (str, r) => Some (JStr str, r)
            | None => None
            end
          else if Ascii.eqb c "[" then
            match rest with
            | EmptyString => None
            | String c' r =>
                if Ascii.eqb c' "]" then Some (JArr [], r)
                else
                  match parse_items n rest with
                  | Some (items, r') => Some (JArr items, r')
                  | None => None
                  end
            end
          else if Ascii.eqb c "{" then
            match rest with
            | EmptyString => None
            | String c' r =>
                if Ascii.eqb c' "}" then Some (JObj [], r)
                else
                  match parse_members n rest with
                  | Some (pairs, r') => Some (JObj (dict_of_pairs pairs), r')
                  | None => None
                  end
            end
          else
            match parse_int s with
            | Some (z, r) => Some (JInt z, r)
            | None => None
            end
      end
  end
with parse_items (fuel : nat) (s : string) : option (list json * string) :=
  match fuel with
  | O => None
  | S n =>
      match parse_value n s with
      | Some (v, String c r) =>
          if Ascii.eqb c "," then
            match parse_items n r with
            | Some (vs, r') => Some (v :: vs, r')
            | None => None
            end
          else if Ascii.eqb c "]" then Some ([v], r)
          else None
      | _ => None
      end
  end
with parse_members (fuel : nat) (s : string)
  : option (list (string * json) * string) :=
  match fuel with
  | O => None
  | S n =>
      match s with
      | EmptyString => None
      | String q rest =>
          if Ascii.eqb q DQUOTE then
            match parse_chars rest with
            | Some (key, String c r) =>
                if Ascii.eqb c ":" then
                  match parse_value n r with
                  | Some (v, String c' r') =>
                      if Ascii.eqb c' "," then
                        match parse_members n r' with
                        | Some (kvs, r'') => Some ((key, v) :: kvs, r'')
                        | None => None
                        end
                      else if Ascii.eqb c' "}" then Some ([(key, v)], r')
                      else None
                  | _ => None
                  end
                else None
            | _ => None
            end
          else None
      end
  end.

(** Reading a whole text: one value and nothing after it. *)
Definition loads (s : string) : option json :=
  match parse_value (S (String.length s)) s with
  | Some (v, EmptyString) => Some v
  | _ => None
  end.

(** The keys of a dict are pairwise different. *)
Fixpoint keys_distinct (keys : list string) : bool :=
  match keys with
  | [] => true
  | k :: rest => negb (existsb (String.eqb k) rest) && keys_distinct rest
  end.

(** A value built from Python dicts and lists: at every level the keys
    of a dict are distinct. *)
Fixpoint well_formed (j : json) : bool :=
  match j with
  | JArr items => forallb well_formed items
  | JObj members =>
      keys_distinct (List.map fst members)
      && forallb (fun kv => well_formed (snd kv)) members
  | _ => true
  end.

(** Depth of descent that reading back the text of [j] takes. *)
Fixpoint fuel_of (j : json) : nat :=
  match j with
  | JArr items => S (list_sum (List.map (fun x => S (fuel_of x)) items))
  | JObj members =>
      S (list_sum (List.map (fun kv => S (fuel_of (snd kv))) members))
  | _ => 1%nat
  end.

Section JsonInduction.

Variable P : json -> Prop.
Hypothesis Hnull : P JNull.
Hypothesis Hbool : forall b, P (JBool b).
Hypothesis Hint : forall z, P (JInt z).
Hypothesis Hstr : forall s, P (JStr s).
Hypothesis Harr : forall items, Forall P items -> P (JArr items).
Hypothesis Hobj :
  forall members, Forall (fun kv => P (snd kv)) members -> P (JObj members).

(** Induction on a value with the hypothesis available for every element
    of a list and every value of a dict. *)
Fixpoint json_induction (j : json) : P j :=
  match j with
  | JNull => Hnull
  | JBool b => Hbool b
  | JInt z => Hint z
  | JStr s => Hstr s
  | JArr items =>
      Harr items
        ((fix all (l : list json) : Forall P l :=
            match l with
            | [] => @List.Forall_nil _ P
            | x :: rest => @List.Forall_cons _ P x rest (json_induction x) (all rest)
            end) items)
  | JObj members =>
      Hobj members
        ((fix all (l : list (string * json)) : Forall (fun kv => P (snd kv)) l :=
            match l with
            | [] => @List.Forall_nil _ _
            | kv :: rest =>
                @List.Forall_cons _ (fun kv => P (snd kv)) kv rest
                  (json_induction (snd kv)) (all rest)
            end) members)
  end.

End JsonInduction.

(** What follows an integer literal must not continue it. *)
Definition no_digit_ahead (rest : string) : Prop :=
  match rest with
  | EmptyString => True
  | String c _ => JsonText.is_digit c = false
  end.

(** The text of one member of a dict. *)
Definition member_text (kv : string * json) : string :=
  quote (fst kv) ++ ":" ++ dumps (snd kv).

(** Reading back the text of [j], whatever follows it. *)
Definition reads_back (j : json) : Prop :=
  forall n rest,
    well_formed j = true ->
    (fuel_of j <= n)%nat ->
    no_digit_ahead rest ->
    parse_value n (dumps j ++ rest)
    = Some (j, rest).

End JsonText.

(* ===================================================================== *)
(** * routers/mcp.py                                                      *)
(* ===================================================================== *)

Module McpRouter.

(** [class McpUpdateRequest(BaseModel)]. Every field is optional; the
    outer [option] records whether the request body set it (pydantic's
    [model_fields_set]), the inner one whether it was set to [null]. *)
Record McpUpdateRequest : Type := {
  generated_content : option (option string);
  constraints : option (option string);
  definition_json : option (option (list (string * json)));
  name : option (option string);
  domain : option (option string);
  goal : option (option string);
  roles : option (option string)
}.

(** The value of a dumped field: an optional string or an optional dict. *)
Inductive field_value : Type :=
| StrValue (v : option string)
| DictValue (v : option (list (string * json))).

Definition dump_field (key : string) (v : option field_value)
  : list (string * field_value) :=
  match v with
  | Some x => [(key, x)]
  | None => []
  end.

(** [update_data.model_dump(exclude_unset=True)]: the fields the request
    set, in declaration order. *)
Definition model_dump_exclude_unset (u : McpUpdateRequest)
  : list (string * field_value) :=
  (dump_field "generated_content" (StrValue <$> generated_content u)
   ++ dump_field "constraints" (StrValue <$> constraints u)
   ++ dump_field "definition_json" (DictValue <$> definition_json u)
   ++ dump_field "name" (StrValue <$> name u)
   ++ dump_field "domain" (StrValue <$> domain u)
   ++ dump_field "goal" (StrValue <$> goal u)
   ++ dump_field "roles" (StrValue <$> roles u))%list.

(** The [Mcp] instance held by the session. Attributes are plain Python
    attributes: each of them can hold [None], also those whose column is
    NOT NULL. *)
Record instance : Type := {
  i_id : Z;
  i_name : option string;
  i_domain : option string;
  i_goal : option string;
  i_roles : option string;
  i_constraints : option string;
  i_created_at : Z;
  i_updated_at : Z;
  i_owner_id : Z;
  i_generated_content : option string;
  i_definition_json : json
}.

Definition of_row (r : Mcp) : instance :=
  {| i_id := id r;
     i_name := Some (Models.name r);
     i_domain := Some (Models.domain r);
     i_goal := Some (Models.goal r);
     i_roles := Some (Models.roles r);
     i_constraints := Models.constraints r;
     i_created_at := created_at r;
     i_updated_at := updated_at r;
     i_owner_id := owner_id r;
     i_generated_content := Models.generated_content r;
     i_definition_json := Models.definition_json r |}.

(** The row an instance flushes to; [None] when a NOT NULL column would
    receive [None]. *)
Definition to_row (i : instance) : option Mcp :=
  match i_name i, i_domain i, i_goal i, i_roles i with
  | Some n, Some d, Some g, Some r =>
      Some {| id := i_id i;
              Models.name := n;
              Models.domain := d;
              Models.goal := g;
              Models.roles := r;
              Models.constraints := i_constraints i;
              created_at := i_created_at i;
              updated_at := i_updated_at i;
              owner_id := i_owner_id i;
              Models.generated_content := i_generated_content i;
              Models.definition_json := i_definition_json i |}
  | _, _, _, _ => None
  end.

Definition mcp_attributes : list string :=
  ["id"; "name"; "domain"; "goal"; "roles"; "constraints"; "created_at";
   "updated_at"; "owner_id"; "generated_content"; "definition_json"].

(** [hasattr(mcp_record, key)]. *)
Definition hasattr (key : string) : bool :=
  existsb (String.eqb key) mcp_attributes.

Definition dict_value (v : option (list (string * json))) : json :=
  match v with
  | Some d => JObj d
  | None => JNull
  end.

Definition set_name (i : instance) (v : option string) : instance :=
  {| i_id := i_id i; i_name := v; i_domain := i_domain i; i_goal := i_goal i;
     i_roles := i_roles i; i_constraints := i_constraints i;
     i_created_at := i_created_at i; i_updated_at := i_updated_at i;
     i_owner_id := i_owner_id i; i_generated_content := i_generated_content i;
     i_definition_json := i_definition_json i |}.

Definition set_domain (i : instance) (v : option string) : instance :=
  {| i_id := i_id i; i_name := i_name i; i_domain := v; i_goal := i_goal i;
     i_roles := i_roles i; i_constraints := i_constraints i;
     i_created_at := i_created_at i; i_updated_at := i_updated_at i;
     i_owner_id := i_owner_id i; i_generated_content := i_generated_content i;
     i_definition_json := i_definition_json i |}.

Definition set_goal (i : instance) (v : option string) : instance :=
  {| i_id := i_id i; i_name := i_name i; i_domain := i_domain i; i_goal := v;
     i_roles := i_roles i; i_constraints := i_constraints i;
     i_created_at := i_created_at i; i_updated_at := i_updated_at i;
     i_owner_id := i_owner_id i; i_generated_content := i_generated_content i;
     i_definition_json := i_definition_json i |}.

Definition set_roles (i : instance) (v : option string) : instance :=
  {| i_id := i_id i; i_name := i_name i; i_domain := i_domain i; i_goal := i_goal i;
     i_roles := v; i_constraints := i_constraints i;
     i_created_at := i_created_at i; i_updated_at := i_updated_at i;
     i_owner_id := i_owner_id i; i_generated_content := i_generated_content i;
     i_definition_json := i_definition_json i |}.

Definition set_constraints (i : instance) (v : option string) : instance :=
  {| i_id := i_id i; i_name := i_name i; i_domain := i_domain i; i_goal := i_goal i;
     i_roles := i_roles i; i_constraints := v;
     i_created_at := i_created_at i; i_updated_at := i_updated_at i;
     i_owner_id := i_owner_id i; i_generated_content := i_generated_content i;
     i_definition_json := i_definition_json i |}.

Definition set_generated_content (i : instance) (v : option string) : instance :=
  {| i_id := i_id i; i_name := i_name i; i_domain := i_domain i; i_goal := i_goal i;
     i_roles := i_roles i; i_constraints := i_constraints i;
     i_created_at := i_created_at i; i_updated_at := i_updated_at i;
     i_owner_id := i_owner_id i; i_generated_content := v;
     i_definition_json := i_definition_json i |}.

Definition set_definition_json (i : instance) (v : json) : instance :=
  {| i_id := i_id i; i_name := i_name i; i_domain := i_domain i; i_goal := i_goal i;
     i_roles := i_roles i; i_constraints := i_constraints i;
     i_created_at := i_created_at i; i_updated_at := i_updated_at i;
     i_owner_id := i_owner_id i; i_generated_content := i_generated_content i;
     i_definition_json := v |}.

Definition set_updated_at (i : instance) (v : Z) : instance :=
  {| i_id := i_id i; i_name := i_name i; i_domain := i_domain i; i_goal := i_goal i;
     i_roles := i_roles i; i_constraints := i_constraints i;
     i_created_at := i_created_at i; i_updated_at := v;
     i_owner_id := i_owner_id i; i_generated_content := i_generated_content i;
     i_definition_json := i_definition_json i |}.

(** [setattr(mcp_record, key, value)] for the keys and values a dumped
    request can carry. *)
Definition setattr (i : instance) (key : string) (value : field_value) : instance :=
  match value with
  | StrValue v =>
      if String.eqb key "generated_content" then set_generated_content i v
      else if String.eqb key "constraints" then set_constraints i v
      else if String.eqb key "name" then set_name i v
      else if String.eqb key "domain" then set_domain i v
      else if String.eqb key "goal" then set_goal i v
      else if String.eqb key "roles" then set_roles i v
      else i
  | DictValue v =>
      if String.eqb key "definition_json" then set_definition_json i (dict_value v)
      else i
  end.

(** The loop over [update_data_dict.items()]: the instance and the
    [updated] flag after it. *)
Fixpoint apply_updates (items : list (string * field_value))
    (i : instance) (updated : bool) : instance * bool :=
  match items with
  | [] => (i, updated)
  | (key, value) :: rest =>
      if hasattr key
      then apply_updates rest (setattr i key value) true
      else apply_updates rest i updated
  end.

(** [session.add; session.commit; session.refresh] for an instance. *)
Definition commit_instance (fault : option exn) (db : table) (i : instance)
  : result (table * Mcp) :=
  match fault with
  | Some e => Raise e
  | None =>
      match to_row i with
      | Some r => Ok (<[id r := r]> db, r)
      | None => Raise (OperationalError "null value violates not-null constraint")
      end
  end.

(** [PUT /mcp/{mcp_id}]: the response and the table after the request. *)
Definition update_mcp (db : table) (commit_fault : option exn) (now : Z)
    (mcp_id : Z) (update_data : McpUpdateRequest) (user : User)
  : response Mcp * table :=
  match select_owned db mcp_id user with
  | None =>
      (HTTPException 404
         ("MCP with ID " ++ str_of_Z mcp_id
          ++ " not found or you do not have permission to modify it."), db)
  | Some mcp_record =>
      let update_data_dict := model_dump_exclude_unset update_data in
      match apply_updates update_data_dict (of_row mcp_record) false with
      | (_, false) => (Return mcp_record, db)
      | (inst, true) =>
          match commit_instance commit_fault db (set_updated_at inst now) with
          | Ok (db', r) => (Return r, db')
          | Raise e =>
              (HTTPException 500 ("Failed to update MCP in database: " ++ exn_str e), db)
          end
      end
  end.

(** The value an attribute has after a request: the one the request set,
    or the prior one. *)
Definition updated_to {A : Type} (prior : A) (set : option A) : A :=
  match set with
  | Some v => v
  | None => prior
  end.

(** No field of the request body was set. *)
Definition sets_nothing (u : McpUpdateRequest) : bool :=
  match generated_content u, constraints u, definition_json u, name u,
        domain u, goal u, roles u with
  | None, None, None, None, None, None, None => true
  | _, _, _, _, _, _, _ => false
  end.

(** [str.isalnum] on one character below 128: ASCII letters and digits. *)
Definition isalnum (c : ascii) : bool :=
  let n := nat_of_ascii c in
  ((48 <=? n) && (n <=? 57) || (65 <=? n) && (n <=? 90)
   || (97 <=? n) && (n <=? 122))%nat.

(** A [str] is held as its UTF-8 bytes: a character below 128 is one byte,
    any other one is a lead byte and the continuation bytes (128 to 191)
    after it. *)
Definition is_continuation (c : ascii) : bool :=
  let n := nat_of_ascii c in ((128 <=? n) && (n <=? 191))%nat.

Definition begins_with_continuation (s : string) : bool :=
  match s with
  | String c _ => is_continuation c
  | EmptyString => false
  end.

(** The characters of [s] in order, each as its bytes: what [for c in s]
    runs over. *)
Fixpoint code_points (s : string) : list string :=
  match s with
  | EmptyString => []
  | String c rest =>
      match code_points rest with
      | ch :: more =>
          if begins_with_continuation ch then String c ch :: more
          else String c EmptyString :: ch :: more
      | [] => [String c EmptyString]
      end
  end.

(** [s.encode("latin-1")] succeeds: every character is below 256, that is
    one byte below 128, or two bytes of which the first is 194 or 195. *)
Definition char_latin1 (ch : string) : bool :=
  match ch with
  | String c EmptyString => (nat_of_ascii c <? 128)%nat
  | String c (String _ EmptyString) =>
      ((nat_of_ascii c =? 194) || (nat_of_ascii c =? 195))%nat
  | _ => false
  end.

Definition latin1 (s : string) : bool := forallb char_latin1 (code_points s).

(** [JSONResponse(content=..., headers=...)]. *)
Record JSONResponse : Type := {
  content : json;
  headers : list (string * string)
}.

(** The bytes of the response: the rendered content. *)
Definition body (r : JSONResponse) : string := JsonText.dumps (content r).

Section Names.

(** [str.isalnum] on one character from 128 on, given by its bytes: the
    Unicode character database decides it (letters and digits of every
    script are alphanumeric). *)
Variable isalnum_wide : string -> bool.

(** [c.isalnum()] for one character [c] of a [str]. *)
Definition char_isalnum (ch : string) : bool :=
  match ch with
  | String c EmptyString =>
      if (nat_of_ascii c <? 128)%nat then isalnum c else isalnum_wide ch
  | _ => isalnum_wide ch
  end.

(** ["".join(c if c.isalnum() else '_' for c in name)]. *)
Definition safe_name (s : string) : string :=
  Py.join "" (List.map (fun ch => if char_isalnum ch then ch else "_")
                       (code_points s)).

Definition export_filename (r : Mcp) : string :=
  "MCP_" ++ str_of_Z (id r) ++ "_" ++ safe_name (Models.name r) ++ "_definition.json".

(** The value of the [Content-Disposition] header. *)
Definition content_disposition (r : Mcp) : string :=
  "attachment; filename=" ++ String JsonText.DQUOTE EmptyString
  ++ export_filename r ++ String JsonText.DQUOTE EmptyString.

(** [GET /mcp/{mcp_id}/export/json]. [JSONResponse(...)] encodes every
    header value as latin-1: a character from 256 on in the file name
    raises [UnicodeEncodeError], which nothing in the handler catches. *)
Definition export_mcp_json (db : table) (mcp_id : Z) (user : User)
  : response JSONResponse :=
  match select_owned db mcp_id user with
  | None =>
      HTTPException 404
        ("MCP with ID " ++ str_of_Z mcp_id
         ++ " not found or you do not have permission.")
  | Some mcp_record =>
      if negb (truthy (Models.definition_json mcp_record)) then
        HTTPException 404
          ("No structured definition (definition_json) found for MCP "
           ++ str_of_Z mcp_id ++ ". Generate it first.")
      else if latin1 (content_disposition mcp_record) then
        Return {| content := Models.definition_json mcp_record;
                  headers :=
                    [("Content-Disposition", content_disposition mcp_record)] |}
      else uncaught
  end.

End Names.

End McpRouter.

(* ===================================================================== *)
(** * routers/ingestion.py: the URL route and the source listing          *)
(* ===================================================================== *)

Module IngestionRoutes.

(** [class UrlIngestionRequest(BaseModel)]; [url] is [str(request.url)]. *)
Record UrlIngestionRequest : Type := {
  url : string;
  mcp_id : Z
}.

(** The dict a successful call returns ([mcp_id] is absent from the
    nothing-extracted answer). *)
Record UrlResult : Type := {
  result_url : string;
  result_mcp_id : option Z;
  message : string
}.

(** What [WebBaseLoader(url).load()] does: it returns documents, or it
    raises an [ImportError] (a dependency of the loader is missing), or
    it raises another exception. *)
Inductive url_loaded : Type :=
| Loaded (documents : list Document)
| MissingDependency (msg : string)
| LoadFailed (e : exn).

Section IngestUrl.

Variable load_url : string -> url_loaded.
Variable uuid4 : nat -> string.
Variable write_fault : nat -> option exn.

(** [POST /ingest/upload/url]: the response and the index after the
    request. Loading, splitting and writing share one [try]. *)
Definition ingest_url (w : chroma_world) (vector_store : Chroma)
    (request : UrlIngestionRequest) (user : User)
  : response UrlResult * chroma_world :=
  let url_to_ingest := url request in
  match load_url url_to_ingest with
  | MissingDependency _ =>
      (HTTPException 500
         "Server configuration error: Missing dependency for URL loading.", w)
  | LoadFailed e =>
      (HTTPException 500 ("Error processing URL: " ++ exn_str e), w)
  | Loaded [] =>
      (Return {| result_url := url_to_ingest;
                 result_mcp_id := None;
                 message := "URL fetched, but no content could be extracted." |},
       w)
  | Loaded documents =>
      let chunks := Ingestion.split_documents documents in
      let metadatas :=
        List.map (fun _ => Ingestion.chunk_metadata url_to_ingest user (mcp_id request))
                 chunks in
      match Ingestion.add_chunks uuid4 write_fault vector_store metadatas 0 chunks w with
      | (Some e, w') =>
          (HTTPException 500 ("Error processing URL: " ++ exn_str e), w')
      | (None, w') =>
          (Return {| result_url := url_to_ingest;
                     result_mcp_id := Some (mcp_id request);
                     message :=
                       "URL content processed and " ++ str_of_nat (length chunks)
                       ++ " chunks stored successfully for MCP "
                       ++ str_of_Z (mcp_id request) ++ "." |},
           w')
      end
  end.

End IngestUrl.

(** The rows that writing [chunks] one by one leaves in a collection: the
    [j]-th has the [j]-th id of the request and the text of the [j]-th
    chunk, under the metadata of the request. *)
Definition written (uuid4 : nat -> string) (md : metadata_t)
    (chunks : list Document) : list entry :=
  imap (fun j c => {| entry_id := uuid4 j;
                      entry_doc := {| page_content := page_content c;
                                      metadata := md |} |})
       chunks.

(** [class IngestedSource(BaseModel)]. *)
Record IngestedSource : Type := {
  source : string
}.

(** Adding to a sorted list without duplicates: where [sorted(list(set))]
    puts one more element. Strings compare character by character. *)
Fixpoint insert_source (s : string) (l : list string) : list string :=
  match l with
  | [] => [s]
  | x :: rest =>
      match String.compare s x with
      | Lt => s :: l
      | Eq => l
      | Gt => x :: insert_source s rest
      end
  end.

(** The order of [sorted] on strings. *)
Definition before (a b : string) : Prop := String.compare a b = Lt.

(** [sorted(list(sources))] for the set built from [names]. *)
Definition sorted_sources (names : list string) : list string :=
  List.fold_right insert_source [] names.

(** A [source] value as the response model accepts it: a string. *)
Definition source_name (v : meta_value) : option string :=
  match v with
  | MStr s => Some s
  | MInt _ => None
  end.

(** [GET /ingest/sources/{mcp_id}]. Rows without a [source] are skipped;
    a source that is not a string fails the sort or the response model,
    inside the [try]. *)
Definition list_ingested_sources (fault : option exn) (w : chroma_world)
    (vector_store : Chroma) (mcp_id : Z) (user : User)
  : response (list IngestedSource) :=
  match get_metadatas fault w vector_store (scope_filter mcp_id (user_id user)) with
  | Raise _ => HTTPException 500 "Failed to retrieve ingested sources."
  | Ok metadatas =>
      let sources := omap (meta_get "source") metadatas in
      match mapM source_name sources with
      | Some names =>
          Return (List.map (fun s => {| source := s |}) (sorted_sources names))
      | None => HTTPException 500 "Failed to retrieve ingested sources."
      end
  end.

End IngestionRoutes.

(* ===================================================================== *)
(** * routers/mcp.py: creating, reading, listing, deleting, Markdown      *)
(* ===================================================================== *)

Module McpRoutes.

(** [session.exec(select(User).where(User.clerk_id == clerk_id)).first()]
    over the user table. *)
Definition find_user (users : list User) (clerk : string) : option User :=
  List.find (fun u => String.eqb (clerk_id u) clerk) users.

(** [class McpCreateRequest(BaseModel)]. *)
Record McpCreateRequest : Type := {
  mcpName : string;
  domain : string;
  goal : string;
  roles : string
}.

(** [session.add(r); session.commit()] for a new row: the insert is
    rejected when the store fails ([fault]) or the primary key is
    taken. *)
Definition insert_row (fault : option exn) (db : table) (r : Mcp) : result table :=
  match fault with
  | Some e => Raise e
  | None =>
      match db !! id r with
      | Some _ => Raise (OperationalError "duplicate key value violates unique constraint")
      | None => Ok (<[id r := r]> db)
      end
  end.

(** [POST /mcp/create]. [new_id] is the key the table's sequence hands
    out; [t_created] and [t_updated] are the two readings of the clock
    that fill the timestamps. *)
Definition create_mcp (new_id : Z) (users : list User) (db : table)
    (commit_fault : option exn) (t_created t_updated : Z)
    (mcp_data : McpCreateRequest) (clerk : string)
  : response Mcp * table :=
  match find_user users clerk with
  | None =>
      (HTTPException 404
         ("User with Clerk ID " ++ clerk ++ " not found in database. Sync needed?"),
       db)
  | Some user =>
      let new_mcp :=
        {| id := new_id;
           Models.name := mcpName mcp_data;
           Models.domain := domain mcp_data;
           Models.goal := goal mcp_data;
           Models.roles := roles mcp_data;
           Models.constraints := None;
           created_at := t_created;
           updated_at := t_updated;
           owner_id := user_id user;
           generated_content := None;
           definition_json := JNull |} in
      match insert_row commit_fault db new_mcp with
      | Ok db' => (Return new_mcp, db')
      | Raise e =>
          (HTTPException 500 ("Failed to create MCP in database: " ++ exn_str e), db)
      end
  end.

(** [GET /mcp/{mcp_id}]. *)
Definition get_mcp_by_id (db : table) (mcp_id : Z) (user : User) : response Mcp :=
  match select_owned db mcp_id user with
  | Some mcp_record => Return mcp_record
  | None =>
      HTTPException 404
        ("MCP with ID " ++ str_of_Z mcp_id
         ++ " not found or you do not have permission to view it.")
  end.

(** [GET /mcp/]: the rows of the user (the order is the store's). *)
Definition list_user_mcps (db : table) (user : User) : list Mcp :=
  List.filter (fun r => owner_id r =? user_id user)
              (List.map snd (map_to_list db)).

(** [DELETE /mcp/{mcp_id}]: the response and the table after the
    request. *)
Definition delete_mcp (db : table) (commit_fault : option exn)
    (mcp_id : Z) (user : User) : response unit * table :=
  match select_owned db mcp_id user with
  | None =>
      (HTTPException 404
         ("MCP with ID " ++ str_of_Z mcp_id
          ++ " not found or you do not have permission to delete it."), db)
  | Some mcp_record =>
      match commit_fault with
      | Some e =>
          (HTTPException 500 ("Failed to delete MCP from database: " ++ exn_str e), db)
      | None => (Return tt, delete (id mcp_record) db)
      end
  end.

(** [class McpExportResponse(BaseModel)]. *)
Record McpExportResponse : Type := {
  filename : string;
  content : string;
  media_type : string
}.

Definition NL : string := String (ascii_of_nat 10) EmptyString.
Definition FENCE : string := "```".

(** [d.get(key, default)]. *)
Definition get_or (key : string) (default : json) (d : list (string * json)) : json :=
  match dict_get key d with
  | Some v => v
  | None => default
  end.

(** What iterating over a value yields: the items of a list, the
    characters of a string, the keys of a dict; nothing else can be
    iterated. *)
Definition py_iter (v : json) : option (list json) :=
  match v with
  | JArr items => Some items
  | JStr s => Some (List.map (fun c => JStr (String c EmptyString)) (list_ascii_of_string s))
  | JObj members => Some (List.map (fun kv => JStr (fst kv)) members)
  | _ => None
  end.

(** The layout of the f-string [markdown_content], with the text that
    each field shows. *)
Definition markdown_layout (mcp_record : Mcp)
    (system_prompt_text input_text output_text constraints_text examples_text : string)
  : string :=
  "# MCP: " ++ Models.name mcp_record ++ NL ++ NL
  ++ "**ID:** " ++ str_of_Z (id mcp_record) ++ NL
  ++ "**Domain:** " ++ Models.domain mcp_record ++ NL
  ++ "**Primary Goal:** " ++ Models.goal mcp_record ++ NL ++ NL
  ++ "## System Prompt" ++ NL ++ NL
  ++ FENCE ++ NL
  ++ system_prompt_text ++ NL
  ++ FENCE ++ NL ++ NL
  ++ "## Input Schema / Description" ++ NL ++ NL
  ++ input_text ++ NL ++ NL
  ++ "## Output Schema / Description" ++ NL ++ NL
  ++ output_text ++ NL ++ NL
  ++ "## Constraints" ++ NL ++ NL
  ++ constraints_text ++ NL ++ NL
  ++ "## Examples" ++ NL ++ NL
  ++ examples_text ++ NL.

Section Markdown.

(** [str(v)] for a list or a dict. *)
Variable repr : json -> string.

(** [str(v)], as an f-string field shows a value. *)
Definition py_str (v : json) : string :=
  match v with
  | JStr s => s
  | JInt z => str_of_Z z
  | JBool true => "True"
  | JBool false => "False"
  | JNull => "None"
  | _ => repr v
  end.

(** The [constraints_md] expression; [None] when evaluating it raises. *)
Definition constraints_md (definition : list (string * json)) : option string :=
  if truthy (get_or "constraints" JNull definition) then
    items ← py_iter (get_or "constraints" (JArr []) definition);
    Some (Py.join NL (List.map (fun c => "- " ++ py_str c) items))
  else Some "No constraints defined.".

(** One round of the loop over the examples; [None] when [ex] has no
    [get]. *)
Definition example_md (i : nat) (ex : json) : option string :=
  match ex with
  | JObj d =>
      Some ("**Example " ++ str_of_nat (i + 1) ++ ":**" ++ NL
            ++ "Input:" ++ NL ++ FENCE ++ NL
            ++ py_str (get_or "input" (JStr "") d) ++ NL ++ FENCE ++ NL
            ++ "Output:" ++ NL ++ FENCE ++ NL
            ++ py_str (get_or "output" (JStr "") d) ++ NL ++ FENCE ++ NL ++ NL)
  | _ => None
  end.

Fixpoint examples_loop (i : nat) (items : list json) : option string :=
  match items with
  | [] => Some ""
  | ex :: rest =>
      one ← example_md i ex;
      more ← examples_loop (S i) rest;
      Some (one ++ more)
  end.

(** The value of [examples_md] after the [if]; [None] when it raises. *)
Definition examples_md (definition : list (string * json)) : option string :=
  if truthy (get_or "examples" JNull definition) then
    items ← py_iter (get_or "examples" JNull definition);
    examples_loop 0 items
  else Some "No examples provided.".

(** The f-string [markdown_content]. *)
Definition markdown_content (mcp_record : Mcp) (definition : list (string * json))
    (constraints_text examples_text : string) : string :=
  markdown_layout mcp_record
    (py_str (get_or "system_prompt" (JStr "Not defined.") definition))
    (py_str (get_or "input_schema_description" (JStr "Not defined.") definition))
    (py_str (get_or "output_schema_description" (JStr "Not defined.") definition))
    constraints_text examples_text.

(** [str.isalnum] on one character from 128 on, as in
    [McpRouter.safe_name]. *)
Variable isalnum_wide : string -> bool.

(** [GET /mcp/{mcp_id}/export/markdown]. A stored value that is not a
    dict has no [get]: the handler raises. *)
Definition export_mcp_markdown (db : table) (mcp_id : Z) (user : User)
  : response McpExportResponse :=
  match select_owned db mcp_id user with
  | None =>
      HTTPException 404
        ("MCP with ID " ++ str_of_Z mcp_id
         ++ " not found or you do not have permission to export it.")
  | Some mcp_record =>
      if negb (truthy (definition_json mcp_record)) then
        Return {| filename := "MCP_" ++ str_of_Z mcp_id ++ "_no_definition.md";
                  content :=
                    "# MCP: " ++ Models.name mcp_record ++ NL ++ NL
                    ++ "**Error:** No structured definition (definition_json) found for this MCP.";
                  media_type := "text/markdown" |}
      else
        match definition_json mcp_record with
        | JObj definition =>
            match constraints_md definition, examples_md definition with
            | Some constraints_text, Some examples_text =>
                Return {| filename :=
                            "MCP_" ++ str_of_Z (id mcp_record) ++ "_"
                            ++ McpRouter.safe_name isalnum_wide (Models.name mcp_record)
                            ++ "_definition.md";
                          content :=
                            markdown_content mcp_record definition
                              constraints_text examples_text;
                          media_type := "text/markdown" |}
            | _, _ => uncaught
            end
        | _ => uncaught
        end
  end.

End Markdown.

(** The Markdown of a typed definition: what the sections show for the
    fields of an [McpDefinition]. *)
Definition render_constraints (cs : list string) : string :=
  match cs with
  | [] => "No constraints defined."
  | _ => Py.join NL (List.map (fun c => "- " ++ c) cs)
  end.

Definition render_example (i : nat) (ex : McpExampleItem) : string :=
  "**Example " ++ str_of_nat (i + 1) ++ ":**" ++ NL
  ++ "Input:" ++ NL ++ FENCE ++ NL ++ input ex ++ NL ++ FENCE ++ NL
  ++ "Output:" ++ NL ++ FENCE ++ NL ++ output ex ++ NL ++ FENCE ++ NL ++ NL.

Fixpoint render_examples_from (i : nat) (exs : list McpExampleItem) : string :=
  match exs with
  | [] => ""
  | ex :: rest => render_example i ex ++ render_examples_from (S i) rest
  end.

Definition render_examples (exs : list McpExampleItem) : string :=
  match exs with
  | [] => "No examples provided."
  | _ => render_examples_from 0 exs
  end.

(** The document that shows the fields of a typed definition. *)
Definition render_markdown (mcp_record : Mcp) (def : McpDefinition) : string :=
  markdown_layout mcp_record
    (system_prompt def) (input_schema_description def)
    (output_schema_description def)
    (render_constraints (def_constraints def))
    (render_examples (examples def)).

(** The characters below 128, on which [str.isalnum] is the test for
    ASCII letters and digits. *)
Definition is_ascii (s : string) : bool :=
  forallb (fun c => (nat_of_ascii c <? 128)%nat) (list_ascii_of_string s).

(** Letters, digits, underscore, dash and dot. *)
Definition filename_char (c : ascii) : bool :=
  McpRouter.isalnum c || Ascii.eqb c "_" || Ascii.eqb c "-" || Ascii.eqb c ".".

(** The table is keyed by the [id] column. *)
Definition keyed (db : table) : Prop :=
  forall k r, db !! k = Some r -> id r = k.

End McpRoutes.

(* ===================================================================== *)
(** * auth_utils.py: the user row of a request                            *)
(* ===================================================================== *)

Module AuthUtils.

(** [session.add(user); session.commit()] for a new user: the insert is
    rejected when the store fails ([fault]) or when the primary key, the
    Clerk id or the e-mail address is taken (the three unique columns). *)
Definition insert_user (fault : option exn) (users : list User) (u : User)
  : result (list User) :=
  match fault with
  | Some e => Raise e
  | None =>
      if existsb (fun v => (user_id v =? user_id u)
                           || String.eqb (clerk_id v) (clerk_id u)
                           || String.eqb (email v) (email u)) users
      then Raise (OperationalError "duplicate key value violates unique constraint")
      else Ok (users ++ [u])%list
  end.

(** The dependency [get_current_db_user]: the user and the user table
    after the call. [new_id] is the key the table's sequence hands out. *)
Definition get_current_db_user (new_id : Z) (users : list User)
    (commit_fault : option exn) (clerk : string)
  : response User * list User :=
  match McpRoutes.find_user users clerk with
  | Some user => (Return user, users)
  | None =>
      let placeholder_email := clerk ++ "@placeholder.intellimcp.local" in
      let user :=
        {| user_id := new_id; clerk_id := clerk; email := placeholder_email |} in
      match insert_user commit_fault users user with
      | Ok users' => (Return user, users')
      | Raise _ =>
          (HTTPException 500 "Failed to create user record in database.", users)
      end
  end.

(** The three unique columns of the user table. *)
Definition unique_users (users : list User) : Prop :=
  List.NoDup (List.map user_id users)
  /\ List.NoDup (List.map clerk_id users)
  /\ List.NoDup (List.map email users).

End AuthUtils.

(* ===================================================================== *)
(** * routers/prompt.py                                                   *)
(* ===================================================================== *)

(** Strings are taken character by character; the character tests are
    those Python makes on characters below 128. *)
Module Prompt.

(** [class PromptInitiateRequest(BaseModel)]. *)
Record PromptInitiateRequest : Type := {
  prompt : string
}.

(** [class PromptInitiateResponse(BaseModel)]. *)
Record PromptInitiateResponse : Type := {
  mcp_id : Z;
  mcp_name : string;
  goal : string
}.

(** [str.isspace] on one character: tab to carriage return, the four
    separators and the space. *)
Definition isspace (c : ascii) : bool :=
  let n := nat_of_ascii c in
  ((9 <=? n) && (n <=? 13) || (28 <=? n) && (n <=? 32))%nat.

Fixpoint lstrip (s : string) : string :=
  match s with
  | EmptyString => EmptyString
  | String c rest => if isspace c then lstrip rest else s
  end.

Fixpoint rstrip (s : string) : string :=
  match s with
  | EmptyString => EmptyString
  | String c rest =>
      match rstrip rest with
      | EmptyString => if isspace c then EmptyString else String c EmptyString
      | kept => String c kept
      end
  end.

(** [s.strip()]. *)
Definition strip (s : string) : string := rstrip (lstrip s).

(** [s[:n]]. *)
Fixpoint slice_to (n : nat) (s : string) : string :=
  match n, s with
  | S m, String c rest => String c (slice_to m rest)
  | _, _ => EmptyString
  end.

(** The name given to the record. *)
Definition name_of_prompt (p : string) : string :=
  let mcp_name := strip (slice_to 30 p) in
  let mcp_name :=
    if (30 <? String.length p)%nat then mcp_name ++ "..." else mcp_name in
  if String.eqb mcp_name "" then "Untitled MCP" else mcp_name.

(** [POST /prompt/initiate]: the response and the table after the
    request. *)
Definition initiate_mcp_from_prompt (new_id : Z) (db : table)
    (commit_fault : option exn) (t_created t_updated : Z)
    (request : PromptInitiateRequest) (user : User)
  : response PromptInitiateResponse * table :=
  let mcp_name := name_of_prompt (prompt request) in
  let mcp_goal := prompt request in
  let mcp_domain := "General" in
  let mcp_roles := "User, AI" in
  let new_mcp :=
    {| id := new_id;
       Models.name := mcp_name;
       Models.domain := mcp_domain;
       Models.goal := mcp_goal;
       Models.roles := mcp_roles;
       Models.constraints := None;
       created_at := t_created;
       updated_at := t_updated;
       owner_id := user_id user;
       generated_content := None;
       definition_json := JNull |} in
  match McpRoutes.insert_row commit_fault db new_mcp with
  | Ok db' =>
      (Return {| mcp_id := id new_mcp;
                 mcp_name := Models.name new_mcp;
                 goal := Models.goal new_mcp |}, db')
  | Raise e =>
      (HTTPException 500 ("Failed to create MCP record: " ++ exn_str e), db)
  end.

(** Every character of [s] is white space. *)
Definition blank (s : string) : bool :=
  forallb isspace (list_ascii_of_string s).

End Prompt.

(* ===================================================================== *)
(** * routers/validation.py                                               *)
(* ===================================================================== *)

Module Validation.

(** [class TestRunRequest(BaseModel)]. *)
Record TestRunRequest : Type := {
  user_input : string
}.

(** [class TestRunResponse(BaseModel)]. *)
Record TestRunResponse : Type := {
  llm_output : string;
  system_prompt_used : string
}.

Inductive message : Type :=
| SystemMessage (content : string)
| HumanMessage (content : string).

(** [needle in text] for two strings. *)
Fixpoint contains (needle text : string) : bool :=
  String.prefix needle text
  || match text with
     | EmptyString => false
     | String _ rest => contains needle rest
     end.

(** ['system_prompt' in v]: a key of a dict, an item of a list, a part of
    a string; [None] when [v] cannot be searched. *)
Definition has_system_prompt (v : json) : option bool :=
  match v with
  | JObj d =>
      Some (match dict_get "system_prompt" d with Some _ => true | None => false end)
  | JArr items =>
      Some (existsb (fun x => match x with
                              | JStr s => String.eqb s "system_prompt"
                              | _ => false
                              end) items)
  | JStr s => Some (contains "system_prompt" s)
  | _ => None
  end.

Section TestRun.

(** [(await llm.ainvoke(messages)).content], as the string the response
    model takes. *)
Variable llm : list message -> result string.

(** A system prompt that is not a string is refused on the way ([len],
    [SystemMessage] or [TestRunResponse] raises): the request fails with
    a text that is not modelled. *)
Variable refusal : json -> string.

(** [POST /validate/test_run/{mcp_id}]. *)
Definition test_mcp_run (db : table) (mcp_id : Z) (request : TestRunRequest)
    (user : User) : response TestRunResponse :=
  match select_owned db mcp_id user with
  | None =>
      HTTPException 404
        ("MCP with ID " ++ str_of_Z mcp_id ++ " not found or not owned by user.")
  | Some mcp_record =>
      let definition := definition_json mcp_record in
      if negb (truthy definition) then
        HTTPException 400 "MCP definition or system prompt is missing."
      else
        match has_system_prompt definition with
        | None => uncaught
        | Some false =>
            HTTPException 400 "MCP definition or system prompt is missing."
        | Some true =>
            match definition with
            | JObj d =>
                let system_prompt := McpRoutes.get_or "system_prompt" JNull d in
                if negb (truthy system_prompt) then
                  HTTPException 400 "System prompt within MCP definition is empty."
                else
                  match system_prompt with
                  | JStr s =>
                      let messages :=
                        [SystemMessage s; HumanMessage (user_input request)] in
                      match llm messages with
                      | Ok out =>
                          Return {| llm_output := out; system_prompt_used := s |}
                      | Raise e =>
                          HTTPException 500
                            ("Failed to execute test run: " ++ exn_str e)
                      end
                  | _ => HTTPException 500 (refusal system_prompt)
                  end
            | _ => uncaught
            end
        end
  end.

End TestRun.

End Validation.

(* ===================================================================== *)
(** * Concrete requests and stores used below                             *)
(* ===================================================================== *)

Module Fixtures.

Definition alice : User :=
  {| user_id := 1; clerk_id := "user_alice"; email := "alice@example.org" |}.
Definition bob : User :=
  {| user_id := 2; clerk_id := "user_bob"; email := "bob@example.org" |}.

(** A metric on texts, standing in for the embedding distance. *)
Definition text_distance (q t : string) : Z :=
  Z.abs (Z.of_nat (String.length q) - Z.of_nat (String.length t)).

(** The handle the ingestion and generation routes are given. *)
Definition documents_store : Chroma :=
  {| client := PersistentClient "./chroma_data";
     collection_name := "intellimcp_documents" |}.

Definition alice_chunk : entry :=
  {| entry_id := "id-1";
     entry_doc := {| page_content := "alpha notes";
                     metadata := Ingestion.chunk_metadata "a.txt" alice 1 |} |}.
Definition bob_chunk : entry :=
  {| entry_id := "id-2";
     entry_doc := {| page_content := "beta notes";
                     metadata := Ingestion.chunk_metadata "b.txt" bob 7 |} |}.

(** Both chunks in the collection the ingestion route writes to. *)
Definition shared_world : chroma_world :=
  world_add (world_add empty_world documents_store alice_chunk)
            documents_store bob_chunk.


Definition alice_mcp : Mcp :=
  {| id := 1; name := "Support bot"; domain := "support"; goal := "answer tickets";
     roles := "agent"; constraints := None; created_at := 100; updated_at := 100;
     owner_id := 1; generated_content := None; definition_json := JNull |}.

Definition one_mcp : table := {[ 1 := alice_mcp ]}.

(** Identifiers for the rows of one request, and an index that accepts
    every write. *)
Definition request_uuid (i : nat) : string := "id-" ++ str_of_nat i.
Definition no_write_fault (i : nat) : option exn := None.

(** A PDF upload that is not a PDF, and the loader's answer to it. *)
Definition broken_pdf : Ingestion.UploadFile :=
  {| Ingestion.filename := "broken.pdf";
     Ingestion.content_type := "application/pdf";
     Ingestion.file := "not a pdf" |}.
Definition strict_loader (l : Ingestion.Loader) (data : string)
  : result (list Document) :=
  match l with
  | Ingestion.TextLoader =>
      Ok [{| page_content := data; metadata := [("source", MStr "upload")] |}]
  | _ => Raise (ValueError "EOF marker not found")
  end.

(** A deployment with a remote index that does not answer. *)
Definition remote_env : gmap string string :=
  {[ "CHROMA_HOST" := "chroma.internal" ]}.
Definition port_of_str (s : string) : result Z :=
  match NilZero.int_of_string s with
  | Some i => Ok (Z.of_int i)
  | None => Raise (ValueError "invalid literal for int()")
  end.
Definition unreachable (host : string) (port : Z) : result unit :=
  Raise (ConnectionError "connection refused").

(** A parser that reads compact JSON, as [JsonOutputParser] does on a
    completion that is nothing but a JSON text. *)
Definition json_parser (raw : string) : result json :=
  match JsonText.loads raw with
  | Some v => Ok v
  | None => Raise (OutputParserException "Invalid json output")
  end.

(** A model that answers every prompt with the same completion. *)
Definition canned_llm (raw : string) : string -> string -> result string :=
  fun _ _ => Ok raw.

(** A completion that is valid JSON but not a definition: four of the
    five fields are missing. *)
Definition incomplete_output : json :=
  JObj [("system_prompt", JStr "Be brief.")].

(** A completion with every required field and no [examples] key. *)
Definition output_without_examples : json :=
  JObj [("system_prompt", JStr "Be brief.");
        ("input_schema_description", JStr "a ticket");
        ("output_schema_description", JStr "a reply");
        ("constraints", JArr [JStr "be polite"; JStr "no refunds"])].

(** A stored definition whose two lists are empty. *)
Definition stored_definition : json :=
  JObj [("system_prompt", JStr "Be brief.");
        ("input_schema_description", JStr "a ticket");
        ("output_schema_description", JStr "a reply");
        ("constraints", JArr []);
        ("examples", JArr [])].

Definition defined_mcp : Mcp :=
  {| id := 1; name := "Support bot"; domain := "support"; goal := "answer tickets";
     roles := "agent"; constraints := None; created_at := 100; updated_at := 200;
     owner_id := 1; generated_content := None;
     definition_json := stored_definition |}.

Definition defined_table : table := {[ 1 := defined_mcp ]}.

(** The character U+4E2D, a letter, as its three UTF-8 bytes. *)
Definition zhong : string :=
  String (ascii_of_nat 228) (String (ascii_of_nat 184)
    (String (ascii_of_nat 173) EmptyString)).

(** [str.isalnum] from 128 on, for the characters the examples use: the
    letters, digits and fractions of the Latin-1 supplement (U+00AA,
    U+00B2, U+00B3, U+00B5, U+00B9, U+00BA, U+00BC to U+00BE, and U+00C0
    to U+00FF without the two signs U+00D7 and U+00F7) and the CJK
    ideographs from U+4E00 to U+9FA5. *)
Definition isalnum_wide (ch : string) : bool :=
  match List.map (fun c => Z.of_nat (nat_of_ascii c)) (list_ascii_of_string ch) with
  | [b0; b1] =>
      let cp := (b0 - 192) * 64 + (b1 - 128) in
      (192 <=? b0) && (128 <=? b1)
      && (existsb (Z.eqb cp) [170; 178; 179; 181; 185; 186; 188; 189; 190]
          || (192 <=? cp) && (cp <=? 255)
             && negb (cp =? 215) && negb (cp =? 247))
  | [b0; b1; b2] =>
      let cp := (b0 - 224) * 4096 + (b1 - 128) * 64 + (b2 - 128) in
      (224 <=? b0) && (128 <=? b1) && (128 <=? b2)
      && (19968 <=? cp) && (cp <=? 40869)
  | _ => false
  end.

(** The record of [defined_table] under a name of two ideographs, with
    [D] as its definition. *)
Definition wide_named (D : json) : Mcp :=
  {| id := 1; name := zhong ++ zhong; domain := "support"; goal := "answer tickets";
     roles := "agent"; constraints := None; created_at := 100; updated_at := 200;
     owner_id := 1; generated_content := None;
     definition_json := D |}.

Definition wide_named_table : table := {[ 1 := wide_named stored_definition ]}.

(** A plain text of 3000 characters: five paragraphs of words, four of
    598 characters and one of 600, with a blank line between them. *)
Definition words (n : nat) (last : string) : string :=
  String.concat "" (repeat "word " n) ++ last.
Definition paragraph : string := words 119 "end".
Definition closing_paragraph : string := words 119 "final".
Definition blank_line : string := TextSplitter.NL ++ TextSplitter.NL.
Definition five_paragraphs : string :=
  paragraph ++ blank_line ++ paragraph ++ blank_line ++ paragraph ++ blank_line
  ++ paragraph ++ blank_line ++ closing_paragraph.

(** Alice uploads a short text file for project 1. *)
Definition policy_upload : Ingestion.UploadFile :=
  {| Ingestion.filename := "policy.txt";
     Ingestion.content_type := "text/plain";
     Ingestion.file := "Refunds are never granted." |}.

Definition world_after_upload : chroma_world :=
  snd (Ingestion.ingest_file strict_loader request_uuid
         no_write_fault empty_world documents_store None 1
         policy_upload alice).

End Fixtures.

(* ===================================================================== *)
(** * Properties                                                          *)
(* ===================================================================== *)

#[local] Arguments String.append !_ _ / : simpl nomatch.

(* ===================================================================== *)
(** * Retrieval is scoped where a scope is given                          *)
(* ===================================================================== *)

Lemma In_firstn {A : Type} (x : A) (n : nat) (l : list A) :
  In x (firstn n l) -> In x l.
Proof.
  revert l. induction n as [|n IH]; intros [|y l]; simpl; try tauto.
  intros [->|H]; [left; reflexivity | right; apply IH, H].
Qed.

Section SearchFacts.

Variable score : Type.
Variable score_leb : score -> score -> bool.
Variable distance : string -> string -> score.

Lemma In_insert_by_score x y l :
  In y (insert_by_score score score_leb x l) <-> y = x \/ In y l.
Proof.
  induction l as [|z l IH]; simpl.
  - intuition.
  - destruct (score_leb (snd z) (snd x)); simpl; rewrite ?IH; intuition.
Qed.

Lemma In_sort_by_score y l :
  In y (sort_by_score score score_leb l) <-> In y l.
Proof.
  induction l as [|x l IH]; simpl.
  - reflexivity.
  - rewrite In_insert_by_score, IH. intuition.
Qed.



(** Every document a query returns is a row of the collection that the
    filter admits. *)
Lemma nearest_sound w vs q k filter d s :
  In (d, s) (nearest score score_leb distance w vs q k filter) ->
  exists e, In e (rows w vs) /\ entry_doc e = d
            /\ where_opt_matches filter (metadata d) = true.
Proof.
  unfold nearest. intros Hin.
  apply In_firstn in Hin. apply -> In_sort_by_score in Hin.
  apply in_map_iff in Hin as (e & Heq & Hin).
  apply filter_In in Hin as [Hin Hm].
  inversion Heq; subst. eauto.
Qed.

Lemma similarity_search_sound fault w vs q k filter results d :
  similarity_search score score_leb distance fault w vs q k filter = Ok results ->
  In d results ->
  exists e, In e (rows w vs) /\ entry_doc e = d
            /\ where_opt_matches filter (metadata d) = true.
Proof.
  unfold similarity_search, similarity_search_with_score, query_collection.
  destruct fault; [discriminate|].
  destruct (k <=? 0); [discriminate|]. intros [= <-] Hin.
  apply in_map_iff in Hin as ([d' s] & Heq & Hin). simpl in Heq; subst.
  eapply nearest_sound; eauto.
Qed.

End SearchFacts.

Lemma scope_filter_matches mcp_id uid md :
  where_matches (scope_filter mcp_id uid) md = true <->
  meta_get "mcp_id" md = Some (MInt mcp_id)
  /\ meta_get "user_id" md = Some (MInt uid).
Proof.
  unfold scope_filter; simpl.
  destruct (meta_get "mcp_id" md) as [v1|], (meta_get "user_id" md) as [v2|];
    simpl; rewrite ?andb_true_r, ?andb_false_r;
    try (split; [discriminate | intros [? ?]; discriminate]).
  rewrite andb_true_iff, !bool_decide_eq_true. split.
  - intros [-> ->]. auto.
  - intros [[= ->] [= ->]]. auto.
Qed.

Lemma chunk_metadata_scope source user mcp_id :
  meta_get "mcp_id" (Ingestion.chunk_metadata source user mcp_id) = Some (MInt mcp_id)
  /\ meta_get "user_id" (Ingestion.chunk_metadata source user mcp_id)
     = Some (MInt (user_id user)).
Proof. split; reflexivity. Qed.

Lemma rows_world_add w vs e :
  rows (world_add w vs e) vs = (rows w vs ++ [e])%list.
Proof.
  unfold rows, world_add.
  rewrite bool_decide_eq_true_2 by reflexivity.
  rewrite String.eqb_refl. reflexivity.
Qed.

Section IngestFacts.

Variable load : Ingestion.Loader -> string -> result (list Document).
Variable uuid4 : nat -> string.
Variable write_fault : nat -> option exn.

(** Whatever the loop writes carries the metadata of the list it
    indexes, also when a write fails midway. *)
Lemma add_chunks_rows vs md metadatas chunks : forall i w o w',
  Forall (fun m => m = md) metadatas ->
  Ingestion.add_chunks uuid4 write_fault vs metadatas i chunks w = (o, w') ->
  exists new, rows w' vs = (rows w vs ++ new)%list
              /\ Forall (fun e => metadata (entry_doc e) = md) new.
Proof.
  induction chunks as [|c chunks IH]; intros i w o w' Hmd; simpl.
  - intros [= <- <-]. exists []. rewrite app_nil_r. auto.
  - destruct (metadatas !! i) as [m|] eqn:Hm.
    + assert (m = md) as ->.
      { rewrite Forall_forall in Hmd. apply Hmd.
        eapply list_elem_of_lookup_2; eauto. }
      unfold add_texts. destruct (write_fault i).
      * intros [= <- <-]. exists []. rewrite app_nil_r. auto.
      * intros H. apply IH in H as (new & Hrows & Hall); [|assumption].
        rewrite rows_world_add in Hrows.
        eexists (_ :: new). split.
        -- rewrite Hrows, <- app_assoc. reflexivity.
        -- constructor; [reflexivity | assumption].
    + intros [= <- <-]. exists []. rewrite app_nil_r. auto.
Qed.

(** Every row the upload route adds to its collection carries the
    uploader's id and the project id. *)
Lemma ingest_file_rows w vs save_fault mcp_id upload user r w' :
  Ingestion.ingest_file load uuid4 write_fault w vs save_fault mcp_id upload user
    = (r, w') ->
  exists new, rows w' vs = (rows w vs ++ new)%list
    /\ Forall (fun e => metadata (entry_doc e)
                        = Ingestion.chunk_metadata (Ingestion.filename upload) user mcp_id)
              new.
Proof.
  unfold Ingestion.ingest_file.
  assert (Hnil : exists new : list entry, rows w vs = (rows w vs ++ new)%list
    /\ Forall (fun e => metadata (entry_doc e)
                        = Ingestion.chunk_metadata (Ingestion.filename upload) user mcp_id)
              new).
  { exists []. rewrite app_nil_r. auto. }
  destruct (Ingestion.allowed_content_types _); [|intros [= <- <-]; exact Hnil].
  destruct save_fault; [intros [= <- <-]; exact Hnil|].
  destruct (load _ _) as [[|d ds]|e]; try (intros [= <- <-]; exact Hnil).
  destruct (Ingestion.add_chunks _ _ _ _ _ _ _) as [o w1] eqn:Hadd.
  intros H.
  assert (w1 = w') as -> by (destruct o; inversion H; reflexivity).
  eapply add_chunks_rows in Hadd; [exact Hadd|].
  apply Forall_forall. intros m Hin. apply list_elem_of_In in Hin.
  apply in_map_iff in Hin as (? & <- & _).
  reflexivity.
Qed.

End IngestFacts.

Lemma filter_true {A : Type} (l : list A) : List.filter (fun _ => true) l = l.
Proof. induction l as [|x l IH]; simpl; congruence. Qed.

Section ScopeFacts.

Variable score : Type.
Variable score_leb : score -> score -> bool.
Variable distance : string -> string -> score.

(** The search of the generation route raises on every call: the scope
    filter never reaches the index. *)
Lemma context_search_raises sf w vs mcp_record mcp_id user :
  Generation.context_search score score_leb distance sf w vs mcp_record mcp_id user
  = Raise (match sf with Some e => e | None => where_given_twice end).
Proof. unfold Generation.context_search. destruct sf; reflexivity. Qed.

(** So the context block of the prompt is the placeholder, whatever the
    index holds. *)
Lemma retrieved_chunks_str_placeholder sf w vs mcp_record mcp_id user :
  Generation.retrieved_chunks_str score score_leb distance sf w vs mcp_record
    mcp_id user
  = Generation.no_context.
Proof.
  unfold Generation.retrieved_chunks_str. rewrite context_search_raises. reflexivity.
Qed.

(** [/context/retrieve] answers with the nearest rows of its collection,
    whatever their metadata. *)
Lemma retrieve_context_unfiltered w request :
  0 < Context.k request ->
  Context.retrieve_context score score_leb distance None w request
  = Return
      (List.map
         (fun ds => {| Context.chunk_page_content := page_content (fst ds);
                       Context.chunk_metadata := metadata (fst ds);
                       Context.chunk_score := snd ds |})
         (firstn (Z.to_nat (Context.k request))
            (sort_by_score score score_leb
               (List.map
                  (fun e => (entry_doc e,
                             distance (Context.query request)
                                      (page_content (entry_doc e))))
                  (rows w Context.get_vector_store))))).
Proof.
  intros Hk.
  unfold Context.retrieve_context, similarity_search_with_score, query_collection,
    nearest.
  rewrite (proj2 (Z.leb_gt _ _) Hk). simpl. rewrite filter_true. reflexivity.
Qed.

End ScopeFacts.


(* ===================================================================== *)
(** * The generation route                                                *)
(* ===================================================================== *)

Section GenerateFacts.

Variable score : Type.
Variable score_leb : score -> score -> bool.
Variable distance : string -> string -> score.
Variable format_instructions : string.
Variable llm : string -> string -> result string.
Variable parser : string -> result json.

Let generate := Generation.generate_mcp_json score score_leb distance
                  format_instructions llm parser.
Let chain := Generation.chain_ainvoke format_instructions llm parser.
Let block := Generation.retrieved_chunks_str score score_leb distance.

(** A call that fails before the commit leaves the table as it was. *)
Lemma generate_chain_failure db w vs sf cf now mcp_id user mcp_record e :
  select_owned db mcp_id user = Some mcp_record ->
  chain mcp_record (block sf w vs mcp_record mcp_id user) = Raise e ->
  generate db w vs sf cf now mcp_id user = (Generation.failed e, db).
Proof.
  unfold generate, chain, block, Generation.generate_mcp_json.
  intros -> ->. reflexivity.
Qed.

Lemma generate_commit_failure db w vs sf now mcp_id user mcp_record j e :
  select_owned db mcp_id user = Some mcp_record ->
  chain mcp_record (block sf w vs mcp_record mcp_id user) = Ok j ->
  generate db w vs sf (Some e) now mcp_id user = (Generation.failed e, db).
Proof.
  unfold generate, chain, block, Generation.generate_mcp_json.
  intros -> ->. reflexivity.
Qed.

(** The row is written before the output is validated. *)
Lemma generate_validation_failure db w vs sf now mcp_id user mcp_record j e :
  select_owned db mcp_id user = Some mcp_record ->
  chain mcp_record (block sf w vs mcp_record mcp_id user) = Ok j ->
  McpDefinition_validate j = Raise e ->
  exists r',
    generate db w vs sf None now mcp_id user
    = (Generation.failed e, <[id mcp_record := r']> db)
    /\ Models.definition_json r' = j.
Proof.
  unfold generate, chain, block, Generation.generate_mcp_json.
  intros -> -> Hv. simpl. rewrite Hv. eexists. split; reflexivity.
Qed.

(** A failed search changes nothing but the context block, which is the
    one of an empty index. *)
Lemma block_search_failure e w vs mcp_record mcp_id user :
  block (Some e) w vs mcp_record mcp_id user
  = block None empty_world vs mcp_record mcp_id user.
Proof. reflexivity. Qed.

Lemma generate_search_failure db w vs e cf now mcp_id user :
  generate db w vs (Some e) cf now mcp_id user
  = generate db empty_world vs None cf now mcp_id user.
Proof.
  unfold generate, Generation.generate_mcp_json.
  destruct (select_owned db mcp_id user) as [r|]; [|reflexivity].
  fold block. rewrite block_search_failure. reflexivity.
Qed.

(** What a successful call went through. *)
Lemma generate_success db w vs sf cf now mcp_id user resp db' :
  generate db w vs sf cf now mcp_id user = (Return resp, db') ->
  exists mcp_record raw d r',
    select_owned db mcp_id user = Some mcp_record
    /\ llm (Generation.system_message format_instructions)
           (Generation.human_message mcp_record
              (block sf w vs mcp_record mcp_id user)) = Ok raw
    /\ parser raw = Ok (JObj d)
    /\ McpDefinition_fields d = Some (Generation.definition_json resp)
    /\ cf = None
    /\ db' = <[id mcp_record := r']> db
    /\ Models.definition_json r' = JObj d
    /\ updated_at r' = now.
Proof.
  unfold generate, Generation.generate_mcp_json, Generation.chain_ainvoke.
  destruct (select_owned db mcp_id user) as [r|]; [|discriminate].
  fold block.
  destruct (llm _ _) as [raw|] eqn:Hllm; [|discriminate].
  destruct (parser raw) as [j|] eqn:Hp; [|discriminate].
  destruct cf as [e|]; simpl; [discriminate|].
  unfold McpDefinition_validate.
  destruct j as [| | | |?|d]; try discriminate.
  destruct (McpDefinition_fields d) as [def|] eqn:Hf; [|discriminate].
  intros [= <- <-].
  exists r, raw, d. eexists. repeat split; eauto.
Qed.

End GenerateFacts.

(* ===================================================================== *)
(** * What validation against [McpDefinition] establishes                 *)
(* ===================================================================== *)

Lemma field_str_Some key d s :
  field_str key d = Some s <-> dict_get key d = Some (JStr s).
Proof.
  unfold field_str. destruct (dict_get key d) as [[]|]; split; congruence.
Qed.

Lemma mapM_as_str_Some items cs :
  mapM as_str items = Some cs <-> items = List.map JStr cs.
Proof.
  rewrite mapM_Some. split.
  - induction 1 as [|v s items cs Hv _ IH]; [reflexivity|].
    destruct v; try discriminate. simpl in Hv. injection Hv as ->.
    simpl. congruence.
  - intros ->. induction cs; constructor; auto.
Qed.

Lemma as_str_list_Some v cs :
  as_str_list v = Some cs <-> v = JArr (List.map JStr cs).
Proof.
  destruct v; simpl; try (split; [discriminate|intros [=]]).
  rewrite mapM_as_str_Some. split; congruence.
Qed.

Lemma McpExampleItem_validate_Some v ex :
  McpExampleItem_validate v = Some ex <-> example_item v ex.
Proof.
  unfold example_item. destruct v as [| | | | |o]; simpl;
    try (split; [discriminate | intros (? & [=] & _)]).
  destruct (field_str "input" o) as [i|] eqn:Hi; simpl.
  - destruct (field_str "output" o) as [ou|] eqn:Ho; simpl.
    + apply field_str_Some in Hi, Ho. split.
      * intros [= <-]. simpl. eauto.
      * intros (o' & [= <-] & Hi' & Ho'). destruct ex as [i' o'']. simpl in *.
        congruence.
    + split; [discriminate|]. intros (o' & [= <-] & _ & Ho').
      apply field_str_Some in Ho'. congruence.
  - split; [discriminate|]. intros (o' & [= <-] & Hi' & _).
    apply field_str_Some in Hi'. congruence.
Qed.

Lemma field_examples_Some d exs :
  field_examples d = Some exs <->
  (dict_get "examples" d = None /\ exs = [])
  \/ exists items, dict_get "examples" d = Some (JArr items)
                   /\ Forall2 example_item items exs.
Proof.
  unfold field_examples.
  destruct (dict_get "examples" d) as [v|].
  - destruct v as [| | | |items|];
      try (split; [discriminate | intros [[[=] _]|(? & [=] & _)]]).
    rewrite mapM_Some. split.
    + intros H. right. exists items. split; [reflexivity|].
      eapply Forall2_impl; [exact H|]. intros ? ?. apply McpExampleItem_validate_Some.
    + intros [[[=] _]|(items' & [= <-] & H)].
      eapply Forall2_impl; [exact H|]. intros ? ?. apply McpExampleItem_validate_Some.
  - split.
    + intros [= <-]. left. auto.
    + intros [[_ ->]|(? & [=] & _)]. reflexivity.
Qed.

Lemma McpDefinition_fields_Some d def :
  McpDefinition_fields d = Some def <-> deserializes d def.
Proof.
  unfold McpDefinition_fields, deserializes.
  rewrite <- !field_str_Some, <- field_examples_Some.
  destruct (field_str "system_prompt" d) as [sp|]; simpl;
    [|split; [discriminate | intros ([=] & _)]].
  destruct (field_str "input_schema_description" d) as [isd|]; simpl;
    [|split; [discriminate | intros (_ & [=] & _)]].
  destruct (field_str "output_schema_description" d) as [osd|]; simpl;
    [|split; [discriminate | intros (_ & _ & [=] & _)]].
  destruct (dict_get "constraints" d) as [cv|]; simpl;
    [|split; [discriminate | intros (_ & _ & _ & [=] & _)]].
  destruct (as_str_list cv) as [cs|] eqn:Hcs; simpl.
  - apply as_str_list_Some in Hcs as ->.
    destruct (field_examples d) as [exs|]; simpl.
    + split.
      * intros [= <-]. simpl. auto.
      * intros ([= ->] & [= ->] & [= ->] & [= Hc] & [= ->]).
        destruct def; simpl in *. f_equal. f_equal.
        clear -Hc. revert def_constraints0 Hc.
        induction cs as [|c cs IH]; intros [|c' cs']; simpl; try discriminate; auto.
        intros [= -> H]. f_equal. auto.
    + split; [discriminate | intros (_ & _ & _ & _ & [=])].
  - split; [discriminate|]. intros (_ & _ & _ & [= ->] & _).
    assert (as_str_list (JArr (List.map JStr (def_constraints def)))
            = Some (def_constraints def)) by (apply as_str_list_Some; reflexivity).
    congruence.
Qed.

(** C2 (the code at the failing input). The model answers with a JSON
    object that has only [system_prompt]. The request fails with status
    500, yet the row of project 1, whose [definition_json] was null, now
    holds that object: the commit precedes the validation and the
    rollback of the handler has nothing left to undo. *)
Theorem generate_persists_invalid_output :
  let raw := JsonText.dumps Fixtures.incomplete_output in
  let run :=
    Generation.generate_mcp_json Z Z.leb Fixtures.text_distance "schema"
      (Fixtures.canned_llm raw) Fixtures.json_parser
      Fixtures.one_mcp empty_world Fixtures.documents_store None None 200 1
      Fixtures.alice in
  fst run = HTTPException 500
              "Failed to generate or save MCP JSON definition: validation error for McpDefinition"
  /\ Models.definition_json <$> (Fixtures.one_mcp !! 1) = Some JNull
  /\ Models.definition_json <$> (snd run !! 1) = Some Fixtures.incomplete_output.
Proof. vm_compute. repeat split; reflexivity. Qed.

(** C3 (counterexample). The model answers with the four required fields
    and no [examples] key. The run succeeds and what is stored for the
    project is that object as it came: it has no [examples] key, while
    the returned definition has the default empty list. *)
Lemma generate_persists_without_examples :
  let raw := JsonText.dumps Fixtures.output_without_examples in
  let run :=
    Generation.generate_mcp_json Z Z.leb Fixtures.text_distance "schema"
      (Fixtures.canned_llm raw) Fixtures.json_parser
      Fixtures.one_mcp empty_world Fixtures.documents_store None None 200 1
      Fixtures.alice in
  exists def d,
    fst run = Return {| Generation.definition_json := def |}
    /\ examples def = []
    /\ Models.definition_json <$> (snd run !! 1) = Some (JObj d)
    /\ dict_get "examples" d = None.
Proof. vm_compute. do 2 eexists. repeat split; reflexivity. Qed.

(** C3 (amended). A successful run parsed the model's output as JSON,
    stored the parsed object and validated it against [McpDefinition]:
    in the stored object [system_prompt], [input_schema_description] and
    [output_schema_description] are strings and [constraints] is the
    list of strings of the returned definition, in order; [examples] is
    either the list of input/output dicts of the returned definition, in
    order, or absent, in which case the returned definition has the
    empty list. *)
Theorem generate_success_validated
    (score : Type) (score_leb : score -> score -> bool)
    (distance : string -> string -> score) (format_instructions : string)
    (llm : string -> string -> result string) (parser : string -> result json)
    (db : table) (w : chroma_world) (vs : Chroma) (sf cf : option exn)
    (now mcp_id : Z) (user : User)
    (resp : Generation.GenerationJsonResponse) (db' : table) :
  Generation.generate_mcp_json score score_leb distance format_instructions llm parser
    db w vs sf cf now mcp_id user = (Return resp, db') ->
  exists mcp_record raw d r',
    select_owned db mcp_id user = Some mcp_record
    /\ llm (Generation.system_message format_instructions)
           (Generation.human_message mcp_record
              (Generation.retrieved_chunks_str score score_leb distance
                 sf w vs mcp_record mcp_id user)) = Ok raw
    /\ parser raw = Ok (JObj d)
    /\ db' = <[id mcp_record := r']> db
    /\ Models.definition_json r' = JObj d
    /\ McpDefinition_validate (JObj d) = Ok (Generation.definition_json resp)
    /\ deserializes d (Generation.definition_json resp).
Proof.
  intros H. apply generate_success in H
    as (r & raw & d & r' & Hsel & Hllm & Hp & Hf & _ & Hdb & Hdef & _).
  exists r, raw, d, r'.
  refine (conj Hsel (conj Hllm (conj Hp (conj Hdb (conj Hdef (conj _ _)))))).
  - simpl. rewrite Hf. reflexivity.
  - apply McpDefinition_fields_Some, Hf.
Qed.

Lemma generate_success_validated_witness :
  exists mcp_record raw d r',
    select_owned Fixtures.one_mcp 1 Fixtures.alice = Some mcp_record
    /\ Fixtures.canned_llm (JsonText.dumps Fixtures.output_without_examples)
         (Generation.system_message "schema")
         (Generation.human_message mcp_record
            (Generation.retrieved_chunks_str Z Z.leb Fixtures.text_distance
               None empty_world Fixtures.documents_store mcp_record 1 Fixtures.alice))
       = Ok raw
    /\ Fixtures.json_parser raw = Ok (JObj d)
    /\ snd (Generation.generate_mcp_json Z Z.leb Fixtures.text_distance "schema"
              (Fixtures.canned_llm (JsonText.dumps Fixtures.output_without_examples))
              Fixtures.json_parser Fixtures.one_mcp empty_world
              Fixtures.documents_store None None 200 1 Fixtures.alice)
       = <[id mcp_record := r']> Fixtures.one_mcp
    /\ Models.definition_json r' = JObj d
    /\ McpDefinition_validate (JObj d)
       = Ok {| system_prompt := "Be brief.";
               input_schema_description := "a ticket";
               output_schema_description := "a reply";
               def_constraints := ["be polite"; "no refunds"];
               examples := [] |}
    /\ deserializes d
         {| system_prompt := "Be brief.";
            input_schema_description := "a ticket";
            output_schema_description := "a reply";
            def_constraints := ["be polite"; "no refunds"];
            examples := [] |}.
Proof.
  eapply (generate_success_validated Z Z.leb Fixtures.text_distance "schema"
            (Fixtures.canned_llm (JsonText.dumps Fixtures.output_without_examples))
            Fixtures.json_parser Fixtures.one_mcp empty_world
            Fixtures.documents_store None None 200 1 Fixtures.alice
            {| Generation.definition_json :=
                 {| system_prompt := "Be brief.";
                    input_schema_description := "a ticket";
                    output_schema_description := "a reply";
                    def_constraints := ["be polite"; "no refunds"];
                    examples := [] |} |}).
  vm_compute. reflexivity.
Defined.

(** C4 (counterexample). The similarity search of the generation route
    raises (the index is unreachable); the handler logs it, goes on
    without context and answers with a definition: the request reports
    success. *)
Lemma generate_succeeds_after_search_failure :
  let raw := JsonText.dumps Fixtures.output_without_examples in
  exists resp,
    fst (Generation.generate_mcp_json Z Z.leb Fixtures.text_distance "schema"
           (Fixtures.canned_llm raw) Fixtures.json_parser
           Fixtures.one_mcp Fixtures.shared_world Fixtures.documents_store
           (Some (ConnectionError "index unreachable")) None 200 1 Fixtures.alice)
    = Return resp.
Proof. vm_compute. eexists. reflexivity. Qed.

(** C4 (amended). On the generation route a failure of the model, of the
    parser, of the commit or of the validation reaches the caller as an
    HTTP 500 whose detail carries the cause; on [/context/retrieve] a
    failure of the store or of the search reaches the caller as 503 when
    it is a [RuntimeError] and as 500 otherwise. A failure of the
    similarity search inside the generation route is not propagated: the
    request goes on exactly as over an empty index. *)
Theorem failures_at_the_request_boundary
    (score : Type) (score_leb : score -> score -> bool)
    (distance : string -> string -> score) (format_instructions : string)
    (llm : string -> string -> result string) (parser : string -> result json)
    (db : table) (w : chroma_world) (vs : Chroma) (sf cf : option exn)
    (now mcp_id : Z) (user : User) (mcp_record : Mcp)
    (request : Context.RetrievalRequest) :
  select_owned db mcp_id user = Some mcp_record ->
  let generate := Generation.generate_mcp_json score score_leb distance
                    format_instructions llm parser in
  let outcome := Generation.chain_ainvoke format_instructions llm parser mcp_record
                   (Generation.retrieved_chunks_str score score_leb distance
                      sf w vs mcp_record mcp_id user) in
  (forall e, outcome = Raise e ->
     fst (generate db w vs sf cf now mcp_id user)
     = HTTPException 500
         ("Failed to generate or save MCP JSON definition: " ++ exn_str e))
  /\ (forall j e, outcome = Ok j -> cf = Some e ->
        fst (generate db w vs sf cf now mcp_id user)
        = HTTPException 500
            ("Failed to generate or save MCP JSON definition: " ++ exn_str e))
  /\ (forall j e, outcome = Ok j -> cf = None -> McpDefinition_validate j = Raise e ->
        fst (generate db w vs sf cf now mcp_id user)
        = HTTPException 500
            ("Failed to generate or save MCP JSON definition: " ++ exn_str e))
  /\ (forall e,
        Context.retrieve_context score score_leb distance (Some e) w request
        = if is_RuntimeError e
          then HTTPException 503 (exn_str e)
          else HTTPException 500 ("Failed to retrieve context: " ++ exn_str e))
  /\ (forall e,
        generate db w vs (Some e) cf now mcp_id user
        = generate db empty_world vs None cf now mcp_id user).
Proof.
  intros Hsel generate outcome. repeat apply conj.
  - intros e He. unfold generate.
    erewrite generate_chain_failure; eauto.
  - intros j e Hj ->. unfold generate.
    erewrite generate_commit_failure; eauto.
  - intros j e Hj -> Hv. unfold generate.
    destruct (generate_validation_failure score score_leb distance format_instructions
                llm parser db w vs sf now mcp_id user mcp_record j e Hsel Hj Hv)
      as (r' & -> & _).
    reflexivity.
  - intros e. reflexivity.
  - intros e. apply generate_search_failure.
Qed.

Lemma failures_at_the_request_boundary_witness :
  fst (Generation.generate_mcp_json Z Z.leb Fixtures.text_distance "schema"
         (Fixtures.canned_llm "not json") Fixtures.json_parser
         Fixtures.one_mcp Fixtures.shared_world Fixtures.documents_store
         None None 200 1 Fixtures.alice)
  = HTTPException 500
      "Failed to generate or save MCP JSON definition: Invalid json output".
Proof.
  refine (proj1
    (failures_at_the_request_boundary Z Z.leb Fixtures.text_distance "schema"
       (Fixtures.canned_llm "not json") Fixtures.json_parser
       Fixtures.one_mcp Fixtures.shared_world Fixtures.documents_store
       None None 200 1 Fixtures.alice Fixtures.alice_mcp
       {| Context.query := "notes"; Context.k := 4 |} _)
    (OutputParserException "Invalid json output") _).
  - vm_compute. reflexivity.
  - vm_compute. reflexivity.
Defined.


(* ===================================================================== *)
(** * The context block of the prompt                                     *)
(* ===================================================================== *)

(** C5. The context block placed in the user instruction is the page
    contents of the retrieved chunks joined by the separator (blank line,
    three dashes, blank line) when the search returns chunks, and exactly
    the placeholder sentence, which is not the empty string, when it
    returns none; the user instruction given to the model holds this
    block between the two fixed parts of the template. The block is a
    function of what the search gave ([context_block]), and that
    function joins any chunks it is given and answers the placeholder
    for none and for a failed search. *)
Theorem context_block_rendering
    (score : Type) (score_leb : score -> score -> bool)
    (distance : string -> string -> score)
    (format_instructions : string)
    (llm : string -> string -> result string) (parser : string -> result json)
    (sf : option exn) (w : chroma_world) (vs : Chroma)
    (mcp_record : Mcp) (mcp_id : Z) (user : User) :
  let block := Generation.retrieved_chunks_str score score_leb distance
                 sf w vs mcp_record mcp_id user in
  match Generation.context_search score score_leb distance
          sf w vs mcp_record mcp_id user with
  | Ok [] =>
      block = "No relevant context found for this specific MCP."
      /\ block <> ""
  | Ok (d :: ds) =>
      block = Py.join Generation.chunk_separator (List.map page_content (d :: ds))
      /\ Py.join Generation.chunk_separator (List.map page_content (d :: ds))
         = match ds with
           | [] => page_content d
           | _ => page_content d ++ Generation.chunk_separator
                  ++ Py.join Generation.chunk_separator (List.map page_content ds)
           end
  | Raise _ => block = "No relevant context found for this specific MCP."
  end
  /\ Generation.chunk_separator
     = String (ascii_of_nat 10) (String (ascii_of_nat 10)
         ("---" ++ String (ascii_of_nat 10) (String (ascii_of_nat 10) "")))
  /\ Generation.chain_ainvoke format_instructions llm parser mcp_record block
     = match llm (Generation.system_message format_instructions)
                 (Generation.human_before mcp_record ++ block
                  ++ Generation.human_after) with
       | Ok raw => parser raw
       | Raise e => Raise e
       end
  /\ block = Generation.context_block
               (Generation.context_search score score_leb distance
                  sf w vs mcp_record mcp_id user)
  /\ (forall d ds,
        Generation.context_block (Ok (d :: ds))
        = Py.join Generation.chunk_separator (List.map page_content (d :: ds)))
  /\ Generation.context_block (Ok [])
     = "No relevant context found for this specific MCP."
  /\ (forall e, Generation.context_block (Raise e)
                = "No relevant context found for this specific MCP.").
Proof.
  intros block. unfold block, Generation.retrieved_chunks_str.
  split; [|split; [|split; [|split; [|split; [|split]]]]].
  - destruct (Generation.context_search _ _ _ _ _ _ _ _ _) as [[|d ds]|e].
    + split; [reflexivity | discriminate].
    + split; [reflexivity|]. destruct ds; reflexivity.
    + reflexivity.
  - reflexivity.
  - unfold Generation.chain_ainvoke, Generation.human_message.
    destruct (llm _ _); reflexivity.
  - reflexivity.
  - reflexivity.
  - reflexivity.
  - reflexivity.
Qed.

(* ===================================================================== *)
(** * The upload route when nothing can be extracted                      *)
(* ===================================================================== *)

(** C7 (counterexample). An upload of an allowed type that its loader
    cannot parse makes the request fail with status 500. *)
Lemma ingest_file_fails_on_unparseable :
  Ingestion.ingest_file Fixtures.strict_loader Fixtures.request_uuid
    Fixtures.no_write_fault empty_world Fixtures.documents_store None 1
    Fixtures.broken_pdf Fixtures.alice
  = (HTTPException 500 "Error processing document: EOF marker not found",
     empty_world).
Proof. reflexivity. Qed.

Lemma split_text_empty size overlap seps :
  TextSplitter.split_text size overlap seps "" = [].
Proof. induction seps as [|sep seps IH]; simpl; [reflexivity | exact IH]. Qed.

Lemma split_documents_empty docs :
  Forall (fun d => page_content d = "") docs ->
  Ingestion.split_documents docs = [].
Proof.
  unfold Ingestion.split_documents.
  induction 1 as [|d docs Hd _ IH]; [reflexivity|].
  cbn [flat_map]. rewrite Hd, split_text_empty, IH. reflexivity.
Qed.

(** C7 (amended). For an upload of an allowed type that was saved: when
    the loader returns no document the route answers, without error, that
    no content could be extracted, and writes nothing to the index; when
    the loader returns documents that hold no text it reports zero stored
    chunks and writes nothing; when the loader raises, the route fails
    with status 500 and writes nothing. *)
Theorem ingest_file_nothing_extracted
    (load : Ingestion.Loader -> string -> result (list Document))
    (uuid4 : nat -> string) (write_fault : nat -> option exn)
    (w : chroma_world) (vs : Chroma) (mcp_id : Z)
    (upload : Ingestion.UploadFile) (user : User) (loader : Ingestion.Loader) :
  Ingestion.allowed_content_types (Ingestion.content_type upload) = Some loader ->
  let run := Ingestion.ingest_file load uuid4 write_fault w vs None mcp_id upload user in
  (load loader (Ingestion.file upload) = Ok [] ->
     run = (Return {| Ingestion.result_filename := Ingestion.filename upload;
                      Ingestion.result_mcp_id := None;
                      Ingestion.message :=
                        "File received, but no content could be extracted." |}, w))
  /\ (forall docs,
        load loader (Ingestion.file upload) = Ok docs ->
        docs <> [] -> Forall (fun d => page_content d = "") docs ->
        run = (Return {| Ingestion.result_filename := Ingestion.filename upload;
                         Ingestion.result_mcp_id := Some mcp_id;
                         Ingestion.message :=
                           "File processed and 0 chunks stored successfully for MCP "
                           ++ str_of_Z mcp_id ++ "." |}, w))
  /\ (forall e,
        load loader (Ingestion.file upload) = Raise e ->
        run = (HTTPException 500 ("Error processing document: " ++ exn_str e), w)).
Proof.
  intros Hallowed run. unfold run, Ingestion.ingest_file. rewrite Hallowed.
  split; [|split].
  - intros ->. reflexivity.
  - intros docs -> Hne Hempty. destruct docs as [|d ds]; [congruence|].
    rewrite (split_documents_empty _ Hempty). reflexivity.
  - intros e ->. reflexivity.
Qed.

Lemma ingest_file_nothing_extracted_witness :
  Ingestion.ingest_file Fixtures.strict_loader Fixtures.request_uuid
    Fixtures.no_write_fault empty_world Fixtures.documents_store None 1
    {| Ingestion.filename := "empty.txt"; Ingestion.content_type := "text/plain";
       Ingestion.file := "" |} Fixtures.alice
  = (Return {| Ingestion.result_filename := "empty.txt";
               Ingestion.result_mcp_id := Some 1;
               Ingestion.message :=
                 "File processed and 0 chunks stored successfully for MCP 1." |},
     empty_world).
Proof.
  refine (proj1 (proj2
    (ingest_file_nothing_extracted Fixtures.strict_loader Fixtures.request_uuid
       Fixtures.no_write_fault empty_world Fixtures.documents_store 1
       {| Ingestion.filename := "empty.txt"; Ingestion.content_type := "text/plain";
          Ingestion.file := "" |} Fixtures.alice Ingestion.TextLoader _))
    [{| page_content := ""; metadata := [("source", MStr "upload")] |}] _ _ _).
  - reflexivity.
  - reflexivity.
  - discriminate.
  - repeat constructor.
Defined.

(* ===================================================================== *)
(** * Choosing the index client                                           *)
(* ===================================================================== *)

(** C8. With a remote host configured ([CHROMA_HOST] set to a non-empty
    value) the first use builds the HTTP client and checks it with a
    heartbeat: the only client it can return is the remote one, after a
    heartbeat that answered; when the heartbeat raises, the call raises
    the same exception and nothing is cached; a local persistent client
    is never built. A local client is what the call returns exactly when
    no remote host is configured. *)
Theorem remote_store_never_falls_back
    (env : gmap string string) (int_of_str : string -> result Z)
    (heartbeat : string -> Z -> result unit) (host : string) :
  host_configured env = Some host ->
  (forall c,
     fst (get_vector_store env int_of_str heartbeat None) = Ok c ->
     exists port,
       c = HttpClient host port
       /\ int_of_str (getenv_default env "CHROMA_PORT" "8000") = Ok port
       /\ heartbeat host port = Ok tt)
  /\ (forall port e,
        int_of_str (getenv_default env "CHROMA_PORT" "8000") = Ok port ->
        heartbeat host port = Raise e ->
        get_vector_store env int_of_str heartbeat None = (Raise e, None))
  /\ (forall path,
        fst (get_vector_store env int_of_str heartbeat None)
        <> Ok (PersistentClient path))
  /\ (forall env',
        host_configured env' = None <->
        exists path,
          get_vector_store env' int_of_str heartbeat None
          = (Ok (PersistentClient path), Some (PersistentClient path))).
Proof.
  intros Hhost.
  unfold get_vector_store, get_vector_store_body. rewrite Hhost.
  split; [|split; [|split]].
  - intros c.
    destruct (int_of_str _) as [port|]; simpl; [|discriminate].
    destruct (heartbeat host port) as [[]|] eqn:Hhb; simpl; [|discriminate].
    intros [= <-]. eauto.
  - intros port e -> ->. reflexivity.
  - intros path.
    destruct (int_of_str _) as [port|]; simpl; [|discriminate].
    destruct (heartbeat host port) as [[]|]; simpl; discriminate.
  - intros env'. destruct (host_configured env') as [h|] eqn:Hh'.
    + split; [discriminate|]. intros [path H].
      destruct (int_of_str _) as [port|]; simpl in H; [|discriminate].
      destruct (heartbeat h port) as [[]|]; simpl in H; discriminate.
    + split; [|reflexivity]. intros _. eexists. reflexivity.
Qed.

Lemma remote_store_never_falls_back_witness :
  get_vector_store Fixtures.remote_env Fixtures.port_of_str Fixtures.unreachable None
  = (Raise (ConnectionError "connection refused"), None).
Proof.
  refine (proj1 (proj2
    (remote_store_never_falls_back Fixtures.remote_env Fixtures.port_of_str
       Fixtures.unreachable "chroma.internal" _)) 8000 _ _ _).
  - vm_compute. reflexivity.
  - vm_compute. reflexivity.
  - reflexivity.
Defined.

(* ===================================================================== *)
(** * Updating a project                                                  *)
(* ===================================================================== *)

(** The loop of [update_mcp] sets exactly the attributes the request set
    and raises the flag as soon as there is one. *)
Lemma apply_updates_model_dump u i :
  McpRouter.apply_updates (McpRouter.model_dump_exclude_unset u) i false
  = ({| McpRouter.i_id := McpRouter.i_id i;
        McpRouter.i_name := McpRouter.updated_to (McpRouter.i_name i) (McpRouter.name u);
        McpRouter.i_domain := McpRouter.updated_to (McpRouter.i_domain i) (McpRouter.domain u);
        McpRouter.i_goal := McpRouter.updated_to (McpRouter.i_goal i) (McpRouter.goal u);
        McpRouter.i_roles := McpRouter.updated_to (McpRouter.i_roles i) (McpRouter.roles u);
        McpRouter.i_constraints :=
          McpRouter.updated_to (McpRouter.i_constraints i) (McpRouter.constraints u);
        McpRouter.i_created_at := McpRouter.i_created_at i;
        McpRouter.i_updated_at := McpRouter.i_updated_at i;
        McpRouter.i_owner_id := McpRouter.i_owner_id i;
        McpRouter.i_generated_content :=
          McpRouter.updated_to (McpRouter.i_generated_content i) (McpRouter.generated_content u);
        McpRouter.i_definition_json :=
          McpRouter.updated_to (McpRouter.i_definition_json i)
            (McpRouter.dict_value <$> McpRouter.definition_json u) |},
     negb (McpRouter.sets_nothing u)).
Proof.
  destruct i, u as [gc cs dj nm dm gl rl].
  destruct gc, cs, dj, nm, dm, gl, rl; reflexivity.
Qed.

(** C10. An update leaves every attribute the request did not set at its
    prior value, and never touches the id, the owner or the creation
    time. A request that sets nothing gets the stored record back as it
    is, [updated_at] included, and the table is not written. [updated_at]
    changes only when the request set a field; it is then the current
    time and the row written is the record returned. A failed update
    leaves the table as it was. *)
Theorem update_mcp_frame
    (db : table) (commit_fault : option exn) (now mcp_id : Z)
    (u : McpRouter.McpUpdateRequest) (user : User) (old : Mcp) :
  select_owned db mcp_id user = Some old ->
  let run := McpRouter.update_mcp db commit_fault now mcp_id u user in
  (McpRouter.sets_nothing u = true -> run = (Return old, db))
  /\ (forall r, fst run = Return r ->
        (McpRouter.name u = None -> name r = name old)
        /\ (McpRouter.domain u = None -> domain r = domain old)
        /\ (McpRouter.goal u = None -> goal r = goal old)
        /\ (McpRouter.roles u = None -> roles r = roles old)
        /\ (McpRouter.constraints u = None -> constraints r = constraints old)
        /\ (McpRouter.generated_content u = None ->
              generated_content r = generated_content old)
        /\ (McpRouter.definition_json u = None ->
              definition_json r = definition_json old)
        /\ id r = id old /\ created_at r = created_at old
        /\ owner_id r = owner_id old
        /\ (updated_at r <> updated_at old -> McpRouter.sets_nothing u = false)
        /\ (McpRouter.sets_nothing u = false ->
              updated_at r = now /\ snd run = <[id old := r]> db))
  /\ (forall status detail,
        fst run = HTTPException status detail -> snd run = db).
Proof.
  intros Hsel run. unfold run, McpRouter.update_mcp. rewrite Hsel.
  rewrite apply_updates_model_dump.
  destruct (McpRouter.sets_nothing u) eqn:Hnone; simpl.
  - split; [reflexivity|]. split; [|discriminate].
    intros r [= <-]. repeat split; congruence.
  - split; [discriminate|].
    unfold McpRouter.commit_instance, McpRouter.to_row; simpl.
    destruct commit_fault as [e|]; simpl; [split; [discriminate | reflexivity]|].
    destruct (McpRouter.updated_to (Some (name old)) (McpRouter.name u)) as [n|] eqn:Hn;
      [|split; [discriminate | reflexivity]].
    destruct (McpRouter.updated_to (Some (domain old)) (McpRouter.domain u)) as [d|] eqn:Hd;
      [|split; [discriminate | reflexivity]].
    destruct (McpRouter.updated_to (Some (goal old)) (McpRouter.goal u)) as [g|] eqn:Hg;
      [|split; [discriminate | reflexivity]].
    destruct (McpRouter.updated_to (Some (roles old)) (McpRouter.roles u)) as [rl|] eqn:Hr;
      [|split; [discriminate | reflexivity]].
    simpl. split; [|discriminate].
    intros r [= <-]; simpl.
    repeat split; try reflexivity; try (intros; discriminate).
    + intros H. rewrite H in Hn. simpl in Hn. congruence.
    + intros H. rewrite H in Hd. simpl in Hd. congruence.
    + intros H. rewrite H in Hg. simpl in Hg. congruence.
    + intros H. rewrite H in Hr. simpl in Hr. congruence.
    + intros ->. reflexivity.
    + intros ->. reflexivity.
    + intros ->. reflexivity.
Qed.

Lemma update_mcp_frame_witness :
  McpRouter.update_mcp Fixtures.one_mcp None 500 1
    {| McpRouter.generated_content := None; McpRouter.constraints := None;
       McpRouter.definition_json := None; McpRouter.name := None;
       McpRouter.domain := None; McpRouter.goal := None;
       McpRouter.roles := None |} Fixtures.alice
  = (Return Fixtures.alice_mcp, Fixtures.one_mcp).
Proof.
  refine (proj1
    (update_mcp_frame Fixtures.one_mcp None 500 1
       {| McpRouter.generated_content := None; McpRouter.constraints := None;
          McpRouter.definition_json := None; McpRouter.name := None;
          McpRouter.domain := None; McpRouter.goal := None;
          McpRouter.roles := None |} Fixtures.alice Fixtures.alice_mcp _) _).
  - vm_compute. reflexivity.
  - reflexivity.
Defined.

Example update_mcp_sets_goal :
  McpRouter.update_mcp Fixtures.one_mcp None 500 1
    {| McpRouter.generated_content := None; McpRouter.constraints := None;
       McpRouter.definition_json := None; McpRouter.name := None;
       McpRouter.domain := None; McpRouter.goal := Some (Some "triage tickets");
       McpRouter.roles := None |} Fixtures.alice
  = (Return {| id := 1; name := "Support bot"; domain := "support";
               goal := "triage tickets"; roles := "agent"; constraints := None;
               created_at := 100; updated_at := 500; owner_id := 1;
               generated_content := None; definition_json := JNull |},
     <[1 := {| id := 1; name := "Support bot"; domain := "support";
               goal := "triage tickets"; roles := "agent"; constraints := None;
               created_at := 100; updated_at := 500; owner_id := 1;
               generated_content := None; definition_json := JNull |}]>
       Fixtures.one_mcp).
Proof. reflexivity. Qed.

(* ===================================================================== *)
(** * The splitter: window bound and window count                         *)
(* ===================================================================== *)

Section MergeFacts.

Local Open Scope nat_scope.

Context {A : Type}.
Variable len : A -> nat.
Variable chunk_size chunk_overlap : nat.

Let total := TextSplitter.total len.
Let shrink := TextSplitter.shrink len chunk_size chunk_overlap.
Let merge_from := TextSplitter.merge_from len chunk_size chunk_overlap.

Lemma total_app (a b : list A) : total (a ++ b) = total a + total b.
Proof.
  unfold total, TextSplitter.total. rewrite List.map_app, list_sum_app. reflexivity.
Qed.

Lemma total_single (d : A) : total [d] = len d.
Proof. unfold total, TextSplitter.total. simpl. lia. Qed.

(** What is kept of a window leaves room for the next piece. *)
Lemma shrink_fits next cur :
  next <= chunk_size -> total (shrink next cur) + next <= chunk_size.
Proof.
  intros Hnext. induction cur as [|x cur IH]; simpl.
  - exact Hnext.
  - fold (TextSplitter.total len (x :: cur)). fold total.
    destruct (chunk_overlap <? total (x :: cur)) eqn:Ho; simpl; [exact IH|].
    destruct (chunk_size <? total (x :: cur) + next) eqn:Hs; simpl.
    + destruct (0 <? total (x :: cur)) eqn:Hz; [exact IH|].
      apply Nat.ltb_ge in Hz. lia.
    + apply Nat.ltb_ge in Hs. exact Hs.
Qed.

(** Every window is within the size, given that every piece is. *)
Lemma merge_from_bound pieces : forall cur,
  total cur <= chunk_size ->
  Forall (fun d => len d <= chunk_size) pieces ->
  Forall (fun c => total c <= chunk_size) (merge_from cur pieces).
Proof.
  induction pieces as [|d rest IH]; intros cur Hcur Hp; simpl.
  - destruct cur; constructor; auto.
  - apply Forall_cons in Hp as [Hd Hrest].
    fold total.
    destruct (chunk_size <? total cur + len d) eqn:Hfull.
    + destruct cur as [|x cur].
      * apply IH; [|exact Hrest]. rewrite total_single. exact Hd.
      * constructor; [exact Hcur|].
        apply IH; [|exact Hrest].
        rewrite total_app.
        pose proof (shrink_fits (len d) (x :: cur) Hd) as H.
        unfold shrink in H. rewrite total_single. exact H.
    + apply Nat.ltb_ge in Hfull. apply IH; [|exact Hrest].
      rewrite total_app, total_single. exact Hfull.
Qed.

End MergeFacts.

Section MergeNatural.

Local Open Scope nat_scope.

Context {A B : Type}.
Variable lenA : A -> nat.
Variable lenB : B -> nat.
Variable f : A -> B.
Hypothesis len_f : forall a, lenB (f a) = lenA a.
Variable chunk_size chunk_overlap : nat.

Lemma total_map cur :
  TextSplitter.total lenB (List.map f cur) = TextSplitter.total lenA cur.
Proof.
  unfold TextSplitter.total. rewrite List.map_map. f_equal.
  apply List.map_ext. exact len_f.
Qed.

Lemma shrink_map next cur :
  TextSplitter.shrink lenB chunk_size chunk_overlap next (List.map f cur)
  = List.map f (TextSplitter.shrink lenA chunk_size chunk_overlap next cur).
Proof.
  induction cur as [|x cur IH]; [reflexivity|].
  cbn [TextSplitter.shrink List.map].
  change (f x :: List.map f cur) with (List.map f (x :: cur)).
  rewrite total_map, IH.
  destruct (_ || _); reflexivity.
Qed.

(** The windows depend on the pieces through their lengths only. *)
Lemma merge_from_map pieces : forall cur,
  TextSplitter.merge_from lenB chunk_size chunk_overlap
    (List.map f cur) (List.map f pieces)
  = List.map (List.map f)
      (TextSplitter.merge_from lenA chunk_size chunk_overlap cur pieces).
Proof.
  induction pieces as [|d rest IH]; intros cur.
  - destruct cur; reflexivity.
  - cbn [TextSplitter.merge_from List.map].
    rewrite total_map, len_f.
    destruct (chunk_size <? _).
    + destruct cur as [|x cur].
      * exact (IH [d]).
      * cbn [List.map].
        change (f x :: List.map f cur) with (List.map f (x :: cur)).
        rewrite shrink_map.
        change [f d] with (List.map f [d]).
        rewrite <- List.map_app, IH. reflexivity.
    + change [f d] with (List.map f [d]).
      rewrite <- List.map_app, IH. reflexivity.
Qed.

End MergeNatural.

Section SplitterFacts.

Local Open Scope nat_scope.

Lemma length_append (a b : string) :
  String.length (a ++ b) = String.length a + String.length b.
Proof. induction a as [|x a IH]; simpl; congruence. Qed.

Lemma length_concat_str pieces :
  String.length (TextSplitter.concat_str pieces)
  = TextSplitter.total String.length pieces.
Proof.
  unfold TextSplitter.total.
  induction pieces as [|p pieces IH]; simpl; [reflexivity|].
  rewrite length_append, IH. reflexivity.
Qed.

Lemma splitter_rstrip_length s :
  String.length (TextSplitter.rstrip s) <= String.length s.
Proof.
  induction s as [|c s IH]; simpl; [lia|].
  destruct (TextSplitter.rstrip s); [destruct (TextSplitter.isspace c)|];
    simpl in *; lia.
Qed.

Lemma splitter_lstrip_length s :
  String.length (TextSplitter.lstrip s) <= String.length s.
Proof.
  induction s as [|c s IH]; simpl; [lia|].
  destruct (TextSplitter.isspace c); simpl; lia.
Qed.

Lemma splitter_strip_length s :
  String.length (TextSplitter.strip s) <= String.length s.
Proof.
  unfold TextSplitter.strip.
  pose proof (splitter_rstrip_length (TextSplitter.lstrip s)).
  pose proof (splitter_lstrip_length s). lia.
Qed.

(** A chunk is the text of a window, which is not empty and not longer
    than the window. *)
Lemma join_docs_Some pieces text :
  TextSplitter.join_docs pieces = Some text ->
  1 <= String.length text <= TextSplitter.total String.length pieces.
Proof.
  unfold TextSplitter.join_docs.
  destruct (String.eqb _ _) eqn:He; [discriminate|]. intros [= <-].
  apply String.eqb_neq in He.
  pose proof (splitter_strip_length (TextSplitter.concat_str pieces)) as Hlen.
  rewrite length_concat_str in Hlen.
  destruct (TextSplitter.strip _); [congruence | simpl in *; lia].
Qed.

Variable chunk_size chunk_overlap : nat.
Hypothesis size_pos : 1 <= chunk_size.

Let small (c : string) : Prop := String.length c <= chunk_size.
Let fits (c : string) : Prop := 1 <= String.length c <= chunk_size.

Lemma merge_splits_bound pieces :
  Forall small pieces ->
  Forall fits (TextSplitter.merge_splits chunk_size chunk_overlap pieces).
Proof.
  intros Hp. unfold TextSplitter.merge_splits.
  pose proof (merge_from_bound String.length chunk_size chunk_overlap pieces []
                ltac:(unfold TextSplitter.total; simpl; lia) Hp) as Hw.
  apply Forall_forall. intros text Hin.
  apply list_elem_of_omap in Hin as (window & Hwin & Hjoin).
  rewrite Forall_forall in Hw. specialize (Hw window Hwin). simpl in Hw.
  apply join_docs_Some in Hjoin. unfold fits. lia.
Qed.

Lemma split_pieces_bound finer pieces : forall good,
  (forall s, Forall fits (finer s)) ->
  Forall small good ->
  Forall fits (TextSplitter.split_pieces chunk_size chunk_overlap finer pieces good).
Proof.
  induction pieces as [|s rest IH]; intros good Hfiner Hgood; simpl.
  - apply merge_splits_bound, Hgood.
  - destruct (String.length s <? chunk_size) eqn:Hs.
    + apply IH; [exact Hfiner|].
      apply Forall_app. split; [exact Hgood|].
      constructor; [|constructor]. unfold small.
      apply Nat.ltb_lt in Hs. lia.
    + apply Forall_app. split; [apply merge_splits_bound, Hgood|].
      apply Forall_app. split; [apply Hfiner|].
      apply IH; [exact Hfiner | constructor].
Qed.

Lemma characters_small text : Forall small (TextSplitter.characters text).
Proof.
  unfold TextSplitter.characters. apply Forall_map.
  apply Forall_forall. intros c _. unfold small. simpl. exact size_pos.
Qed.

(** No chunk is empty and none is longer than [chunk_size]. *)
Lemma split_text_bound seps : forall text,
  Forall fits (TextSplitter.split_text chunk_size chunk_overlap seps text).
Proof.
  induction seps as [|sep finer IH]; intros text; simpl.
  - apply merge_splits_bound, characters_small.
  - destruct (TextSplitter.contains sep text).
    + apply split_pieces_bound; [exact IH | constructor].
    + apply IH.
Qed.

Lemma contains_head c sep text :
  TextSplitter.contains (String c sep) text = true ->
  In c (list_ascii_of_string text).
Proof.
  induction text as [|a text IH]; simpl; [discriminate|].
  destruct (ascii_dec c a) as [->|Hc].
  - intros _. left. reflexivity.
  - simpl. intros H. right. apply IH, H.
Qed.

Lemma no_whitespace_contains c sep text :
  TextSplitter.isspace c = true ->
  TextSplitter.no_whitespace text = true ->
  TextSplitter.contains (String c sep) text = false.
Proof.
  intros Hc Hno. apply not_true_iff_false. intros Hin.
  apply contains_head in Hin. unfold TextSplitter.no_whitespace in Hno.
  rewrite forallb_forall in Hno. specialize (Hno c Hin).
  rewrite Hc in Hno. discriminate.
Qed.

(** A text without white space holds none of the separators and is cut
    between characters. *)
Lemma split_text_no_whitespace text :
  TextSplitter.no_whitespace text = true ->
  TextSplitter.split_text chunk_size chunk_overlap TextSplitter.separators text
  = TextSplitter.merge_splits chunk_size chunk_overlap (TextSplitter.characters text).
Proof.
  intros Hno. unfold TextSplitter.separators. cbn [TextSplitter.split_text].
  pose proof (no_whitespace_contains (ascii_of_nat 10) TextSplitter.NL text
                eq_refl Hno) as H1.
  pose proof (no_whitespace_contains (ascii_of_nat 10) EmptyString text
                eq_refl Hno) as H2.
  pose proof (no_whitespace_contains " "%char EmptyString text eq_refl Hno) as H3.
  change (String (ascii_of_nat 10) TextSplitter.NL)
    with (TextSplitter.NL ++ TextSplitter.NL)%string in H1.
  change (String (ascii_of_nat 10) EmptyString) with TextSplitter.NL in H2.
  rewrite H1, H2, H3. reflexivity.
Qed.

End SplitterFacts.

Section WindowFacts.

Local Open Scope nat_scope.

Lemma lstrip_no_whitespace s :
  TextSplitter.no_whitespace s = true -> TextSplitter.lstrip s = s.
Proof.
  unfold TextSplitter.no_whitespace. destruct s as [|c s]; simpl; [reflexivity|].
  destruct (TextSplitter.isspace c); simpl; [discriminate | reflexivity].
Qed.

Lemma rstrip_no_whitespace s :
  TextSplitter.no_whitespace s = true -> TextSplitter.rstrip s = s.
Proof.
  unfold TextSplitter.no_whitespace. induction s as [|c s IH]; simpl; [reflexivity|].
  destruct (TextSplitter.isspace c) eqn:Hc; simpl; [discriminate|].
  intros H. rewrite (IH H). destruct s; reflexivity.
Qed.

Lemma strip_no_whitespace s :
  TextSplitter.no_whitespace s = true -> TextSplitter.strip s = s.
Proof.
  intros H. unfold TextSplitter.strip.
  rewrite (lstrip_no_whitespace s H). apply rstrip_no_whitespace, H.
Qed.

Lemma no_whitespace_substring s : forall a m,
  TextSplitter.no_whitespace s = true ->
  TextSplitter.no_whitespace (substring a m s) = true.
Proof.
  unfold TextSplitter.no_whitespace.
  induction s as [|c s IH]; intros a m H.
  - destruct a, m; reflexivity.
  - simpl in H. apply andb_true_iff in H as [Hc Hs].
    destruct a as [|a].
    + destruct m as [|m]; [reflexivity|]. simpl. rewrite Hc. apply (IH 0 m Hs).
    + simpl. apply IH, Hs.
Qed.

Lemma length_substring s : forall a m,
  a + m <= String.length s -> String.length (substring a m s) = m.
Proof.
  induction s as [|c s IH]; intros a m H; simpl in H.
  - assert (a = 0) as -> by lia. assert (m = 0) as -> by lia. reflexivity.
  - destruct a as [|a].
    + destruct m as [|m]; [reflexivity|]. simpl. rewrite (IH 0 m); [reflexivity | lia].
    + simpl. apply IH. lia.
Qed.

Lemma characters_by_position text :
  TextSplitter.characters text
  = List.map (TextSplitter.piece_at text) (seq 0 (String.length text)).
Proof.
  unfold TextSplitter.characters, TextSplitter.piece_at.
  induction text as [|c text IH]; [reflexivity|].
  cbn [list_ascii_of_string String.length List.map seq].
  f_equal. rewrite IH, <- seq_shift, List.map_map. reflexivity.
Qed.

Lemma concat_positions text : forall a m,
  a + m <= String.length text ->
  TextSplitter.concat_str (List.map (TextSplitter.piece_at text) (seq a m))
  = substring a m text.
Proof.
  unfold TextSplitter.piece_at.
  induction text as [|c text IH]; intros a m H; simpl in H.
  - assert (a = 0) as -> by lia. assert (m = 0) as -> by lia. reflexivity.
  - destruct a as [|a].
    + destruct m as [|m]; [reflexivity|].
      cbn [seq List.map TextSplitter.concat_str List.fold_right list_ascii_of_string nth].
      cbn [String.append substring]. f_equal.
      rewrite <- seq_shift, List.map_map.
      apply (IH 0 m). lia.
    + rewrite <- seq_shift, List.map_map. cbn [list_ascii_of_string nth substring].
      apply IH. lia.
Qed.

Lemma join_positions text a m :
  TextSplitter.no_whitespace text = true ->
  1 <= m -> a + m <= String.length text ->
  TextSplitter.join_docs (List.map (TextSplitter.piece_at text) (seq a m))
  = Some (substring a m text).
Proof.
  intros Hno Hm Ham. unfold TextSplitter.join_docs.
  rewrite (concat_positions text a m Ham).
  rewrite (strip_no_whitespace _ (no_whitespace_substring text a m Hno)).
  pose proof (length_substring text a m Ham) as Hlen.
  destruct (substring a m text); [simpl in Hlen; lia | reflexivity].
Qed.

(** The windows over 3000 pieces of one character each. *)
Lemma windows_of_3000 :
  TextSplitter.merge_from (fun _ : nat => 1) 1000 200 [] (seq 0 3000)
  = [seq 0 1000; seq 800 1000; seq 1600 1000; seq 2400 600].
Proof. vm_compute. reflexivity. Qed.

Lemma substring_all s : forall m,
  String.length s <= m -> substring 0 m s = s.
Proof.
  induction s as [|c s IH]; intros m H.
  - destruct m; reflexivity.
  - destruct m as [|m]; simpl in *; [lia|]. rewrite IH by lia. reflexivity.
Qed.

Lemma substring_to_the_end s : forall a m m',
  String.length s <= a + m -> String.length s <= a + m' ->
  substring a m s = substring a m' s.
Proof.
  induction s as [|c s IH]; intros a m m' H H'.
  - destruct a, m, m'; reflexivity.
  - destruct a as [|a].
    + rewrite !substring_all by (simpl in *; lia). reflexivity.
    + simpl. apply IH; simpl in *; lia.
Qed.

Lemma split_text_3000 text :
  TextSplitter.no_whitespace text = true ->
  String.length text = 3000 ->
  TextSplitter.split_text 1000 200 TextSplitter.separators text
  = List.map (fun start => substring start 1000 text) [0; 800; 1600; 2400].
Proof.
  intros Hno Hlen.
  rewrite (split_text_no_whitespace 1000 200 text Hno).
  unfold TextSplitter.merge_splits.
  rewrite characters_by_position, Hlen.
  pose proof (merge_from_map (fun _ : nat => 1) String.length
                (TextSplitter.piece_at text)
                (fun _ => eq_refl) 1000 200 (seq 0 3000) []) as Hnat.
  change (List.map (TextSplitter.piece_at text) []) with (@nil string) in Hnat.
  rewrite Hnat, windows_of_3000.
  cbn [List.map omap list_omap].
  rewrite !join_positions by (try exact Hno; lia).
  rewrite (substring_to_the_end text 2400 600 1000) by lia.
  reflexivity.
Qed.

Lemma split_documents_bound docs :
  Forall (fun c => 1 <= String.length (page_content c) <= 1000
                   /\ exists d, In d docs /\ metadata c = metadata d)
         (Ingestion.split_documents docs).
Proof.
  unfold Ingestion.split_documents.
  apply List.Forall_forall. intros c Hc.
  apply in_flat_map in Hc as (d & Hd & Hc).
  apply in_map_iff in Hc as (t & <- & Ht). simpl. split; [|eauto].
  pose proof (split_text_bound 1000 200 ltac:(lia) TextSplitter.separators
                (page_content d)) as Hb.
  rewrite List.Forall_forall in Hb. apply (Hb t Ht).
Qed.

(** C6 (counterexample). A plain text of 3000 characters in five
    paragraphs of about 600 characters gives five chunks, one per
    paragraph: two paragraphs do not fit in one window. *)
Lemma split_documents_five_paragraphs :
  String.length Fixtures.five_paragraphs = 3000
  /\ McpRoutes.is_ascii Fixtures.five_paragraphs = true
  /\ List.map page_content
       (Ingestion.split_documents
          [{| page_content := Fixtures.five_paragraphs;
              metadata := [("source", MStr "plain.txt")] |}])
     = [Fixtures.paragraph; Fixtures.paragraph; Fixtures.paragraph;
        Fixtures.paragraph; Fixtures.closing_paragraph]
  /\ ~ (3 <= length (Ingestion.split_documents
                       [{| page_content := Fixtures.five_paragraphs;
                           metadata := [("source", MStr "plain.txt")] |}]) <= 4).
Proof.
  assert (H : List.map page_content
       (Ingestion.split_documents
          [{| page_content := Fixtures.five_paragraphs;
              metadata := [("source", MStr "plain.txt")] |}])
     = [Fixtures.paragraph; Fixtures.paragraph; Fixtures.paragraph;
        Fixtures.paragraph; Fixtures.closing_paragraph])
    by (vm_compute; reflexivity).
  split; [vm_compute; reflexivity|]. split; [vm_compute; reflexivity|].
  split; [exact H|].
  apply (f_equal (@length string)) in H. rewrite List.length_map in H.
  rewrite H. simpl. lia.
Qed.

(** C6 (amended). The upload route splits with a window of 1000
    characters and an overlap of 200. Every chunk holds at least one and
    at most 1000 characters and carries the metadata of its document. A
    text of 3000 characters without white space gives exactly four
    chunks: the characters from positions 0, 800, 1600 and 2400 on, 1000
    at a time (600 for the last), so that each chunk starts with the
    last 200 characters of the one before. *)
Theorem split_documents_windows (docs : list Document) (d : Document) :
  Forall (fun x => McpRoutes.is_ascii (page_content x) = true) docs ->
  McpRoutes.is_ascii (page_content d) = true ->
  TextSplitter.no_whitespace (page_content d) = true ->
  String.length (page_content d) = 3000 ->
  Forall (fun c => 1 <= String.length (page_content c) <= 1000
                   /\ exists x, In x docs /\ metadata c = metadata x)
         (Ingestion.split_documents docs)
  /\ Ingestion.split_documents [d]
     = List.map (fun start =>
                   {| page_content := substring start 1000 (page_content d);
                      metadata := metadata d |})
                [0; 800; 1600; 2400]
  /\ length (Ingestion.split_documents [d]) = 4.
Proof.
  intros _ _ Hno Hlen.
  split; [apply split_documents_bound|].
  assert (Hsplit : Ingestion.split_documents [d]
     = List.map (fun start =>
                   {| page_content := substring start 1000 (page_content d);
                      metadata := metadata d |})
                [0; 800; 1600; 2400]).
  { unfold Ingestion.split_documents. cbn [flat_map]. rewrite app_nil_r.
    unfold Ingestion.CHUNK_SIZE, Ingestion.CHUNK_OVERLAP.
    rewrite (split_text_3000 _ Hno Hlen). reflexivity. }
  split; [exact Hsplit|]. rewrite Hsplit. reflexivity.
Qed.

Lemma split_documents_windows_witness :
  length (Ingestion.split_documents
            [{| page_content := string_of_list_ascii (repeat "a"%char 3000);
                metadata := [("source", MStr "plain.txt")] |}]) = 4.
Proof.
  refine (proj2 (proj2
    (split_documents_windows
       [{| page_content := "Refunds are never granted.";
           metadata := [("source", MStr "upload")] |}]
       {| page_content := string_of_list_ascii (repeat "a"%char 3000);
          metadata := [("source", MStr "plain.txt")] |} _ _ _ _))).
  - repeat constructor.
  - vm_compute. reflexivity.
  - vm_compute. reflexivity.
  - vm_compute. reflexivity.
Defined.

(** The windows of a short text with three characters of overlap. *)
Example split_text_overlap :
  TextSplitter.split_text 10 3 TextSplitter.separators "abcdefghijklmnopqrstuvwxyz"
  = ["abcdefghij"; "hijklmnopq"; "opqrstuvwx"; "vwxyz"].
Proof. reflexivity. Qed.

(** Windows break at the word separator; the white space around a chunk
    is not part of it. *)
Example split_text_words :
  TextSplitter.split_text 10 3 TextSplitter.separators "hello world this is a test"
  = ["hello"; "world"; "this is a"; "a test"].
Proof. reflexivity. Qed.

(** A text of white space only gives no chunk. *)
Example split_text_blank :
  TextSplitter.split_text 1000 200 TextSplitter.separators "     " = [].
Proof. reflexivity. Qed.

End WindowFacts.

(* ===================================================================== *)
(** * Writing a value as JSON text and reading it back                    *)
(* ===================================================================== *)



Lemma append_assoc (a b c : string) : (a ++ b) ++ c = a ++ (b ++ c).
Proof. induction a as [|x a IH]; simpl; congruence. Qed.

(** ** String literals *)

Lemma parse_chars_escape_char c tail :
  JsonText.parse_chars (JsonText.escape_char c ++ tail)
  = match JsonText.parse_chars tail with
    | Some (str, r) => Some (String c str, r)
    | None => None
    end.
Proof.
  destruct c as [[|] [|] [|] [|] [|] [|] [|] [|]]; reflexivity.
Qed.

Lemma parse_chars_escape s rest :
  JsonText.parse_chars (JsonText.escape s ++ String JsonText.DQUOTE rest)
  = Some (s, rest).
Proof.
  induction s as [|c s IH]; [reflexivity|].
  cbn [JsonText.escape]. rewrite append_assoc, parse_chars_escape_char, IH.
  reflexivity.
Qed.

Lemma quote_append s rest :
  JsonText.quote s ++ rest
  = String JsonText.DQUOTE (JsonText.escape s ++ String JsonText.DQUOTE rest).
Proof.
  unfold JsonText.quote. cbn [String.append]. rewrite append_assoc. reflexivity.
Qed.

(** ** Integer literals *)

Lemma span_digits_stop rest :
  JsonText.no_digit_ahead rest -> JsonText.span_digits rest = (EmptyString, rest).
Proof. destruct rest as [|c rest]; simpl; [reflexivity|]. intros ->. reflexivity. Qed.

Lemma span_digits_uint d rest :
  JsonText.no_digit_ahead rest ->
  JsonText.span_digits (NilEmpty.string_of_uint d ++ rest)
  = (NilEmpty.string_of_uint d, rest).
Proof.
  intros Hrest. induction d; cbn [NilEmpty.string_of_uint String.append];
    try (cbn [JsonText.span_digits]; rewrite IHd; reflexivity).
  apply span_digits_stop, Hrest.
Qed.

Lemma parse_int_uint d rest :
  d <> Decimal.Nil -> JsonText.no_digit_ahead rest ->
  JsonText.parse_int (NilEmpty.string_of_uint d ++ rest) = Some (Z.of_uint d, rest).
Proof.
  intros Hd Hrest. unfold JsonText.parse_int.
  pose proof (span_digits_uint d rest Hrest) as Hspan.
  pose proof (NilEmpty.usu d) as Husu.
  destruct d; try congruence;
    cbn [NilEmpty.string_of_uint String.append] in *;
    cbn [Ascii.eqb Bool.eqb]; rewrite Hspan;
    unfold NilZero.uint_of_string; rewrite Husu; reflexivity.
Qed.

Lemma parse_int_neg d rest :
  d <> Decimal.Nil -> JsonText.no_digit_ahead rest ->
  JsonText.parse_int (String "-" (NilEmpty.string_of_uint d ++ rest))
  = Some (Z.opp (Z.of_uint d), rest).
Proof.
  intros Hd Hrest. unfold JsonText.parse_int.
  cbn [Ascii.eqb Bool.eqb].
  rewrite (span_digits_uint d rest Hrest).
  pose proof (NilEmpty.usu d) as Husu.
  destruct d; try congruence;
    cbn [NilEmpty.string_of_uint] in *;
    unfold NilZero.uint_of_string; rewrite Husu; reflexivity.
Qed.

Lemma str_of_Z_cases z :
  (exists d, d <> Decimal.Nil /\ str_of_Z z = NilEmpty.string_of_uint d
             /\ Z.of_uint d = z)
  \/ (exists d, d <> Decimal.Nil
                /\ str_of_Z z = String "-" (NilEmpty.string_of_uint d)
                /\ Z.opp (Z.of_uint d) = z).
Proof.
  pose proof (DecimalZ.of_to z) as Hz.
  unfold str_of_Z. destruct z as [|p|p]; simpl in *.
  - left. exists (Decimal.D0 Decimal.Nil). repeat split; congruence.
  - left. exists (Pos.to_uint p).
    pose proof (DecimalPos.Unsigned.to_uint_nonnil p) as Hn.
    repeat split; [exact Hn| |exact Hz].
    destruct (Pos.to_uint p); [congruence | reflexivity..].
  - right. exists (Pos.to_uint p).
    pose proof (DecimalPos.Unsigned.to_uint_nonnil p) as Hn.
    repeat split; [exact Hn| |exact Hz].
    destruct (Pos.to_uint p); [congruence | reflexivity..].
Qed.

Lemma parse_int_str_of_Z z rest :
  JsonText.no_digit_ahead rest ->
  JsonText.parse_int (str_of_Z z ++ rest) = Some (z, rest).
Proof.
  intros Hrest.
  destruct (str_of_Z_cases z) as [(d & Hd & -> & <-)|(d & Hd & -> & <-)].
  - apply parse_int_uint; assumption.
  - apply parse_int_neg; assumption.
Qed.

(** A text that starts like a number is read as a number. *)
Lemma parse_value_number n c s :
  JsonText.is_digit c || Ascii.eqb c "-" = true ->
  JsonText.parse_value (S n) (String c s)
  = match JsonText.parse_int (String c s) with
    | Some (z, r) => Some (JInt z, r)
    | None => None
    end.
Proof.
  destruct c as [[|] [|] [|] [|] [|] [|] [|] [|]];
    intros H; try discriminate H; reflexivity.
Qed.

Lemma str_of_Z_head z :
  exists c s, str_of_Z z = String c s
              /\ JsonText.is_digit c || Ascii.eqb c "-" = true.
Proof.
  destruct (str_of_Z_cases z) as [(d & Hd & -> & _)|(d & Hd & -> & _)].
  - destruct d; try congruence; eexists; eexists; split; reflexivity.
  - eexists; eexists; split; reflexivity.
Qed.

Lemma parse_value_int n z rest :
  JsonText.no_digit_ahead rest ->
  JsonText.parse_value (S n) (str_of_Z z ++ rest) = Some (JInt z, rest).
Proof.
  intros Hrest.
  pose proof (parse_int_str_of_Z z rest Hrest) as Hint.
  destruct (str_of_Z_head z) as (c & s & Heq & Hc).
  rewrite Heq in *. cbn [String.append] in *.
  rewrite (parse_value_number n c (s ++ rest) Hc), Hint. reflexivity.
Qed.

(** ** Values *)

Lemma dumps_arr items :
  JsonText.dumps (JArr items)
  = "[" ++ Py.join "," (List.map JsonText.dumps items) ++ "]".
Proof. reflexivity. Qed.

Lemma dumps_obj members :
  JsonText.dumps (JObj members)
  = "{" ++ Py.join "," (List.map JsonText.member_text members) ++ "}".
Proof. reflexivity. Qed.

Lemma number_head_not_bracket c :
  JsonText.is_digit c || Ascii.eqb c "-" = true -> Ascii.eqb c "]" = false.
Proof.
  destruct c as [[|] [|] [|] [|] [|] [|] [|] [|]];
    intros H; try discriminate H; reflexivity.
Qed.

(** The text of a value never starts with a closing bracket. *)
Lemma dumps_head j :
  exists c s, JsonText.dumps j = String c s /\ Ascii.eqb c "]" = false.
Proof.
  destruct j as [|[|]|z|s|items|members].
  - eexists; eexists; split; reflexivity.
  - eexists; eexists; split; reflexivity.
  - eexists; eexists; split; reflexivity.
  - destruct (str_of_Z_head z) as (c & s & Heq & Hc).
    exists c, s. split; [exact Heq | apply number_head_not_bracket, Hc].
  - eexists; eexists; split; reflexivity.
  - rewrite dumps_arr. eexists; eexists; split; reflexivity.
  - rewrite dumps_obj. eexists; eexists; split; reflexivity.
Qed.

Lemma parse_value_S n c rest :
  JsonText.parse_value (S n) (String c rest)
  = if Ascii.eqb c "n" then
      match JsonText.expect "ull" rest with Some r => Some (JNull, r) | None => None end
    else if Ascii.eqb c "t" then
      match JsonText.expect "rue" rest with
      | Some r => Some (JBool true, r) | None => None end
    else if Ascii.eqb c "f" then
      match JsonText.expect "alse" rest with
      | Some r => Some (JBool false, r) | None => None end
    else if Ascii.eqb c JsonText.DQUOTE then
      match JsonText.parse_chars rest with
      | Some (str, r) => Some (JStr str, r)
      | None => None
      end
    else if Ascii.eqb c "[" then
      match rest with
      | EmptyString => None
      | String c' r =>
          if Ascii.eqb c' "]" then Some (JArr [], r)
          else
            match JsonText.parse_items n rest with
            | Some (items, r') => Some (JArr items, r')
            | None => None
            end
      end
    else if Ascii.eqb c "{" then
      match rest with
      | EmptyString => None
      | String c' r =>
          if Ascii.eqb c' "}" then Some (JObj [], r)
          else
            match JsonText.parse_members n rest with
            | Some (pairs, r') => Some (JObj (JsonText.dict_of_pairs pairs), r')
            | None => None
            end
      end
    else
      match JsonText.parse_int (String c rest) with
      | Some (z, r) => Some (JInt z, r)
      | None => None
      end.
Proof. reflexivity. Qed.

Lemma parse_items_S n s :
  JsonText.parse_items (S n) s
  = match JsonText.parse_value n s with
    | Some (v, String c r) =>
        if Ascii.eqb c "," then
          match JsonText.parse_items n r with
          | Some (vs, r') => Some (v :: vs, r')
          | None => None
          end
        else if Ascii.eqb c "]" then Some ([v], r)
        else None
    | _ => None
    end.
Proof. reflexivity. Qed.

Lemma parse_members_S n rest :
  JsonText.parse_members (S n) (String JsonText.DQUOTE rest)
  = match JsonText.parse_chars rest with
    | Some (key, String c r) =>
        if Ascii.eqb c ":" then
          match JsonText.parse_value n r with
          | Some (v, String c' r') =>
              if Ascii.eqb c' "," then
                match JsonText.parse_members n r' with
                | Some (kvs, r'') => Some ((key, v) :: kvs, r'')
                | None => None
                end
              else if Ascii.eqb c' "}" then Some ([(key, v)], r')
              else None
          | _ => None
          end
        else None
    | _ => None
    end.
Proof. reflexivity. Qed.


(** A dict built key by key from distinct keys is the list of its pairs. *)
Lemma dict_set_fresh d k v :
  existsb (String.eqb k) (List.map fst d) = false ->
  JsonText.dict_set d k v = (d ++ [(k, v)])%list.
Proof.
  induction d as [|[k' v'] d IH]; simpl; [reflexivity|].
  rewrite orb_false_iff. intros [Hk Hd].
  rewrite String.eqb_sym, Hk, IH by exact Hd. reflexivity.
Qed.

Lemma existsb_eqb_false k keys :
  existsb (String.eqb k) keys = false <-> ~ In k keys.
Proof.
  induction keys as [|k' keys IH]; simpl.
  - tauto.
  - rewrite orb_false_iff, IH, String.eqb_neq. intuition congruence.
Qed.

Lemma dict_of_pairs_from members : forall acc,
  JsonText.keys_distinct (List.map fst members) = true ->
  (forall k, In k (List.map fst members) -> ~ In k (List.map fst acc)) ->
  List.fold_left (fun d kv => JsonText.dict_set d (fst kv) (snd kv)) members acc
  = (acc ++ members)%list.
Proof.
  induction members as [|[k v] members IH]; intros acc Hd Hfresh; simpl.
  - rewrite app_nil_r. reflexivity.
  - simpl in Hd. apply andb_true_iff in Hd as [Hk Hd].
    apply negb_true_iff, existsb_eqb_false in Hk.
    rewrite dict_set_fresh by (apply existsb_eqb_false, Hfresh; left; reflexivity).
    rewrite IH; [rewrite <- app_assoc; reflexivity | exact Hd |].
    intros k' Hin. rewrite List.map_app, in_app_iff. simpl.
    intros [Hacc|[<-|[]]].
    + apply (Hfresh k'); [right; exact Hin | exact Hacc].
    + exact (Hk Hin).
Qed.

Lemma dict_of_pairs_distinct members :
  JsonText.keys_distinct (List.map fst members) = true ->
  JsonText.dict_of_pairs members = members.
Proof.
  intros Hd. unfold JsonText.dict_of_pairs.
  rewrite dict_of_pairs_from; [reflexivity | exact Hd | intros k _ []].
Qed.

Lemma join_cons2 sep x y l :
  Py.join sep (x :: y :: l) = x ++ sep ++ Py.join sep (y :: l).
Proof. reflexivity. Qed.

(** The elements of a non-empty list, up to the closing bracket. *)
Lemma parse_items_reads_back items :
  Forall JsonText.reads_back items ->
  forall n rest,
    items <> [] ->
    forallb JsonText.well_formed items = true ->
    (list_sum (List.map (fun x => S (JsonText.fuel_of x)) items) <= n)%nat ->
    JsonText.parse_items n
      (Py.join "," (List.map JsonText.dumps items) ++ String "]" rest)
    = Some (items, rest).
Proof.
  induction 1 as [|x items Hx _ IH]; intros n rest Hne Hwf Hfuel; [congruence|].
  cbn [forallb] in Hwf. apply andb_true_iff in Hwf as [Hwx Hwf].
  simpl in Hfuel.
  destruct n as [|n]; [lia|].
  rewrite parse_items_S.
  destruct items as [|y items].
  - cbn [List.map Py.join].
    rewrite (Hx n (String "]" rest) Hwx) by (simpl; auto; lia).
    reflexivity.
  - cbn [List.map]. rewrite join_cons2.
    rewrite append_assoc. cbn [String.append].
    rewrite (Hx n _ Hwx) by (simpl; auto; lia).
    cbn [Ascii.eqb Bool.eqb].
    change (JsonText.dumps y :: List.map JsonText.dumps items)
      with (List.map JsonText.dumps (y :: items)).
    rewrite IH; [reflexivity | discriminate | exact Hwf |].
    simpl in *. lia.
Qed.

(** The members of a non-empty dict, up to the closing brace. *)
Lemma parse_members_reads_back members :
  Forall (fun kv => JsonText.reads_back (snd kv)) members ->
  forall n rest,
    members <> [] ->
    forallb (fun kv => JsonText.well_formed (snd kv)) members = true ->
    (list_sum (List.map (fun kv => S (JsonText.fuel_of (snd kv))) members) <= n)%nat ->
    JsonText.parse_members n
      (Py.join "," (List.map JsonText.member_text members) ++ String "}" rest)
    = Some (members, rest).
Proof.
  induction 1 as [|[k v] members Hv _ IH]; intros n rest Hne Hwf Hfuel; [congruence|].
  cbn [forallb snd] in Hwf. apply andb_true_iff in Hwf as [Hwv Hwf].
  simpl in Hfuel, Hv.
  destruct n as [|n]; [lia|].
  destruct members as [|kv members].
  - cbn [List.map Py.join]. unfold JsonText.member_text. cbn [fst snd].
    rewrite append_assoc, quote_append, parse_members_S, parse_chars_escape.
    cbn [String.append Ascii.eqb Bool.eqb].
    rewrite (Hv n (String "}" rest) Hwv) by (simpl; auto; lia).
    reflexivity.
  - cbn [List.map]. rewrite join_cons2. unfold JsonText.member_text at 1. cbn [fst snd].
    rewrite !append_assoc, quote_append, parse_members_S, parse_chars_escape.
    cbn [String.append Ascii.eqb Bool.eqb].
    rewrite (Hv n _ Hwv) by (simpl; auto; lia).
    cbn [Ascii.eqb Bool.eqb].
    change (JsonText.member_text kv :: List.map JsonText.member_text members)
      with (List.map JsonText.member_text (kv :: members)).
    rewrite IH; [reflexivity | discriminate | exact Hwf |].
    simpl in *. lia.
Qed.

(** Every well-formed value is read back from its text. *)
Lemma dumps_reads_back j : JsonText.reads_back j.
Proof.
  induction j as [|b|z|s|items IH|members IH] using JsonText.json_induction;
    intros n rest Hwf Hfuel Hrest;
    (destruct n as [|n]; [simpl in Hfuel; lia|]).
  - reflexivity.
  - destruct b; reflexivity.
  - apply parse_value_int, Hrest.
  - cbn [JsonText.dumps]. rewrite quote_append, parse_value_S.
    cbn [Ascii.eqb Bool.eqb JsonText.DQUOTE ascii_of_nat ascii_of_pos
         Ascii.shift Ascii.one Ascii.zero].
    change (String (ascii_of_nat 34) rest) with (String JsonText.DQUOTE rest).
    rewrite parse_chars_escape. reflexivity.
  - rewrite dumps_arr. cbn [String.append]. rewrite append_assoc.
    cbn [String.append]. rewrite parse_value_S. cbn [Ascii.eqb Bool.eqb].
    destruct items as [|x items]; [reflexivity|].
    destruct (dumps_head x) as (c & s & Hhead & Hc).
    assert (Htext : exists s',
      Py.join "," (List.map JsonText.dumps (x :: items)) ++ String "]" rest
      = String c s').
    { destruct items as [|y items]; cbn [List.map].
      - cbn [Py.join]. rewrite Hhead. eexists. reflexivity.
      - rewrite join_cons2, Hhead. eexists. reflexivity. }
    destruct Htext as (s' & Htext).
    pose proof (parse_items_reads_back (x :: items) IH n rest) as Hitems.
    rewrite Htext in *. rewrite Hc.
    rewrite Hitems; [reflexivity | discriminate | exact Hwf |].
    simpl in Hfuel |- *. lia.
  - rewrite dumps_obj. cbn [String.append]. rewrite append_assoc.
    cbn [String.append]. rewrite parse_value_S. cbn [Ascii.eqb Bool.eqb].
    destruct members as [|[k v] members]; [reflexivity|].
    cbn [JsonText.well_formed] in Hwf. apply andb_true_iff in Hwf as [Hkeys Hwf].
    assert (Htext : exists s',
      Py.join "," (List.map JsonText.member_text ((k, v) :: members)) ++ String "}" rest
      = String JsonText.DQUOTE s').
    { destruct members as [|kv members]; cbn [List.map].
      - cbn [Py.join]. unfold JsonText.member_text. eexists. reflexivity.
      - rewrite join_cons2. unfold JsonText.member_text at 1. eexists. reflexivity. }
    destruct Htext as (s' & Htext).
    pose proof (parse_members_reads_back ((k, v) :: members) IH n rest) as Hmem.
    rewrite Htext in *.
    change (Ascii.eqb JsonText.DQUOTE "}") with false. cbv iota.
    rewrite Hmem; [|discriminate | exact Hwf | simpl in Hfuel |- *; lia].
    rewrite dict_of_pairs_distinct by exact Hkeys. reflexivity.
Qed.

(** ** The whole text *)

Lemma append_nil_r (s : string) : s ++ "" = s.
Proof. induction s as [|c s IH]; simpl; congruence. Qed.

Lemma joined_length_bound {X : Type} (text : X -> string) (weight : X -> nat)
    (l : list X) :
  Forall (fun x => (weight x <= String.length (text x))%nat) l ->
  (list_sum (List.map (fun x => S (weight x)) l)
   <= S (String.length (Py.join "," (List.map text l))))%nat.
Proof.
  induction 1 as [|x l Hx _ IH]; [simpl; lia|].
  destruct l as [|y l].
  - simpl. lia.
  - cbn [List.map]. rewrite join_cons2, !length_append.
    cbn [List.map] in IH. simpl in IH |- *. lia.
Qed.

Lemma fuel_of_bound j :
  (JsonText.fuel_of j <= String.length (JsonText.dumps j))%nat.
Proof.
  induction j as [|b|z|s|items IH|members IH] using JsonText.json_induction.
  - simpl. lia.
  - destruct b; simpl; lia.
  - destruct (str_of_Z_head z) as (c & s & Heq & _).
    cbn [JsonText.dumps JsonText.fuel_of]. rewrite Heq. simpl. lia.
  - simpl. lia.
  - rewrite dumps_arr. cbn [JsonText.fuel_of].
    rewrite !length_append.
    pose proof (joined_length_bound JsonText.dumps JsonText.fuel_of items IH).
    simpl. lia.
  - rewrite dumps_obj. cbn [JsonText.fuel_of].
    rewrite !length_append.
    assert (Hm : Forall (fun kv => (JsonText.fuel_of (snd kv)
                                    <= String.length (JsonText.member_text kv))%nat) members).
    { eapply Forall_impl; [exact IH|]. intros kv Hkv. simpl in Hkv.
      unfold JsonText.member_text. rewrite !length_append. lia. }
    pose proof (joined_length_bound JsonText.member_text
                  (fun kv => JsonText.fuel_of (snd kv)) members Hm).
    simpl. lia.
Qed.

(** Reading the text written for a value gives the value back. *)
Lemma loads_dumps j :
  JsonText.well_formed j = true ->
  JsonText.loads (JsonText.dumps j) = Some j.
Proof.
  intros Hwf. unfold JsonText.loads.
  pose proof (dumps_reads_back j (S (String.length (JsonText.dumps j))) "" Hwf) as H.
  rewrite append_nil_r in H. rewrite H; [reflexivity| |exact I].
  pose proof (fuel_of_bound j). lia.
Qed.

(* ===================================================================== *)
(** * Exporting a definition                                              *)
(* ===================================================================== *)

(** A value that validates against [McpDefinition] is a non-empty dict,
    so the export route does not take it for a missing definition. *)
Lemma validated_definition_truthy v def :
  McpDefinition_validate v = Ok def -> truthy v = true.
Proof.
  destruct v as [| | | | |[|kv d]]; simpl; try discriminate; reflexivity.
Qed.

(** Below 128 every character is one byte and encodes as latin-1. *)
Lemma code_points_ascii s :
  McpRoutes.is_ascii s = true ->
  McpRouter.code_points s
  = List.map (fun c => String c EmptyString) (list_ascii_of_string s).
Proof.
  unfold McpRoutes.is_ascii.
  induction s as [|c s IH]; [reflexivity|].
  cbn [list_ascii_of_string forallb McpRouter.code_points List.map].
  intros [Hc Hs]%andb_true_iff. rewrite (IH Hs).
  destruct s as [|c' s]; [reflexivity|].
  cbn [list_ascii_of_string List.map McpRouter.begins_with_continuation].
  cbn [list_ascii_of_string forallb] in Hs.
  apply andb_true_iff in Hs as [Hc' _].
  unfold McpRouter.is_continuation.
  apply Nat.ltb_lt in Hc'.
  destruct (Nat.leb_spec 128 (nat_of_ascii c')); [lia|reflexivity].
Qed.

Lemma latin1_ascii s :
  McpRoutes.is_ascii s = true -> McpRouter.latin1 s = true.
Proof.
  intros Hs. unfold McpRouter.latin1. rewrite (code_points_ascii s Hs).
  unfold McpRoutes.is_ascii in Hs. rewrite forallb_forall in Hs.
  apply forallb_forall. intros ch [c [<- Hc]]%in_map_iff.
  apply (Hs c Hc).
Qed.

(** The JSON export of a record whose header value encodes as latin-1:
    for a stored definition [D] (a non-empty dict whose keys are distinct
    at every level), the answer carries the text of [D], and reading that
    text back gives [D] itself: the same keys with the same values, lists
    in their stored order, an empty list as an empty list. *)
Lemma export_json_round_trip
    (isalnum_wide : string -> bool)
    (db : table) (mcp_id : Z) (user : User) (mcp_record : Mcp) :
  select_owned db mcp_id user = Some mcp_record ->
  truthy (definition_json mcp_record) = true ->
  JsonText.well_formed (definition_json mcp_record) = true ->
  McpRouter.latin1 (McpRouter.content_disposition isalnum_wide mcp_record) = true ->
  exists resp,
    McpRouter.export_mcp_json isalnum_wide db mcp_id user = Return resp
    /\ McpRouter.content resp = definition_json mcp_record
    /\ McpRouter.body resp = JsonText.dumps (definition_json mcp_record)
    /\ JsonText.loads (McpRouter.body resp) = Some (definition_json mcp_record)
    /\ (McpDefinition_validate <$> JsonText.loads (McpRouter.body resp))
       = Some (McpDefinition_validate (definition_json mcp_record))
    /\ (forall d key items,
          definition_json mcp_record = JObj d ->
          dict_get key d = Some (JArr items) ->
          exists d',
            JsonText.loads (McpRouter.body resp) = Some (JObj d')
            /\ dict_get key d' = Some (JArr items)).
Proof.
  intros Hsel Htruthy Hwf Hlatin.
  unfold McpRouter.export_mcp_json. rewrite Hsel, Htruthy, Hlatin. simpl.
  eexists. split; [reflexivity|]. unfold McpRouter.body. simpl.
  rewrite (loads_dumps _ Hwf).
  repeat split.
  intros d key items Hd Hget. exists d. rewrite Hd. split; [reflexivity | exact Hget].
Qed.

Example export_json_reads_back :
  exists resp,
    McpRouter.export_mcp_json Fixtures.isalnum_wide Fixtures.defined_table 1 Fixtures.alice
    = Return resp
    /\ McpRouter.headers resp
       = [("Content-Disposition",
           "attachment; filename=" ++ String JsonText.DQUOTE EmptyString
           ++ "MCP_1_Support_bot_definition.json" ++ String JsonText.DQUOTE EmptyString)]
    /\ JsonText.loads (McpRouter.body resp) = Some Fixtures.stored_definition
    /\ (McpDefinition_validate <$> JsonText.loads (McpRouter.body resp))
       = Some (Ok {| system_prompt := "Be brief.";
                     input_schema_description := "a ticket";
                     output_schema_description := "a reply";
                     def_constraints := [];
                     examples := [] |}).
Proof.
  eexists. split; [vm_compute; reflexivity|].
  split; [reflexivity|]. split; vm_compute; reflexivity.
Qed.

(** C9. The JSON export does not reproduce every stored definition: for a
    record whose name holds a letter from U+0100 on (here two CJK
    ideographs, which [str.isalnum] accepts), the file name keeps the
    letter, the [Content-Disposition] value does not encode as latin-1,
    and the owner's export request is answered with 500 and no content,
    whatever the stored definition is. *)
Theorem export_json_wide_name
    (isalnum_wide : string -> bool) (D : json) :
  isalnum_wide Fixtures.zhong = true ->
  truthy D = true ->
  McpRouter.code_points (name (Fixtures.wide_named D)) = [Fixtures.zhong; Fixtures.zhong]
  /\ McpRouter.export_filename isalnum_wide (Fixtures.wide_named D)
     = "MCP_1_" ++ Fixtures.zhong ++ Fixtures.zhong ++ "_definition.json"
  /\ McpRouter.export_mcp_json isalnum_wide {[ 1 := Fixtures.wide_named D ]} 1 Fixtures.alice
     = HTTPException 500 "Internal Server Error".
Proof.
  intros Hwide HD.
  assert (Hname : McpRouter.safe_name isalnum_wide (name (Fixtures.wide_named D))
                  = Fixtures.zhong ++ Fixtures.zhong).
  { unfold McpRouter.safe_name.
    change (McpRouter.code_points (name (Fixtures.wide_named D)))
      with [Fixtures.zhong; Fixtures.zhong].
    cbn [List.map].
    change (McpRouter.char_isalnum isalnum_wide Fixtures.zhong)
      with (isalnum_wide Fixtures.zhong).
    rewrite Hwide. reflexivity. }
  split; [reflexivity|].
  assert (Hfile : McpRouter.export_filename isalnum_wide (Fixtures.wide_named D)
                  = "MCP_1_" ++ Fixtures.zhong ++ Fixtures.zhong ++ "_definition.json").
  { unfold McpRouter.export_filename. rewrite Hname. reflexivity. }
  split; [exact Hfile|].
  unfold McpRouter.export_mcp_json.
  assert (Hsel : select_owned {[ 1 := Fixtures.wide_named D ]} 1 Fixtures.alice
                 = Some (Fixtures.wide_named D)).
  { unfold select_owned. rewrite lookup_singleton_eq. reflexivity. }
  rewrite Hsel.
  change (definition_json (Fixtures.wide_named D)) with D.
  rewrite HD. cbn [negb].
  unfold McpRouter.content_disposition. rewrite Hfile.
  reflexivity.
Qed.

Lemma export_json_wide_name_witness :
  McpRouter.export_mcp_json Fixtures.isalnum_wide Fixtures.wide_named_table 1 Fixtures.alice
  = HTTPException 500 "Internal Server Error".
Proof.
  refine (proj2 (proj2 (export_json_wide_name Fixtures.isalnum_wide
                          Fixtures.stored_definition _ _))).
  - vm_compute. reflexivity.
  - reflexivity.
Defined.

(** An empty or missing definition is answered with 404, not exported. *)
Example export_json_without_definition :
  McpRouter.export_mcp_json Fixtures.isalnum_wide Fixtures.one_mcp 1 Fixtures.alice
  = HTTPException 404
      "No structured definition (definition_json) found for MCP 1. Generate it first.".
Proof. reflexivity. Qed.

(* ===================================================================== *)
(** * A run through upload and listing                                    *)
(* ===================================================================== *)

Example upload_stores_one_chunk :
  fst (Ingestion.ingest_file Fixtures.strict_loader Fixtures.request_uuid
         Fixtures.no_write_fault empty_world Fixtures.documents_store None 1
         Fixtures.policy_upload Fixtures.alice)
  = Return {| Ingestion.result_filename := "policy.txt";
              Ingestion.result_mcp_id := Some 1;
              Ingestion.message :=
                "File processed and 1 chunks stored successfully for MCP 1." |}
  /\ rows Fixtures.world_after_upload Fixtures.documents_store
     = [{| entry_id := "id-0";
           entry_doc :=
             {| page_content := "Refunds are never granted.";
                metadata := [("source", MStr "policy.txt");
                             ("user_id", MInt 1); ("mcp_id", MInt 1)] |} |}].
Proof. split; reflexivity. Qed.

(** The file is listed for Alice's project 1, and neither for Bob nor
    for Alice's project 2. *)
Example upload_listed_only_in_its_scope :
  IngestionRoutes.list_ingested_sources None Fixtures.world_after_upload
    Fixtures.documents_store 1 Fixtures.alice
  = Return [{| IngestionRoutes.source := "policy.txt" |}]
  /\ IngestionRoutes.list_ingested_sources None Fixtures.world_after_upload
       Fixtures.documents_store 1 Fixtures.bob
     = Return []
  /\ IngestionRoutes.list_ingested_sources None Fixtures.world_after_upload
       Fixtures.documents_store 2 Fixtures.alice
     = Return [].
Proof. repeat split; reflexivity. Qed.

(* ===================================================================== *)
(** * More on retrieval                                                   *)
(* ===================================================================== *)

Section RetrievalOrder.

Variable score : Type.
Variable score_leb : score -> score -> bool.
Variable distance : string -> string -> score.


Hypothesis leb_total : forall a b, score_leb a b = true \/ score_leb b a = true.
Hypothesis leb_trans :
  forall a b c, score_leb a b = true -> score_leb b c = true -> score_leb a c = true.





End RetrievalOrder.





(* ===================================================================== *)
(** * More on the index client                                            *)
(* ===================================================================== *)

(** X3. The client is built once: after a first call that returned a
    client, every later call returns that same client and keeps the
    cache, whatever the environment and the reachability of the server
    have become; a first call that raised caches nothing, so the next
    call builds again. *)
Theorem get_vector_store_once
    (env : gmap string string) (int_of_str : string -> result Z)
    (heartbeat : string -> Z -> result unit)
    (outcome : result chroma_client) (cache : option chroma_client) :
  get_vector_store env int_of_str heartbeat None = (outcome, cache) ->
  match outcome with
  | Ok c =>
      cache = Some c
      /\ forall env' int_of_str' heartbeat',
           get_vector_store env' int_of_str' heartbeat' cache = (Ok c, cache)
  | Raise _ =>
      cache = None
      /\ forall env' int_of_str' heartbeat',
           get_vector_store env' int_of_str' heartbeat' cache
           = get_vector_store env' int_of_str' heartbeat' None
  end.
Proof.
  unfold get_vector_store at 1.
  destruct (get_vector_store_body env int_of_str heartbeat) as [c|e];
    intros [= <- <-]; split; reflexivity.
Qed.

Lemma get_vector_store_once_witness :
  get_vector_store Fixtures.remote_env Fixtures.port_of_str Fixtures.unreachable
       (Some (PersistentClient "./chroma_data"))
     = (Ok (PersistentClient "./chroma_data"), Some (PersistentClient "./chroma_data")).
Proof.
  refine (proj2 (get_vector_store_once ∅ Fixtures.port_of_str Fixtures.unreachable
                   (Ok (PersistentClient "./chroma_data"))
                   (Some (PersistentClient "./chroma_data")) _)
            Fixtures.remote_env Fixtures.port_of_str Fixtures.unreachable).
  vm_compute. reflexivity.
Defined.

(* ===================================================================== *)
(** * More on the upload routes                                           *)
(* ===================================================================== *)

Lemma rows_world_add_other w vs e vs' :
  collection_name vs' <> collection_name vs ->
  rows (world_add w vs e) vs' = rows w vs'.
Proof.
  intros Hne. unfold rows, world_add.
  rewrite (proj2 (String.eqb_neq _ _) Hne), andb_false_r. reflexivity.
Qed.

Section WriteLoop.

Variable uuid4 : nat -> string.
Variable write_fault : nat -> option exn.
Variable vs : Chroma.
Variable md : metadata_t.

Let row (j : nat) (c : Document) : entry :=
  {| entry_id := uuid4 j;
     entry_doc := {| page_content := page_content c; metadata := md |} |}.

(** The loop writes the chunks in order until a write raises; [n] is the
    number of writes that went through. *)
Lemma add_chunks_run metadatas chunks : forall i w n,
  (forall j, (i <= j < i + length chunks)%nat -> metadatas !! j = Some md) ->
  (n <= length chunks)%nat ->
  (forall j, (j < n)%nat -> write_fault (i + j) = None) ->
  ((n < length chunks)%nat -> is_Some (write_fault (i + n))) ->
  exists w',
    Ingestion.add_chunks uuid4 write_fault vs metadatas i chunks w
    = ((if (n <? length chunks)%nat then write_fault (i + n) else None), w')
    /\ rows w' vs
       = (rows w vs ++ imap (fun j c => row (i + j) c) (firstn n chunks))%list
    /\ forall vs',
         collection_name vs' <> collection_name vs ->
         rows w' vs' = rows w vs'.
Proof.
  induction chunks as [|c chunks IH]; intros i w n Hmd Hn Hok Hbad.
  - simpl in Hn. assert (n = 0)%nat as -> by lia. simpl.
    exists w. rewrite app_nil_r. auto.
  - cbn [Ingestion.add_chunks].
    rewrite (Hmd i) by (simpl; lia).
    destruct n as [|n].
    + destruct (Hbad ltac:(simpl; lia)) as [e He].
      rewrite Nat.add_0_r in He. unfold add_texts. rewrite He.
      exists w. simpl. rewrite Nat.add_0_r, He, app_nil_r. auto.
    + pose proof (Hok 0%nat ltac:(lia)) as H0. rewrite Nat.add_0_r in H0.
      unfold add_texts. rewrite H0.
      destruct (IH (S i) (world_add w vs (row i c)) n) as (w' & Hrun & Hrows & Hframe).
      * intros j Hj. apply Hmd. simpl. lia.
      * simpl in Hn. lia.
      * intros j Hj. replace (S i + j)%nat with (i + S j)%nat by lia.
        apply Hok. lia.
      * intros Hlt. replace (S i + n)%nat with (i + S n)%nat by lia.
        apply Hbad. simpl. lia.
      * exists w'. split; [|split].
        -- unfold row in Hrun. rewrite Hrun.
           replace (S i + n)%nat with (i + S n)%nat by lia. reflexivity.
        -- rewrite Hrows, rows_world_add, <- app_assoc. f_equal.
           cbn [firstn imap]. rewrite Nat.add_0_r. f_equal.
           apply imap_ext. intros j x _. simpl. f_equal. lia.
        -- intros vs' Hne. rewrite (Hframe vs' Hne).
           apply rows_world_add_other, Hne.
Qed.

End WriteLoop.

Section UploadWrites.

Variable load : Ingestion.Loader -> string -> result (list Document).
Variable uuid4 : nat -> string.
Variable write_fault : nat -> option exn.

Lemma add_chunks_frame vs metadatas chunks : forall i w o w' vs',
  Ingestion.add_chunks uuid4 write_fault vs metadatas i chunks w = (o, w') ->
  collection_name vs' <> collection_name vs ->
  rows w' vs' = rows w vs'.
Proof.
  induction chunks as [|c chunks IH]; intros i w o w' vs'; simpl.
  - intros [= <- <-] _. reflexivity.
  - destruct (metadatas !! i) as [m|]; [|intros [= <- <-] _; reflexivity].
    unfold add_texts. destruct (write_fault i); [intros [= <- <-] _; reflexivity|].
    intros H Hne. rewrite (IH _ _ _ _ _ H Hne).
    apply rows_world_add_other, Hne.
Qed.

Lemma ingest_file_elsewhere w vs save_fault mcp_id upload user r w' vs' :
  Ingestion.ingest_file load uuid4 write_fault w vs save_fault mcp_id upload user
    = (r, w') ->
  collection_name vs' <> collection_name vs ->
  rows w' vs' = rows w vs'.
Proof.
  unfold Ingestion.ingest_file. intros Hrun Hne.
  destruct (Ingestion.allowed_content_types _); [|injection Hrun as _ <-; reflexivity].
  destruct save_fault; [injection Hrun as _ <-; reflexivity|].
  destruct (load _ _) as [[|d ds]|e]; try (injection Hrun as _ <-; reflexivity).
  destruct (Ingestion.add_chunks _ _ _ _ _ _ _) as [o w1] eqn:Hadd.
  apply add_chunks_frame with (vs' := vs') in Hadd; [|exact Hne].
  destruct o; injection Hrun as _ <-; exact Hadd.
Qed.

(** X4. The upload route writes to the collection it was given and to no
    other: whatever the outcome of the request, the rows of every
    collection with another name, behind whatever client, are the ones
    from before. *)
Theorem ingest_file_frame
    (w : chroma_world) (vs : Chroma) (save_fault : option exn) (mcp_id : Z)
    (upload : Ingestion.UploadFile) (user : User) (vs' : Chroma) :
  collection_name vs' <> collection_name vs ->
  rows (snd (Ingestion.ingest_file load uuid4 write_fault w vs save_fault
               mcp_id upload user)) vs'
  = rows w vs'.
Proof.
  intros Hne.
  destruct (Ingestion.ingest_file load uuid4 write_fault w vs save_fault
              mcp_id upload user) as [r w'] eqn:Hrun.
  exact (ingest_file_elsewhere _ _ _ _ _ _ _ _ _ Hrun Hne).
Qed.

Lemma metadatas_lookup {X : Type} (md : metadata_t) (chunks : list X) j :
  (j < length chunks)%nat -> List.map (fun _ => md) chunks !! j = Some md.
Proof.
  intros Hj. rewrite list_lookup_fmap.
  destruct (lookup_lt_is_Some_2 chunks j Hj) as [x ->]. reflexivity.
Qed.

(** X5. What an upload leaves in the index. For an upload of an allowed
    type that was saved and loaded, let [n] be the number of chunk writes
    that go through before the first one that raises. The collection
    then holds, after the rows it had, exactly the first [n] chunks in
    order, the [j]-th under the [j]-th id of the request, each with only
    the source name, the user id and the project id as metadata (the
    loader's own metadata is not stored). When all writes go through the
    answer reports that number of chunks; when write [n] raises, the
    answer is a 500 naming the cause and the [n] rows written before it
    stay. *)
Theorem ingest_file_writes
    (w : chroma_world) (vs : Chroma) (mcp_id : Z)
    (upload : Ingestion.UploadFile) (user : User)
    (loader : Ingestion.Loader) (d : Document) (ds : list Document) (n : nat) :
  Ingestion.allowed_content_types (Ingestion.content_type upload) = Some loader ->
  load loader (Ingestion.file upload) = Ok (d :: ds) ->
  let chunks := Ingestion.split_documents (d :: ds) in
  let md := Ingestion.chunk_metadata (Ingestion.filename upload) user mcp_id in
  (n <= length chunks)%nat ->
  (forall j, (j < n)%nat -> write_fault j = None) ->
  ((n < length chunks)%nat -> is_Some (write_fault n)) ->
  let run := Ingestion.ingest_file load uuid4 write_fault w vs None mcp_id upload user in
  rows (snd run) vs
  = (rows w vs ++ IngestionRoutes.written uuid4 md (firstn n chunks))%list
  /\ (n = length chunks ->
      fst run
      = Return {| Ingestion.result_filename := Ingestion.filename upload;
                  Ingestion.result_mcp_id := Some mcp_id;
                  Ingestion.message :=
                    "File processed and " ++ str_of_nat n
                    ++ " chunks stored successfully for MCP "
                    ++ str_of_Z mcp_id ++ "." |})
  /\ (forall e, (n < length chunks)%nat -> write_fault n = Some e ->
        fst run
        = HTTPException 500 ("Error storing document embeddings: " ++ exn_str e)).
Proof.
  intros Hallowed Hload chunks md Hn Hok Hbad run.
  unfold run, Ingestion.ingest_file. rewrite Hallowed, Hload.
  fold chunks. fold md.
  destruct (add_chunks_run uuid4 write_fault vs md
              (List.map (fun _ => md) chunks) chunks 0%nat w n)
    as (w' & Hrun & Hrows & _).
  - intros j Hj. apply metadatas_lookup. lia.
  - exact Hn.
  - exact Hok.
  - exact Hbad.
  - simpl in Hrun, Hrows. rewrite Hrun.
    destruct (n <? length chunks)%nat eqn:Hlt.
    + apply Nat.ltb_lt in Hlt. destruct (Hbad Hlt) as [e He]. rewrite He. simpl.
      split; [exact Hrows|]. split; [lia|].
      intros e' _ He'. congruence.
    + apply Nat.ltb_ge in Hlt. simpl.
      split; [exact Hrows|]. split.
      * intros ->. reflexivity.
      * intros e' Hlt'. lia.
Qed.

End UploadWrites.

Lemma ingest_file_writes_witness :
  rows Fixtures.world_after_upload Fixtures.documents_store
  = (rows empty_world Fixtures.documents_store
     ++ IngestionRoutes.written Fixtures.request_uuid
          (Ingestion.chunk_metadata "policy.txt" Fixtures.alice 1)
          (firstn 1
             (Ingestion.split_documents
                [{| page_content := "Refunds are never granted.";
                    metadata := [("source", MStr "upload")] |}])))%list.
Proof.
  refine (proj1 (ingest_file_writes Fixtures.strict_loader Fixtures.request_uuid
                   Fixtures.no_write_fault empty_world Fixtures.documents_store 1
                   Fixtures.policy_upload Fixtures.alice Ingestion.TextLoader
                   {| page_content := "Refunds are never granted.";
                      metadata := [("source", MStr "upload")] |} [] 1 _ _ _ _ _)).
  - reflexivity.
  - reflexivity.
  - vm_compute. lia.
  - intros j _. reflexivity.
  - vm_compute. lia.
Defined.

Lemma ingest_file_frame_witness :
  rows (snd (Ingestion.ingest_file Fixtures.strict_loader Fixtures.request_uuid
               Fixtures.no_write_fault empty_world Fixtures.documents_store None 1
               Fixtures.policy_upload Fixtures.alice))
       Context.get_vector_store
  = rows empty_world Context.get_vector_store.
Proof.
  apply ingest_file_frame. vm_compute. discriminate.
Defined.

(** X6. The store handle that the upload and generation routes are given
    opens the collection [intellimcp_documents], while
    [/context/retrieve] reads [mcp_context_documents]: whatever is
    uploaded through that handle, the answer of [/context/retrieve] to
    any request is the same after the upload as before it. *)
Theorem uploads_invisible_to_context_retrieve
    (score : Type) (score_leb : score -> score -> bool)
    (distance : string -> string -> score)
    (env : gmap string string) (int_of_str : string -> result Z)
    (heartbeat : string -> Z -> result unit)
    (embeddings_fault : option exn) (cache cache' : option chroma_client)
    (vector_store : Chroma)
    (load : Ingestion.Loader -> string -> result (list Document))
    (uuid4 : nat -> string) (write_fault : nat -> option exn)
    (w : chroma_world) (save_fault : option exn) (mcp_id : Z)
    (upload : Ingestion.UploadFile) (user : User)
    (fault : option exn) (request : Context.RetrievalRequest) :
  get_vector_store_dependency env int_of_str heartbeat embeddings_fault cache
    = (Ok vector_store, cache') ->
  Context.retrieve_context score score_leb distance fault
    (snd (Ingestion.ingest_file load uuid4 write_fault w vector_store save_fault
            mcp_id upload user)) request
  = Context.retrieve_context score score_leb distance fault w request.
Proof.
  intros Hdep.
  assert (Hname : collection_name vector_store = "intellimcp_documents").
  { unfold get_vector_store_dependency in Hdep.
    destruct (get_vector_store _ _ _ _) as [[c|e] cache1]; [|discriminate].
    destruct embeddings_fault; [discriminate|].
    injection Hdep as <- _. reflexivity. }
  destruct (Ingestion.ingest_file load uuid4 write_fault w vector_store save_fault
              mcp_id upload user) as [r w'] eqn:Hrun.
  pose proof (ingest_file_elsewhere load uuid4 write_fault w vector_store save_fault
                mcp_id upload user r w' Context.get_vector_store Hrun) as Hframe.
  unfold Context.retrieve_context, similarity_search_with_score, query_collection,
    nearest.
  simpl. rewrite Hframe; [reflexivity|].
  rewrite Hname. discriminate.
Qed.

Lemma uploads_invisible_to_context_retrieve_witness :
  Context.retrieve_context Z Z.leb Fixtures.text_distance None
    Fixtures.world_after_upload {| Context.query := "Refunds"; Context.k := 4 |}
  = Context.retrieve_context Z Z.leb Fixtures.text_distance None
      empty_world {| Context.query := "Refunds"; Context.k := 4 |}.
Proof.
  refine (uploads_invisible_to_context_retrieve Z Z.leb Fixtures.text_distance
            ∅ Fixtures.port_of_str Fixtures.unreachable None None
            (Some (PersistentClient "./chroma_data")) Fixtures.documents_store
            Fixtures.strict_loader Fixtures.request_uuid Fixtures.no_write_fault
            empty_world None 1 Fixtures.policy_upload Fixtures.alice None
            {| Context.query := "Refunds"; Context.k := 4 |} _).
  vm_compute. reflexivity.
Defined.

(** X7. The URL route appends rows and nothing else, and every row it
    appends carries the URL as source, the requesting user's id and the
    project id of the request. When the page cannot be loaded (a missing
    dependency is answered with its own 500 message, any other failure
    with the cause) or holds no document, the collection is left as it
    was. *)
Theorem ingest_url_rows
    (load_url : string -> IngestionRoutes.url_loaded)
    (uuid4 : nat -> string) (write_fault : nat -> option exn)
    (w : chroma_world) (vs : Chroma)
    (request : IngestionRoutes.UrlIngestionRequest) (user : User) :
  let run := IngestionRoutes.ingest_url load_url uuid4 write_fault w vs request user in
  (exists new,
     rows (snd run) vs = (rows w vs ++ new)%list
     /\ Forall (fun e => metadata (entry_doc e)
                         = [("source", MStr (IngestionRoutes.url request));
                            ("user_id", MInt (user_id user));
                            ("mcp_id", MInt (IngestionRoutes.mcp_id request))])
               new)
  /\ match load_url (IngestionRoutes.url request) with
     | IngestionRoutes.MissingDependency _ =>
         run = (HTTPException 500
                  "Server configuration error: Missing dependency for URL loading.",
                w)
     | IngestionRoutes.LoadFailed e =>
         run = (HTTPException 500 ("Error processing URL: " ++ exn_str e), w)
     | IngestionRoutes.Loaded [] =>
         run = (Return {| IngestionRoutes.result_url := IngestionRoutes.url request;
                          IngestionRoutes.result_mcp_id := None;
                          IngestionRoutes.message :=
                            "URL fetched, but no content could be extracted." |}, w)
     | IngestionRoutes.Loaded _ => True
     end.
Proof.
  intros run. unfold run, IngestionRoutes.ingest_url.
  assert (Hnil : exists new : list entry, rows w vs = (rows w vs ++ new)%list
      /\ Forall (fun e => metadata (entry_doc e)
                          = [("source", MStr (IngestionRoutes.url request));
                             ("user_id", MInt (user_id user));
                             ("mcp_id", MInt (IngestionRoutes.mcp_id request))])
                new).
  { exists []. rewrite app_nil_r. auto. }
  destruct (load_url _) as [[|d ds]|m|e]; try (split; [exact Hnil | reflexivity]).
  split; [|exact I].
  destruct (Ingestion.add_chunks _ _ _ _ _ _ _) as [o w1] eqn:Hadd.
  eapply add_chunks_rows in Hadd.
  - destruct o; exact Hadd.
  - apply Forall_forall. intros m Hin. apply list_elem_of_In in Hin.
    apply in_map_iff in Hin as (? & <- & _). reflexivity.
Qed.

(* ===================================================================== *)
(** * The source listing                                                  *)
(* ===================================================================== *)


Lemma In_insert_source s x l :
  In x (IngestionRoutes.insert_source s l) <-> x = s \/ In x l.
Proof.
  induction l as [|y l IH]; simpl; [intuition|].
  destruct (String.compare s y) eqn:Hc; simpl.
  - apply String.compare_eq_iff in Hc as ->. intuition.
  - intuition.
  - rewrite IH. intuition.
Qed.

Lemma In_sorted_sources x names :
  In x (IngestionRoutes.sorted_sources names) <-> In x names.
Proof.
  induction names as [|n names IH]; simpl; [reflexivity|].
  rewrite In_insert_source, IH. intuition.
Qed.

Lemma insert_source_sorted s l :
  Sorted IngestionRoutes.before l -> Sorted IngestionRoutes.before (IngestionRoutes.insert_source s l).
Proof.
  induction 1 as [|y l Hl IH Hy]; simpl.
  - repeat constructor.
  - destruct (String.compare s y) eqn:Hc.
    + constructor; assumption.
    + constructor; [constructor; assumption|]. constructor. exact Hc.
    + constructor; [exact IH|].
      assert (Hys : IngestionRoutes.before y s).
      { unfold IngestionRoutes.before. rewrite String.compare_antisym, Hc. reflexivity. }
      destruct l as [|z l]; simpl.
      * constructor. exact Hys.
      * destruct (String.compare s z); constructor;
          try exact Hys; inversion Hy; assumption.
Qed.

Lemma sorted_sources_sorted names :
  Sorted IngestionRoutes.before (IngestionRoutes.sorted_sources names).
Proof.
  induction names as [|n names IH]; simpl; [constructor|].
  apply insert_source_sorted, IH.
Qed.

Lemma mapM_source_name vals names :
  mapM IngestionRoutes.source_name vals = Some names <-> vals = List.map MStr names.
Proof.
  rewrite mapM_Some. split.
  - induction 1 as [|v s vals names Hv _ IH]; [reflexivity|].
    destruct v; try discriminate. simpl in Hv. injection Hv as ->.
    simpl. congruence.
  - intros ->. induction names; constructor; auto.
Qed.

Lemma listed_of_row w vs mcp_id user listing e name :
  IngestionRoutes.list_ingested_sources None w vs mcp_id user = Return listing ->
  In e (rows w vs) ->
  meta_get "mcp_id" (metadata (entry_doc e)) = Some (MInt mcp_id) ->
  meta_get "user_id" (metadata (entry_doc e)) = Some (MInt (user_id user)) ->
  meta_get "source" (metadata (entry_doc e)) = Some (MStr name) ->
  In {| IngestionRoutes.source := name |} listing.
Proof.
  unfold IngestionRoutes.list_ingested_sources, get_metadatas.
  destruct (mapM _ _) as [names|] eqn:Hnames; [|discriminate].
  intros [= <-] He Hp Hu Hsrc. apply mapM_source_name in Hnames.
  apply in_map_iff. exists name. split; [reflexivity|].
  apply (proj2 (In_sorted_sources _ _)).
  assert (Hv : In (MStr name) (List.map MStr names)).
  { rewrite <- Hnames. apply list_elem_of_In, list_elem_of_omap.
    exists (metadata (entry_doc e)). split; [|exact Hsrc].
    apply list_elem_of_In, in_map_iff. exists e. split; [reflexivity|].
    apply filter_In. split; [exact He|].
    apply scope_filter_matches. auto. }
  apply in_map_iff in Hv as (s & [= ->] & Hs). exact Hs.
Qed.

(** X8. When the source listing answers with a list, a name is on it
    exactly when some row of the collection carries both the project id
    and the requesting user's id and has that name as its source; the
    list is in strictly ascending order, so no name appears twice. *)
Theorem list_ingested_sources_exact
    (w : chroma_world) (vs : Chroma) (mcp_id : Z) (user : User)
    (listing : list IngestionRoutes.IngestedSource) :
  IngestionRoutes.list_ingested_sources None w vs mcp_id user = Return listing ->
  (forall name,
     In {| IngestionRoutes.source := name |} listing <->
     exists e, In e (rows w vs)
       /\ meta_get "mcp_id" (metadata (entry_doc e)) = Some (MInt mcp_id)
       /\ meta_get "user_id" (metadata (entry_doc e)) = Some (MInt (user_id user))
       /\ meta_get "source" (metadata (entry_doc e)) = Some (MStr name))
  /\ Sorted (fun a b => String.compare (IngestionRoutes.source a)
                                       (IngestionRoutes.source b) = Lt)
            listing.
Proof.
  intros Hlist. pose proof (listed_of_row w vs mcp_id user listing) as Hlisted.
  specialize (fun e name => Hlisted e name Hlist).
  revert Hlist. unfold IngestionRoutes.list_ingested_sources, get_metadatas.
  destruct (mapM _ _) as [names|] eqn:Hnames; [|discriminate].
  intros [= <-]. apply mapM_source_name in Hnames. split.
  - intros name. split.
    + rewrite in_map_iff.
      intros (s & [= ->] & Hin). apply -> In_sorted_sources in Hin.
      assert (Hv : In (MStr name) (List.map MStr names)) by (apply in_map, Hin).
      rewrite <- Hnames in Hv. apply list_elem_of_In in Hv.
      apply list_elem_of_omap in Hv as (md & Hmd & Hsrc).
      apply list_elem_of_In, in_map_iff in Hmd as (e & <- & He).
      apply filter_In in He as [He Hscope].
      apply scope_filter_matches in Hscope as [Hp Hu].
      exists e. auto.
    + intros (e & He & Hp & Hu & Hsrc). exact (Hlisted e name He Hp Hu Hsrc).
  - clear Hlisted Hnames. pose proof (sorted_sources_sorted names) as Hs.
    induction Hs as [|x l Hl IH Hx]; simpl; constructor; [exact IH|].
    destruct Hx; simpl; constructor. assumption.
Qed.

Lemma list_ingested_sources_exact_witness :
  Sorted (fun a b => String.compare (IngestionRoutes.source a)
                                    (IngestionRoutes.source b) = Lt)
         [{| IngestionRoutes.source := "a.txt" |}].
Proof.
  refine (proj2 (list_ingested_sources_exact Fixtures.shared_world
                   Fixtures.documents_store 1 Fixtures.alice
                   [{| IngestionRoutes.source := "a.txt" |}] _)).
  vm_compute. reflexivity.
Defined.

Lemma filter_out_of_scope mcp_id uid md (new : list entry) :
  Forall (fun e => metadata (entry_doc e) = md) new ->
  where_matches (scope_filter mcp_id uid) md = false ->
  List.filter (fun e => where_matches (scope_filter mcp_id uid) (metadata (entry_doc e)))
              new = [].
Proof.
  intros Hall Hno. induction Hall as [|e new He _ IH]; [reflexivity|].
  cbn [List.filter]. rewrite He, Hno. exact IH.
Qed.

(** The number of writes that go through before the first that raises. *)
Lemma first_failure (write_fault : nat -> option exn) (len : nat) :
  write_fault 0%nat = None -> (1 <= len)%nat ->
  exists n, (1 <= n <= len)%nat
    /\ (forall j, (j < n)%nat -> write_fault j = None)
    /\ ((n < len)%nat -> is_Some (write_fault n)).
Proof.
  intros Hfirst Hlen. induction len as [|m IH]; [lia|].
  destruct (Nat.eq_dec m 0%nat) as [->|Hm].
  - exists 1%nat. split; [lia|]. split; [|lia].
    intros j Hj. assert (j = 0)%nat as -> by lia. exact Hfirst.
  - destruct IH as (n & Hn & Hok & Hbad); [lia|].
    destruct (Nat.eq_dec n m) as [->|Hneq].
    + destruct (write_fault m) as [e|] eqn:He.
      * exists m. split; [lia|]. split; [exact Hok|]. intros _. rewrite He. eauto.
      * exists (S m). split; [lia|]. split; [|lia].
        intros j Hj. destruct (Nat.eq_dec j m) as [->|]; [exact He|].
        apply Hok. lia.
    + exists n. split; [lia|]. split; [exact Hok|]. intros _. apply Hbad. lia.
Qed.

(** X9. Uploading and listing. As soon as one chunk of an upload has been
    written, also when a later write fails, the file name is on every
    listing the uploader gets for that project; and the listing of
    another user, or of another project, is the same after the upload as
    before it, whatever the outcome of the upload. *)
Theorem upload_then_listing
    (load : Ingestion.Loader -> string -> result (list Document))
    (uuid4 : nat -> string) (write_fault : nat -> option exn)
    (w : chroma_world) (vs : Chroma) (save_fault : option exn) (mcp_id : Z)
    (upload : Ingestion.UploadFile) (user : User) :
  let run := Ingestion.ingest_file load uuid4 write_fault w vs save_fault
               mcp_id upload user in
  (forall loader d ds listing,
     save_fault = None ->
     Ingestion.allowed_content_types (Ingestion.content_type upload) = Some loader ->
     load loader (Ingestion.file upload) = Ok (d :: ds) ->
     Ingestion.split_documents (d :: ds) <> [] ->
     write_fault 0%nat = None ->
     IngestionRoutes.list_ingested_sources None (snd run) vs mcp_id user
       = Return listing ->
     In {| IngestionRoutes.source := Ingestion.filename upload |} listing)
  /\ (forall other_mcp other_user,
        user_id other_user <> user_id user \/ other_mcp <> mcp_id ->
        IngestionRoutes.list_ingested_sources None (snd run) vs other_mcp other_user
        = IngestionRoutes.list_ingested_sources None w vs other_mcp other_user).
Proof.
  intros run. split.
  - intros loader d ds listing -> Hallowed Hload Hne Hfirst Hlist.
    remember (Ingestion.split_documents (d :: ds)) as chunks eqn:Hchunks.
    destruct (first_failure write_fault (length chunks) Hfirst)
      as (n & Hn & Hok & Hbad).
    { destruct chunks; [congruence | simpl; lia]. }
    set (md := Ingestion.chunk_metadata (Ingestion.filename upload) user mcp_id).
    destruct (add_chunks_run uuid4 write_fault vs md
                (List.map (fun _ => md) chunks) chunks 0%nat w n)
      as (w' & Hrun & Hrows & _).
    { intros j Hj. apply metadatas_lookup. lia. }
    { lia. }
    { exact Hok. }
    { exact Hbad. }
    assert (Hsnd : snd run = w').
    { unfold run, Ingestion.ingest_file. rewrite Hallowed, Hload, <- Hchunks.
      fold md. rewrite Hrun. destruct (if (n <? length chunks)%nat then _ else _);
        reflexivity. }
    rewrite Hsnd in Hlist.
    destruct chunks as [|c chunks]; [congruence|].
    destruct n as [|n]; [lia|].
    eapply (listed_of_row _ _ _ _ _ _ _ Hlist).
    + rewrite Hrows. apply in_or_app. right. left. reflexivity.
    + reflexivity.
    + reflexivity.
    + reflexivity.
  - intros other_mcp other_user Hother.
    destruct (Ingestion.ingest_file load uuid4 write_fault w vs save_fault mcp_id upload user)
      as [r w'] eqn:Hrun.
    pose proof (ingest_file_rows load uuid4 write_fault w vs save_fault mcp_id
                  upload user r w' Hrun) as (new & Hrows & Hall).
    subst run. simpl.
    unfold IngestionRoutes.list_ingested_sources, get_metadatas.
    rewrite Hrows, List.filter_app.
    rewrite (filter_out_of_scope other_mcp (user_id other_user) _ new Hall).
    + rewrite app_nil_r. reflexivity.
    + apply not_true_iff_false. intros Hm.
      apply scope_filter_matches in Hm as [Hp Hu].
      destruct (chunk_metadata_scope (Ingestion.filename upload) user mcp_id)
        as [Hp' Hu'].
      destruct Hother; congruence.
Qed.

Lemma upload_then_listing_witness :
  In {| IngestionRoutes.source := "policy.txt" |}
     [{| IngestionRoutes.source := "policy.txt" |}].
Proof.
  refine (proj1 (upload_then_listing Fixtures.strict_loader Fixtures.request_uuid
                   Fixtures.no_write_fault empty_world Fixtures.documents_store
                   None 1 Fixtures.policy_upload Fixtures.alice)
            Ingestion.TextLoader
            {| page_content := "Refunds are never granted.";
               metadata := [("source", MStr "upload")] |} []
            [{| IngestionRoutes.source := "policy.txt" |}] _ _ _ _ _ _).
  - reflexivity.
  - reflexivity.
  - reflexivity.
  - vm_compute. discriminate.
  - reflexivity.
  - vm_compute. reflexivity.
Defined.

(* ===================================================================== *)
(** * The record routes                                                   *)
(* ===================================================================== *)

Import McpRoutes.

Lemma select_owned_Some db mcp_id user r :
  select_owned db mcp_id user = Some r <->
  db !! mcp_id = Some r /\ owner_id r = user_id user.
Proof.
  unfold select_owned. destruct (db !! mcp_id) as [r0|].
  - destruct (owner_id r0 =? user_id user) eqn:Ho.
    + apply Z.eqb_eq in Ho. split; [intros [= <-]; auto | intros [[= <-] _]; reflexivity].
    + apply Z.eqb_neq in Ho. split; [discriminate | intros [[= <-] ?]; contradiction].
  - split; [discriminate | intros [? _]; discriminate].
Qed.

Lemma select_owned_foreign db mcp_id user :
  (forall r, db !! mcp_id = Some r -> owner_id r <> user_id user) ->
  select_owned db mcp_id user = None.
Proof.
  intros H. destruct (select_owned db mcp_id user) as [r|] eqn:Hsel; [|reflexivity].
  apply select_owned_Some in Hsel as [Hr Ho]. destruct (H r Hr Ho).
Qed.

(** X10. A record that is missing or belongs to another user is out of
    reach on every route that takes a record id: reading it, both
    exports, updating, deleting and generating all answer 404, and the
    three routes that write leave the table as it was. *)
Theorem foreign_rows_out_of_reach
    (score : Type) (score_leb : score -> score -> bool)
    (distance : string -> string -> score) (format_instructions : string)
    (llm : string -> string -> result string) (parser : string -> result json)
    (repr : json -> string) (isalnum_wide : string -> bool)
    (db : table) (w : chroma_world) (vs : Chroma)
    (search_fault commit_fault : option exn) (now mcp_id : Z)
    (u : McpRouter.McpUpdateRequest) (user : User) :
  (forall r, db !! mcp_id = Some r -> owner_id r <> user_id user) ->
  status_of (get_mcp_by_id db mcp_id user) = Some 404
  /\ status_of (export_mcp_markdown repr isalnum_wide db mcp_id user) = Some 404
  /\ status_of (McpRouter.export_mcp_json isalnum_wide db mcp_id user) = Some 404
  /\ (let run := McpRouter.update_mcp db commit_fault now mcp_id u user in
      status_of (fst run) = Some 404 /\ snd run = db)
  /\ (let run := delete_mcp db commit_fault mcp_id user in
      status_of (fst run) = Some 404 /\ snd run = db)
  /\ (let run := Generation.generate_mcp_json score score_leb distance
                   format_instructions llm parser db w vs search_fault
                   commit_fault now mcp_id user in
      status_of (fst run) = Some 404 /\ snd run = db).
Proof.
  intros Hforeign. apply select_owned_foreign in Hforeign.
  unfold get_mcp_by_id, export_mcp_markdown, McpRouter.export_mcp_json,
    McpRouter.update_mcp, delete_mcp, Generation.generate_mcp_json.
  rewrite Hforeign. simpl. repeat split; reflexivity.
Qed.

Lemma foreign_rows_out_of_reach_witness :
  status_of (get_mcp_by_id Fixtures.one_mcp 1 Fixtures.bob) = Some 404.
Proof.
  refine (proj1 (foreign_rows_out_of_reach Z Z.leb Fixtures.text_distance "schema"
                   (Fixtures.canned_llm "{}") Fixtures.json_parser (fun _ => "")
                   Fixtures.isalnum_wide
                   Fixtures.one_mcp empty_world Fixtures.documents_store None None
                   500 1
                   {| McpRouter.generated_content := None; McpRouter.constraints := None;
                      McpRouter.definition_json := None; McpRouter.name := None;
                      McpRouter.domain := None; McpRouter.goal := None;
                      McpRouter.roles := None |} Fixtures.bob _)).
  intros r Hr. vm_compute in Hr. injection Hr as <-. vm_compute. discriminate.
Defined.


Lemma In_rows (db : table) (r : Mcp) :
  In r (List.map snd (map_to_list db)) <-> exists k, db !! k = Some r.
Proof.
  rewrite in_map_iff. split.
  - intros ([k r'] & <- & Hin). exists k.
    apply list_elem_of_In, elem_of_map_to_list in Hin. exact Hin.
  - intros (k & Hk). exists (k, r). split; [reflexivity|].
    apply list_elem_of_In, elem_of_map_to_list. exact Hk.
Qed.

Lemma ids_of_rows (db : table) :
  keyed db ->
  List.map id (List.map snd (map_to_list db)) = List.map fst (map_to_list db).
Proof.
  intros Hk. rewrite List.map_map. apply List.map_ext_in.
  intros [k r] Hin. apply list_elem_of_In, elem_of_map_to_list in Hin.
  simpl. apply (Hk k r Hin).
Qed.

Lemma NoDup_map_filter {A B : Type} (f : A -> B) (p : A -> bool) (l : list A) :
  List.NoDup (List.map f l) -> List.NoDup (List.map f (List.filter p l)).
Proof.
  induction l as [|a l IH]; simpl; intros Hnd; [constructor|].
  inversion Hnd as [|? ? Hnotin Hnd']; subst.
  destruct (p a); simpl; [|apply IH, Hnd'].
  constructor; [|apply IH, Hnd'].
  intros Hin. apply Hnotin. apply in_map_iff in Hin as (x & Hx & Hin).
  apply in_map_iff. exists x. split; [exact Hx|].
  apply filter_In in Hin as [Hin _]. exact Hin.
Qed.

(** X11. In a table keyed by id, the listing of a user holds exactly the
    records that the same user can read one by one, each of them once:
    a record is listed if and only if [GET /mcp/{id}] returns it, and no
    two listed records share an id. *)
Theorem list_user_mcps_exact (db : table) (user : User) :
  keyed db ->
  (forall r, In r (list_user_mcps db user)
             <-> get_mcp_by_id db (id r) user = Return r)
  /\ List.NoDup (List.map id (list_user_mcps db user)).
Proof.
  intros Hkeyed. split.
  - intros r. unfold list_user_mcps, get_mcp_by_id.
    rewrite filter_In, In_rows, Z.eqb_eq. split.
    + intros [(k & Hk) Ho]. rewrite <- (Hkeyed k r Hk) in Hk.
      rewrite (proj2 (select_owned_Some db (id r) user r) (conj Hk Ho)). reflexivity.
    + destruct (select_owned db (id r) user) as [r'|] eqn:Hsel; [|discriminate].
      intros [= ->]. apply select_owned_Some in Hsel as [Hr Ho]. eauto.
  - unfold list_user_mcps. apply NoDup_map_filter.
    rewrite (ids_of_rows db Hkeyed). apply NoDup_ListNoDup, NoDup_fst_map_to_list.
Qed.

Lemma list_user_mcps_exact_witness :
  List.NoDup (List.map id (list_user_mcps Fixtures.one_mcp Fixtures.alice)).
Proof.
  refine (proj2 (list_user_mcps_exact Fixtures.one_mcp Fixtures.alice _)).
  intros k r Hk. unfold Fixtures.one_mcp in Hk.
  apply lookup_singleton_Some in Hk as [<- <-]. reflexivity.
Defined.


Lemma find_user_Some users clerk user :
  find_user users clerk = Some user -> In user users /\ clerk_id user = clerk.
Proof.
  unfold find_user. intros H. apply List.find_some in H as [Hin Heq].
  apply String.eqb_eq in Heq. auto.
Qed.

Lemma keyed_insert (db : table) (r : Mcp) :
  keyed db -> keyed (<[id r := r]> db).
Proof.
  intros Hk k r' Hr'. destruct (decide (id r = k)) as [<-|Hne].
  - rewrite lookup_insert_eq in Hr'. congruence.
  - rewrite lookup_insert_ne in Hr' by exact Hne. apply (Hk k r' Hr').
Qed.

Lemma keyed_delete (db : table) (k : Z) :
  keyed db -> keyed (delete k db).
Proof.
  intros Hk k' r Hr. apply lookup_delete_Some in Hr as [_ Hr]. apply (Hk k' r Hr).
Qed.

(** X12. Creating a record. On success the caller is a known user and
    the record is theirs, carries the four fields of the request, has no
    constraints, no generated content and no definition, gets a key that
    was free, can be read back as returned, and no other row of the
    table changed. Any other answer is a 404 (exactly when the Clerk id
    has no user row) or a 500, and the table is as before. *)
Theorem create_mcp_round_trip
    (new_id : Z) (users : list User) (db : table) (commit_fault : option exn)
    (t_created t_updated : Z) (mcp_data : McpCreateRequest) (clerk : string) :
  let run := create_mcp new_id users db commit_fault t_created t_updated
               mcp_data clerk in
  match fst run with
  | Return r =>
      exists user,
        In user users /\ clerk_id user = clerk /\ owner_id r = user_id user
        /\ name r = mcpName mcp_data /\ Models.domain r = domain mcp_data
        /\ Models.goal r = goal mcp_data /\ Models.roles r = roles mcp_data
        /\ constraints r = None /\ generated_content r = None
        /\ definition_json r = JNull
        /\ db !! id r = None
        /\ get_mcp_by_id (snd run) (id r) user = Return r
        /\ (forall k, k <> id r -> snd run !! k = db !! k)
        /\ (keyed db -> keyed (snd run))
  | HTTPException status_code _ =>
      snd run = db
      /\ (status_code = 404 <-> find_user users clerk = None)
      /\ (status_code = 404 \/ status_code = 500)
  end.
Proof.
  unfold create_mcp, insert_row.
  destruct (find_user users clerk) as [user|] eqn:Hfind; simpl.
  2: { split; [reflexivity|]. split; [tauto | left; reflexivity]. }
  apply find_user_Some in Hfind as [Hin Hclerk].
  destruct commit_fault as [e|]; simpl.
  { split; [reflexivity|]. split; [split; discriminate | right; reflexivity]. }
  destruct (db !! new_id) as [old|] eqn:Hold; simpl.
  { split; [reflexivity|]. split; [split; discriminate | right; reflexivity]. }
  exists user. repeat split; try assumption; try reflexivity.
  - unfold get_mcp_by_id, select_owned. rewrite lookup_insert_eq. simpl.
    rewrite Z.eqb_refl. reflexivity.
  - intros k Hk. apply lookup_insert_ne. congruence.
  - intros Hkeyed.
    apply (keyed_insert db {| id := new_id; name := mcpName mcp_data;
                              Models.domain := domain mcp_data;
                              Models.goal := goal mcp_data;
                              Models.roles := roles mcp_data;
                              constraints := None; created_at := t_created;
                              updated_at := t_updated; owner_id := user_id user;
                              generated_content := None; definition_json := JNull |}
             Hkeyed).
Qed.


(** X13. Deleting a record. On success the record was the caller's, it
    is gone for every user, every other row is as before, and a second
    delete answers 404 and changes nothing. Any other answer leaves the
    table as it was. *)
Theorem delete_mcp_round_trip
    (db : table) (commit_fault : option exn) (mcp_id : Z) (user : User) :
  keyed db ->
  let run := delete_mcp db commit_fault mcp_id user in
  match fst run with
  | Return _ =>
      select_owned db mcp_id user <> None
      /\ snd run !! mcp_id = None
      /\ (forall k, k <> mcp_id -> snd run !! k = db !! k)
      /\ (forall anyone, status_of (get_mcp_by_id (snd run) mcp_id anyone) = Some 404)
      /\ (forall fault,
            delete_mcp (snd run) fault mcp_id user
            = (HTTPException 404
                 ("MCP with ID " ++ str_of_Z mcp_id
                  ++ " not found or you do not have permission to delete it."),
               snd run))
      /\ keyed (snd run)
  | HTTPException _ _ => snd run = db
  end.
Proof.
  intros Hkeyed. unfold delete_mcp.
  destruct (select_owned db mcp_id user) as [r|] eqn:Hsel; simpl; [|reflexivity].
  destruct commit_fault as [e|]; simpl; [reflexivity|].
  pose proof Hsel as Hsel'. apply select_owned_Some in Hsel' as [Hr Ho].
  rewrite (Hkeyed mcp_id r Hr).
  assert (Hgone : forall anyone, select_owned (delete mcp_id db) mcp_id anyone = None).
  { intros anyone. unfold select_owned. rewrite lookup_delete_eq. reflexivity. }
  repeat split.
  - discriminate.
  - apply lookup_delete_eq.
  - intros k Hk. apply lookup_delete_ne. congruence.
  - intros anyone. unfold get_mcp_by_id. rewrite Hgone. reflexivity.
  - intros fault. rewrite Hgone. reflexivity.
  - apply keyed_delete, Hkeyed.
Qed.

Lemma delete_mcp_round_trip_witness :
  snd (delete_mcp Fixtures.one_mcp None 1 Fixtures.alice) !! 1 = None.
Proof.
  refine (proj1 (proj2 (delete_mcp_round_trip Fixtures.one_mcp None 1 Fixtures.alice _))).
  intros k r Hk. unfold Fixtures.one_mcp in Hk.
  apply lookup_singleton_Some in Hk as [<- <-]. reflexivity.
Defined.


(** X14. Reading after writing. When an update answers with a record,
    reading that id afterwards returns the same record; the other rows
    are as before, what any other user can read is as before, and the
    table is still keyed by id. *)
Theorem update_then_get
    (db : table) (commit_fault : option exn) (now mcp_id : Z)
    (u : McpRouter.McpUpdateRequest) (user : User) (r : Mcp) (db' : table) :
  keyed db ->
  McpRouter.update_mcp db commit_fault now mcp_id u user = (Return r, db') ->
  get_mcp_by_id db' mcp_id user = Return r
  /\ (forall k, k <> mcp_id -> db' !! k = db !! k)
  /\ (forall k other, user_id other <> user_id user ->
        get_mcp_by_id db' k other = get_mcp_by_id db k other)
  /\ keyed db'.
Proof.
  intros Hkeyed. unfold McpRouter.update_mcp.
  destruct (select_owned db mcp_id user) as [old|] eqn:Hsel; [|discriminate].
  pose proof Hsel as Hsel'. apply select_owned_Some in Hsel' as [Hold Ho].
  pose proof (Hkeyed mcp_id old Hold) as Hid.
  rewrite apply_updates_model_dump.
  destruct (McpRouter.sets_nothing u); simpl.
  - intros [= <- <-]. unfold get_mcp_by_id. rewrite Hsel. auto.
  - unfold McpRouter.commit_instance, McpRouter.to_row; simpl.
    destruct commit_fault as [e|]; simpl; [discriminate|].
    destruct (McpRouter.updated_to (Some (name old)) (McpRouter.name u)); [|discriminate].
    destruct (McpRouter.updated_to (Some (Models.domain old)) (McpRouter.domain u));
      [|discriminate].
    destruct (McpRouter.updated_to (Some (Models.goal old)) (McpRouter.goal u));
      [|discriminate].
    destruct (McpRouter.updated_to (Some (Models.roles old)) (McpRouter.roles u));
      [|discriminate].
    simpl. rewrite Hid. intros [= <- <-].
    repeat split.
    + unfold get_mcp_by_id, select_owned. rewrite lookup_insert_eq. simpl.
      rewrite (proj2 (Z.eqb_eq _ _) Ho). reflexivity.
    + intros k Hk. apply lookup_insert_ne. congruence.
    + intros k other Hother. unfold get_mcp_by_id, select_owned.
      destruct (decide (mcp_id = k)) as [<-|Hne].
      * rewrite lookup_insert_eq, Hold. simpl.
        rewrite (proj2 (Z.eqb_neq (owner_id old) (user_id other))) by congruence.
        reflexivity.
      * rewrite lookup_insert_ne by exact Hne. reflexivity.
    + intros k r' Hr'. destruct (decide (mcp_id = k)) as [<-|Hne].
      * rewrite lookup_insert_eq in Hr'. injection Hr' as <-. reflexivity.
      * rewrite lookup_insert_ne in Hr' by exact Hne. apply (Hkeyed k r' Hr').
Qed.

Lemma update_then_get_witness :
  get_mcp_by_id
    (snd (McpRouter.update_mcp Fixtures.one_mcp None 500 1
            {| McpRouter.generated_content := None; McpRouter.constraints := None;
               McpRouter.definition_json := None; McpRouter.name := None;
               McpRouter.domain := None; McpRouter.goal := Some (Some "close tickets");
               McpRouter.roles := None |} Fixtures.alice))
    1 Fixtures.alice
  = fst (McpRouter.update_mcp Fixtures.one_mcp None 500 1
           {| McpRouter.generated_content := None; McpRouter.constraints := None;
              McpRouter.definition_json := None; McpRouter.name := None;
              McpRouter.domain := None; McpRouter.goal := Some (Some "close tickets");
              McpRouter.roles := None |} Fixtures.alice).
Proof.
  refine (proj1 (update_then_get Fixtures.one_mcp None 500 1
                   {| McpRouter.generated_content := None; McpRouter.constraints := None;
                      McpRouter.definition_json := None; McpRouter.name := None;
                      McpRouter.domain := None;
                      McpRouter.goal := Some (Some "close tickets");
                      McpRouter.roles := None |} Fixtures.alice
                   {| id := 1; name := "Support bot"; Models.domain := "support";
                      Models.goal := "close tickets"; Models.roles := "agent";
                      constraints := None; created_at := 100; updated_at := 500;
                      owner_id := 1; generated_content := None;
                      definition_json := JNull |}
                   _ _ _)).
  - intros k r Hk. unfold Fixtures.one_mcp in Hk.
    apply lookup_singleton_Some in Hk as [<- <-]. reflexivity.
  - vm_compute. reflexivity.
Defined.

(* ===================================================================== *)
(** * The Markdown export                                                 *)
(* ===================================================================== *)


Section MarkdownFacts.

Variable repr : json -> string.
Variable isalnum_wide : string -> bool.

Lemma constraints_md_typed d cs :
  dict_get "constraints" d = Some (JArr (List.map JStr cs)) ->
  constraints_md repr d = Some (render_constraints cs).
Proof.
  intros Hget. unfold constraints_md, get_or. rewrite Hget.
  destruct cs as [|c cs]; [reflexivity|].
  cbn [List.map truthy py_iter mbind option_bind]. f_equal.
  unfold render_constraints. f_equal.
  rewrite List.map_map. reflexivity.
Qed.

Lemma examples_loop_typed items exs :
  Forall2 example_item items exs ->
  forall i, examples_loop repr i items = Some (render_examples_from i exs).
Proof.
  induction 1 as [|v ex items exs (o & -> & Hin & Hout) _ IH]; intros i;
    [reflexivity|].
  cbn [examples_loop example_md render_examples_from].
  unfold get_or. rewrite Hin, Hout. cbn [py_str mbind option_bind].
  rewrite IH. reflexivity.
Qed.

Lemma examples_md_typed d def :
  deserializes d def ->
  examples_md repr d = Some (render_examples (examples def)).
Proof.
  intros (_ & _ & _ & _ & [[Hnone ->]|(items & Hget & Hall)]);
    unfold examples_md, get_or.
  - rewrite Hnone. reflexivity.
  - rewrite Hget. destruct Hall as [|v ex items exs Hv Hall]; [reflexivity|].
    cbn [truthy py_iter mbind option_bind].
    apply (examples_loop_typed (v :: items) (ex :: exs)).
    constructor; assumption.
Qed.

Lemma markdown_content_typed r d def ct et :
  deserializes d def ->
  markdown_content repr r d ct et
  = markdown_layout r (system_prompt def) (input_schema_description def)
      (output_schema_description def) ct et.
Proof.
  intros (Hsp & Hin & Hout & _). unfold markdown_content, get_or.
  rewrite Hsp, Hin, Hout. reflexivity.
Qed.

Lemma export_markdown_validated db mcp_id user r def :
  select_owned db mcp_id user = Some r ->
  McpDefinition_validate (definition_json r) = Ok def ->
  export_mcp_markdown repr isalnum_wide db mcp_id user
  = Return {| filename :=
                "MCP_" ++ str_of_Z (id r) ++ "_"
                ++ McpRouter.safe_name isalnum_wide (name r) ++ "_definition.md";
              content := render_markdown r def;
              media_type := "text/markdown" |}.
Proof.
  intros Hsel Hval. unfold export_mcp_markdown. rewrite Hsel.
  rewrite (validated_definition_truthy _ _ Hval). cbn [negb].
  destruct (definition_json r) as [| | | | |d]; try discriminate.
  simpl in Hval. destruct (McpDefinition_fields d) as [def'|] eqn:Hf; [|discriminate].
  injection Hval as ->. apply McpDefinition_fields_Some in Hf.
  pose proof Hf as (_ & _ & _ & Hcs & _).
  rewrite (constraints_md_typed d _ Hcs), (examples_md_typed d def Hf).
  rewrite (markdown_content_typed r d def _ _ Hf). reflexivity.
Qed.

End MarkdownFacts.

(** X15. The Markdown export of a stored definition that fits
    [McpDefinition] never fails and shows the typed fields: the three
    texts as they are, the constraints one per line in stored order (or
    the sentence that there are none), the examples numbered from 1 in
    stored order (or the sentence that there are none). No list or dict
    is ever printed in its Python form: the document does not depend on
    [repr]. The file name carries the id of the record and its name, in
    which every character that [str.isalnum] rejects is one underscore
    and every letter or digit, of whatever script, stays. *)
Theorem export_mcp_markdown_of_definition
    (repr : json -> string) (isalnum_wide : string -> bool)
    (db : table) (mcp_id : Z) (user : User)
    (r : Mcp) (def : McpDefinition) :
  select_owned db mcp_id user = Some r ->
  McpDefinition_validate (definition_json r) = Ok def ->
  export_mcp_markdown repr isalnum_wide db mcp_id user
  = Return {| filename :=
                "MCP_" ++ str_of_Z (id r) ++ "_"
                ++ McpRouter.safe_name isalnum_wide (name r) ++ "_definition.md";
              content := render_markdown r def;
              media_type := "text/markdown" |}.
Proof. apply export_markdown_validated. Qed.

Lemma export_mcp_markdown_of_definition_witness :
  content <$> (match export_mcp_markdown (fun _ => "") Fixtures.isalnum_wide
                       Fixtures.defined_table 1 Fixtures.alice
               with Return a => Some a | _ => None end)
  = Some (render_markdown Fixtures.defined_mcp
            {| system_prompt := "Be brief.";
               input_schema_description := "a ticket";
               output_schema_description := "a reply";
               def_constraints := [];
               examples := [] |}).
Proof.
  rewrite (export_mcp_markdown_of_definition (fun _ => "") Fixtures.isalnum_wide
             Fixtures.defined_table 1 Fixtures.alice Fixtures.defined_mcp
             {| system_prompt := "Be brief.";
                input_schema_description := "a ticket";
                output_schema_description := "a reply";
                def_constraints := [];
                examples := [] |}).
  - reflexivity.
  - vm_compute. reflexivity.
  - vm_compute. reflexivity.
Defined.

(* ===================================================================== *)
(** * Records without and with a definition                               *)
(* ===================================================================== *)


(** X16. A record that has just been created has no definition, and the
    three routes that need one say so, each in its own way: the JSON
    export answers 404, the Markdown export answers with a document that
    holds the error sentence, and a test run answers 400. *)
Theorem new_mcp_has_no_definition
    (repr : json -> string) (isalnum_wide : string -> bool)
    (test_llm : list Validation.message -> result string) (refusal : json -> string)
    (request : Validation.TestRunRequest)
    (new_id : Z) (users : list User) (db : table) (commit_fault : option exn)
    (t_created t_updated : Z) (mcp_data : McpCreateRequest) (clerk : string)
    (r : Mcp) (db' : table) (user : User) :
  create_mcp new_id users db commit_fault t_created t_updated mcp_data clerk
    = (Return r, db') ->
  find_user users clerk = Some user ->
  McpRouter.export_mcp_json isalnum_wide db' (id r) user
  = HTTPException 404
      ("No structured definition (definition_json) found for MCP "
       ++ str_of_Z (id r) ++ ". Generate it first.")
  /\ export_mcp_markdown repr isalnum_wide db' (id r) user
     = Return {| filename := "MCP_" ++ str_of_Z (id r) ++ "_no_definition.md";
                 content :=
                   "# MCP: " ++ mcpName mcp_data ++ NL ++ NL
                   ++ "**Error:** No structured definition (definition_json) found for this MCP.";
                 media_type := "text/markdown" |}
  /\ Validation.test_mcp_run test_llm refusal db' (id r) request user
     = HTTPException 400 "MCP definition or system prompt is missing.".
Proof.
  unfold create_mcp, insert_row. intros Hrun Hfind. rewrite Hfind in Hrun.
  destruct commit_fault; [discriminate|]. cbn [id] in Hrun.
  destruct (db !! new_id); [discriminate|].
  injection Hrun as <- <-. cbn [id].
  unfold McpRouter.export_mcp_json, export_mcp_markdown, Validation.test_mcp_run,
    select_owned.
  rewrite lookup_insert_eq. cbn [owner_id]. rewrite Z.eqb_refl.
  repeat split; reflexivity.
Qed.

Lemma new_mcp_has_no_definition_witness :
  status_of (McpRouter.export_mcp_json Fixtures.isalnum_wide
               (snd (create_mcp 2 [Fixtures.alice; Fixtures.bob] Fixtures.one_mcp None
                       300 301
                       {| mcpName := "Triage"; domain := "support";
                          goal := "sort tickets"; roles := "agent" |} "user_bob"))
               2 Fixtures.bob)
  = Some 404.
Proof.
  refine (f_equal status_of
            (proj1 (new_mcp_has_no_definition (fun _ => "") Fixtures.isalnum_wide
                      (fun _ => Ok "Done.") (fun _ => "")
                      {| Validation.user_input := "My order is late." |} 2
                      [Fixtures.alice; Fixtures.bob] Fixtures.one_mcp None 300 301
                      {| mcpName := "Triage"; domain := "support";
                         goal := "sort tickets"; roles := "agent" |} "user_bob"
                      {| id := 2; name := "Triage"; Models.domain := "support";
                         Models.goal := "sort tickets"; Models.roles := "agent";
                         constraints := None; created_at := 300; updated_at := 301;
                         owner_id := 2; generated_content := None;
                         definition_json := JNull |}
                      _ Fixtures.bob _ _))).
  - vm_compute. reflexivity.
  - reflexivity.
Defined.


Section GenerationTable.

Variable score : Type.
Variable score_leb : score -> score -> bool.
Variable distance : string -> string -> score.
Variable format_instructions : string.
Variable llm : string -> string -> result string.
Variable parser : string -> result json.

Let generate := Generation.generate_mcp_json score score_leb distance
                  format_instructions llm parser.

(** Every run either leaves the table or rewrites the requested row with
    another definition and another modification time. *)
Lemma generate_writes db w vs sf cf now mcp_id user :
  snd (generate db w vs sf cf now mcp_id user) = db
  \/ exists old j,
       select_owned db mcp_id user = Some old
       /\ snd (generate db w vs sf cf now mcp_id user)
          = <[id old := {| id := id old; name := name old;
                           Models.domain := Models.domain old;
                           Models.goal := Models.goal old;
                           Models.roles := Models.roles old;
                           constraints := constraints old;
                           created_at := created_at old; updated_at := now;
                           owner_id := owner_id old;
                           generated_content := generated_content old;
                           definition_json := j |}]> db.
Proof.
  unfold generate, Generation.generate_mcp_json.
  destruct (select_owned db mcp_id user) as [old|] eqn:Hsel; [|left; reflexivity].
  destruct (Generation.chain_ainvoke _ _ _ _ _) as [j|e]; [|left; reflexivity].
  destruct cf as [e|]; [left; reflexivity|]. cbn [commit].
  right. exists old, j. split; [reflexivity|].
  destruct (McpDefinition_validate j); reflexivity.
Qed.

Lemma generate_success_row db w vs sf cf now mcp_id user resp db' :
  generate db w vs sf cf now mcp_id user = (Return resp, db') ->
  exists old j,
    select_owned db mcp_id user = Some old
    /\ McpDefinition_validate j = Ok (Generation.definition_json resp)
    /\ db' = <[id old := {| id := id old; name := name old;
                            Models.domain := Models.domain old;
                            Models.goal := Models.goal old;
                            Models.roles := Models.roles old;
                            constraints := constraints old;
                            created_at := created_at old; updated_at := now;
                            owner_id := owner_id old;
                            generated_content := generated_content old;
                            definition_json := j |}]> db.
Proof.
  unfold generate, Generation.generate_mcp_json.
  destruct (select_owned db mcp_id user) as [old|] eqn:Hsel; [|discriminate].
  destruct (Generation.chain_ainvoke _ _ _ _ _) as [j|e]; [|discriminate].
  destruct cf as [e|]; [discriminate|]. cbn [commit].
  destruct (McpDefinition_validate j) as [def|e] eqn:Hval; [|discriminate].
  intros [= <- <-]. exists old, j. auto.
Qed.

End GenerationTable.

(** X17. Whatever its outcome, a generation request leaves every other
    row of the table as it was, adds and removes no row, and in the
    requested row changes at most the definition and the modification
    time: id, name, domain, goal, roles, constraints, creation time,
    owner and generated content stay. The table stays keyed by id. *)
Theorem generate_mcp_json_frame
    (score : Type) (score_leb : score -> score -> bool)
    (distance : string -> string -> score) (format_instructions : string)
    (llm : string -> string -> result string) (parser : string -> result json)
    (db : table) (w : chroma_world) (vs : Chroma) (sf cf : option exn)
    (now mcp_id : Z) (user : User) :
  keyed db ->
  let db' := snd (Generation.generate_mcp_json score score_leb distance
                    format_instructions llm parser db w vs sf cf now mcp_id user) in
  (forall k, k <> mcp_id -> db' !! k = db !! k)
  /\ (forall r', db' !! mcp_id = Some r' ->
        exists r, db !! mcp_id = Some r
          /\ id r' = id r /\ name r' = name r
          /\ Models.domain r' = Models.domain r
          /\ Models.goal r' = Models.goal r /\ Models.roles r' = Models.roles r
          /\ constraints r' = constraints r /\ created_at r' = created_at r
          /\ owner_id r' = owner_id r
          /\ generated_content r' = generated_content r)
  /\ (forall r, db !! mcp_id = Some r -> is_Some (db' !! mcp_id))
  /\ keyed db'.
Proof.
  intros Hkeyed db'.
  destruct (generate_writes score score_leb distance format_instructions llm parser
              db w vs sf cf now mcp_id user) as [Hsame|(old & j & Hsel & Hdb)];
    fold db' in Hsame || fold db' in Hdb.
  - rewrite Hsame. repeat split; try tauto.
    + intros r' Hr'. exists r'. repeat split; auto.
    + intros r Hr. eauto.
  - apply select_owned_Some in Hsel as [Hold Ho].
    pose proof (Hkeyed mcp_id old Hold) as Hid.
    rewrite Hdb, Hid. repeat split.
    + intros k Hk. apply lookup_insert_ne. congruence.
    + intros r'. rewrite lookup_insert_eq. intros [= <-].
      exists old. repeat split; auto.
    + intros r _. rewrite lookup_insert_eq. eauto.
    + intros k r' Hr'. destruct (decide (mcp_id = k)) as [<-|Hne].
      * rewrite lookup_insert_eq in Hr'. injection Hr' as <-. reflexivity.
      * rewrite lookup_insert_ne in Hr' by exact Hne. apply (Hkeyed k r' Hr').
Qed.

Lemma generate_mcp_json_frame_witness :
  id <$> (snd (Generation.generate_mcp_json Z Z.leb Fixtures.text_distance "schema"
                 (Fixtures.canned_llm (JsonText.dumps Fixtures.incomplete_output))
                 Fixtures.json_parser Fixtures.one_mcp empty_world
                 Fixtures.documents_store None None 500 1 Fixtures.alice) !! 1)
  = Some 1.
Proof.
  pose proof (generate_mcp_json_frame Z Z.leb Fixtures.text_distance "schema"
                (Fixtures.canned_llm (JsonText.dumps Fixtures.incomplete_output))
                Fixtures.json_parser Fixtures.one_mcp empty_world
                Fixtures.documents_store None None 500 1 Fixtures.alice) as H.
  cbv zeta in H.
  destruct H as (_ & _ & _ & Hkeyed).
  - intros k r Hk. unfold Fixtures.one_mcp in Hk.
    apply lookup_singleton_Some in Hk as [<- <-]. reflexivity.
  - destruct (_ !! 1) as [r|] eqn:Hr; [|vm_compute in Hr; discriminate].
    simpl. f_equal. exact (Hkeyed 1 r Hr).
Defined.

(** X18. After a successful generation the owner reads the record with
    the new modification time and a stored definition that validates to
    the definition of the answer; the Markdown export renders that
    definition under the file name of the record, in which every
    character of the name that [str.isalnum] rejects is an underscore;
    the JSON export returns the stored value when its header value
    encodes as latin-1, and answers 500 when it does not. *)
Theorem generate_then_export
    (score : Type) (score_leb : score -> score -> bool)
    (distance : string -> string -> score) (format_instructions : string)
    (llm : string -> string -> result string) (parser : string -> result json)
    (repr : json -> string) (isalnum_wide : string -> bool)
    (db : table) (w : chroma_world) (vs : Chroma) (sf cf : option exn)
    (now mcp_id : Z) (user : User)
    (resp : Generation.GenerationJsonResponse) (db' : table) :
  keyed db ->
  Generation.generate_mcp_json score score_leb distance format_instructions llm parser
    db w vs sf cf now mcp_id user = (Return resp, db') ->
  exists r',
    get_mcp_by_id db' mcp_id user = Return r'
    /\ updated_at r' = now
    /\ McpDefinition_validate (definition_json r') = Ok (Generation.definition_json resp)
    /\ export_mcp_markdown repr isalnum_wide db' mcp_id user
       = Return {| filename :=
                     "MCP_" ++ str_of_Z mcp_id ++ "_"
                     ++ McpRouter.safe_name isalnum_wide (name r') ++ "_definition.md";
                   content := render_markdown r' (Generation.definition_json resp);
                   media_type := "text/markdown" |}
    /\ McpRouter.export_mcp_json isalnum_wide db' mcp_id user
       = if McpRouter.latin1 (McpRouter.content_disposition isalnum_wide r')
         then Return {| McpRouter.content := definition_json r';
                        McpRouter.headers :=
                          [("Content-Disposition",
                            McpRouter.content_disposition isalnum_wide r')] |}
         else HTTPException 500 "Internal Server Error".
Proof.
  intros Hkeyed Hrun.
  apply generate_success_row in Hrun as (old & j & Hsel & Hval & ->).
  apply select_owned_Some in Hsel as [Hold Ho].
  pose proof (Hkeyed mcp_id old Hold) as Hid. rewrite Hid.
  set (r' := {| id := mcp_id; name := name old;
                Models.domain := Models.domain old;
                Models.goal := Models.goal old;
                Models.roles := Models.roles old;
                constraints := constraints old;
                created_at := created_at old; updated_at := now;
                owner_id := owner_id old;
                generated_content := generated_content old;
                definition_json := j |}).
  assert (Hsel' : select_owned (<[mcp_id := r']> db) mcp_id user = Some r').
  { apply select_owned_Some. rewrite lookup_insert_eq. auto. }
  exists r'. split; [|split; [|split; [|split]]].
  - unfold get_mcp_by_id. rewrite Hsel'. reflexivity.
  - reflexivity.
  - exact Hval.
  - rewrite (export_markdown_validated repr isalnum_wide _ mcp_id user r'
               (Generation.definition_json resp) Hsel' Hval).
    reflexivity.
  - unfold McpRouter.export_mcp_json. rewrite Hsel'.
    change (Models.definition_json r') with j.
    rewrite (validated_definition_truthy _ _ Hval). reflexivity.
Qed.

Lemma generate_then_export_witness :
  exists r', get_mcp_by_id
               (<[1 := Fixtures.defined_mcp]> Fixtures.one_mcp) 1 Fixtures.alice
             = Return r'
             /\ updated_at r' = 200.
Proof.
  destruct (generate_then_export Z Z.leb Fixtures.text_distance "schema"
              (Fixtures.canned_llm (JsonText.dumps Fixtures.stored_definition))
              Fixtures.json_parser (fun _ => "") Fixtures.isalnum_wide
              Fixtures.one_mcp empty_world
              Fixtures.documents_store None None 200 1 Fixtures.alice
              {| Generation.definition_json :=
                   {| system_prompt := "Be brief.";
                      input_schema_description := "a ticket";
                      output_schema_description := "a reply";
                      def_constraints := [];
                      examples := [] |} |}
              (<[1 := Fixtures.defined_mcp]> Fixtures.one_mcp))
    as (r' & Hget & Hnow & _).
  - intros k r Hk. unfold Fixtures.one_mcp in Hk.
    apply lookup_singleton_Some in Hk as [<- <-]. reflexivity.
  - vm_compute. reflexivity.
  - exists r'. split; assumption.
Defined.

(* ===================================================================== *)
(** * File names of the exports                                           *)
(* ===================================================================== *)


Lemma forallb_chars_append (p : ascii -> bool) (a b : string) :
  forallb p (list_ascii_of_string (a ++ b))
  = forallb p (list_ascii_of_string a) && forallb p (list_ascii_of_string b).
Proof.
  induction a as [|c a IH]; [reflexivity|].
  cbn [String.append list_ascii_of_string forallb]. rewrite IH.
  apply andb_assoc.
Qed.

Lemma join_empty_cons (p : string) (rest : list string) :
  Py.join "" (p :: rest) = p ++ Py.join "" rest.
Proof.
  destruct rest as [|q rest]; [|reflexivity].
  cbn [Py.join]. symmetry. apply append_nil_r.
Qed.

(** On a name below 128 [safe_name] works byte by byte. *)
Lemma safe_name_ascii_pieces (isalnum_wide : string -> bool) (l : list ascii) :
  forallb (fun c => (nat_of_ascii c <? 128)%nat) l = true ->
  let t := Py.join ""
             (List.map (fun ch => if McpRouter.char_isalnum isalnum_wide ch
                                  then ch else "_")
                       (List.map (fun c => String c EmptyString) l)) in
  forallb filename_char (list_ascii_of_string t) = true
  /\ String.length t = length l.
Proof.
  induction l as [|c l IH]; [intros _; split; reflexivity|].
  cbn [forallb List.map]. intros [Hc Hl]%andb_true_iff.
  destruct (IH Hl) as [IHchars IHlen].
  cbv zeta. rewrite join_empty_cons, forallb_chars_append, length_append.
  rewrite IHchars, IHlen, andb_true_r.
  unfold McpRouter.char_isalnum. rewrite Hc.
  destruct (McpRouter.isalnum c) eqn:Halnum.
  - cbn [list_ascii_of_string forallb String.length]. unfold filename_char.
    rewrite Halnum. split; reflexivity.
  - split; reflexivity.
Qed.

Lemma length_chars (s : string) :
  length (list_ascii_of_string s) = String.length s.
Proof. induction s as [|c s IH]; simpl; congruence. Qed.

Lemma safe_name_chars (isalnum_wide : string -> bool) s :
  is_ascii s = true ->
  forallb filename_char
    (list_ascii_of_string (McpRouter.safe_name isalnum_wide s)) = true.
Proof.
  intros Hs. unfold McpRouter.safe_name. rewrite (code_points_ascii s Hs).
  destruct (safe_name_ascii_pieces isalnum_wide _ Hs) as [Hchars _].
  exact Hchars.
Qed.

Lemma safe_name_length (isalnum_wide : string -> bool) s :
  is_ascii s = true ->
  String.length (McpRouter.safe_name isalnum_wide s) = String.length s.
Proof.
  intros Hs. unfold McpRouter.safe_name. rewrite (code_points_ascii s Hs).
  destruct (safe_name_ascii_pieces isalnum_wide _ Hs) as [_ Hlen].
  rewrite Hlen. apply length_chars.
Qed.

(** Letters and digits from 128 on stay in the file name, and a
    character of several bytes that is neither becomes one underscore:
    a name with U+00E9 and U+00B2 keeps both and still encodes as
    latin-1, a name of ideographs keeps them and does not, and the dash
    U+2014 is replaced. *)
Example safe_name_beyond_ascii :
  let e_acute := String (ascii_of_nat 195) (String (ascii_of_nat 169) EmptyString) in
  let superscript_two :=
    String (ascii_of_nat 194) (String (ascii_of_nat 178) EmptyString) in
  let em_dash :=
    String (ascii_of_nat 226) (String (ascii_of_nat 128)
      (String (ascii_of_nat 148) EmptyString)) in
  McpRouter.safe_name Fixtures.isalnum_wide ("Caf" ++ e_acute ++ " " ++ superscript_two)
  = "Caf" ++ e_acute ++ "_" ++ superscript_two
  /\ McpRouter.latin1 ("Caf" ++ e_acute ++ "_" ++ superscript_two) = true
  /\ McpRouter.safe_name Fixtures.isalnum_wide
       (Fixtures.zhong ++ em_dash ++ Fixtures.zhong)
     = Fixtures.zhong ++ "_" ++ Fixtures.zhong
  /\ McpRouter.latin1 (Fixtures.zhong ++ "_" ++ Fixtures.zhong) = false.
Proof. vm_compute. repeat split. Qed.

Lemma uint_chars d :
  forallb filename_char (list_ascii_of_string (NilEmpty.string_of_uint d)) = true.
Proof.
  induction d; cbn [NilEmpty.string_of_uint list_ascii_of_string forallb];
    try rewrite IHd; reflexivity.
Qed.

Lemma str_of_Z_chars z :
  forallb filename_char (list_ascii_of_string (str_of_Z z)) = true.
Proof.
  destruct (str_of_Z_cases z) as [(d & _ & -> & _)|(d & _ & -> & _)].
  - apply uint_chars.
  - cbn [list_ascii_of_string forallb]. rewrite uint_chars. reflexivity.
Qed.

Lemma definition_filename_chars (isalnum_wide : string -> bool) z s ext :
  is_ascii s = true ->
  forallb filename_char (list_ascii_of_string ext) = true ->
  forallb filename_char
    (list_ascii_of_string
       ("MCP_" ++ str_of_Z z ++ "_" ++ McpRouter.safe_name isalnum_wide s ++ ext))
  = true.
Proof.
  intros Hs Hext.
  rewrite !forallb_chars_append, str_of_Z_chars, (safe_name_chars _ _ Hs), Hext.
  reflexivity.
Qed.

Lemma placeholder_filename_chars z :
  forallb filename_char
    (list_ascii_of_string ("MCP_" ++ str_of_Z z ++ "_no_definition.md")) = true.
Proof. rewrite !forallb_chars_append, str_of_Z_chars. reflexivity. Qed.

(** X19. File names of the exports. For a record whose name is made of
    characters below 128, the file name of every Markdown export, and
    the one between the quotes of the [Content-Disposition] header of
    every JSON export, is made of letters, digits, underscore, dash and
    dot only; in the JSON file name the name of the record takes as many
    characters as it has. *)
Theorem export_file_names
    (repr : json -> string) (isalnum_wide : string -> bool)
    (db : table) (mcp_id : Z) (user : User) :
  (forall r, db !! mcp_id = Some r -> is_ascii (name r) = true) ->
  (forall resp, export_mcp_markdown repr isalnum_wide db mcp_id user = Return resp ->
     forallb filename_char (list_ascii_of_string (filename resp)) = true)
  /\ (forall resp, McpRouter.export_mcp_json isalnum_wide db mcp_id user = Return resp ->
        exists r file,
          db !! mcp_id = Some r
          /\ McpRouter.headers resp
             = [("Content-Disposition",
                 "attachment; filename=" ++ String JsonText.DQUOTE EmptyString
                 ++ file ++ String JsonText.DQUOTE EmptyString)]
          /\ forallb filename_char (list_ascii_of_string file) = true
          /\ String.length file
             = (String.length ("MCP_" ++ str_of_Z (id r) ++ "_")
                + String.length (name r) + String.length "_definition.json")%nat).
Proof.
  intros Hname. split.
  - intros resp. unfold export_mcp_markdown.
    destruct (select_owned db mcp_id user) as [r|] eqn:Hsel; [|discriminate].
    apply select_owned_Some in Hsel as [Hr _].
    destruct (negb (truthy (definition_json r))).
    + intros [= <-]. apply placeholder_filename_chars.
    + destruct (definition_json r) as [| | | | |d]; try discriminate.
      destruct (constraints_md repr d); [|discriminate].
      destruct (examples_md repr d); [|discriminate].
      intros [= <-].
      apply (definition_filename_chars isalnum_wide _ _ "_definition.md" (Hname r Hr)).
      reflexivity.
  - intros resp. unfold McpRouter.export_mcp_json.
    destruct (select_owned db mcp_id user) as [r|] eqn:Hsel; [|discriminate].
    apply select_owned_Some in Hsel as [Hr _].
    destruct (negb (truthy (Models.definition_json r))); [discriminate|].
    destruct (McpRouter.latin1 _); [|discriminate].
    intros [= <-]. exists r, (McpRouter.export_filename isalnum_wide r).
    split; [exact Hr|]. split; [reflexivity|]. split.
    + apply (definition_filename_chars isalnum_wide _ _ "_definition.json" (Hname r Hr)).
      reflexivity.
    + unfold McpRouter.export_filename.
      rewrite !length_append, (safe_name_length _ _ (Hname r Hr)). lia.
Qed.

Lemma export_file_names_witness :
  forallb filename_char
    (list_ascii_of_string "MCP_1_Support_bot_definition.md") = true.
Proof.
  refine (proj1 (export_file_names (fun _ => "") Fixtures.isalnum_wide
                   Fixtures.defined_table 1 Fixtures.alice _)
            {| filename := "MCP_1_Support_bot_definition.md";
               content := render_markdown Fixtures.defined_mcp
                            {| system_prompt := "Be brief.";
                               input_schema_description := "a ticket";
                               output_schema_description := "a reply";
                               def_constraints := [];
                               examples := [] |};
               media_type := "text/markdown" |} _).
  - intros r Hr. unfold Fixtures.defined_table in Hr.
    apply lookup_singleton_Some in Hr as [_ <-]. reflexivity.
  - vm_compute. reflexivity.
Defined.

(* ===================================================================== *)
(** * The user row of a request                                           *)
(* ===================================================================== *)


Lemma find_user_app_new users u :
  find_user users (clerk_id u) = None ->
  find_user (users ++ [u])%list (clerk_id u) = Some u.
Proof.
  unfold find_user. induction users as [|v users IH]; simpl.
  - rewrite String.eqb_refl. reflexivity.
  - destruct (String.eqb (clerk_id v) (clerk_id u)); [discriminate | exact IH].
Qed.

Lemma find_user_None users clerk :
  find_user users clerk = None -> ~ In clerk (List.map clerk_id users).
Proof.
  unfold find_user. intros Hnone Hin. apply in_map_iff in Hin as (v & Hv & Hin).
  apply (List.find_none _ _ Hnone) in Hin. rewrite Hv, String.eqb_refl in Hin.
  discriminate.
Qed.

Lemma NoDup_snoc {A : Type} (l : list A) (a : A) :
  List.NoDup l -> ~ In a l -> List.NoDup (l ++ [a]).
Proof.
  intros Hnd Hnotin. apply NoDup_ListNoDup, NoDup_app.
  apply NoDup_ListNoDup in Hnd. split; [exact Hnd|]. split.
  - intros x Hx Hxa. apply list_elem_of_In in Hx.
    apply list_elem_of_In in Hxa. destruct Hxa as [<-|[]]. contradiction.
  - apply NoDup_singleton.
Qed.

Lemma insert_user_Ok users u users' :
  AuthUtils.insert_user None users u = Ok users' ->
  users' = (users ++ [u])%list
  /\ ~ In (user_id u) (List.map user_id users)
  /\ ~ In (clerk_id u) (List.map clerk_id users)
  /\ ~ In (email u) (List.map email users).
Proof.
  unfold AuthUtils.insert_user.
  destruct (existsb _ users) eqn:Hex; [discriminate|]. intros [= <-].
  split; [reflexivity|].
  assert (Hall : forall v, In v users ->
            user_id v <> user_id u /\ clerk_id v <> clerk_id u /\ email v <> email u).
  { intros v Hv.
    pose proof (proj2 (not_true_iff_false _) Hex) as Hno.
    repeat split; intros Heq; apply Hno, existsb_exists; exists v;
      (split; [exact Hv|]); rewrite Heq, ?Z.eqb_refl, ?String.eqb_refl, ?orb_true_r;
      reflexivity. }
  repeat split; intros Hin; apply in_map_iff in Hin as (v & Heq & Hv);
    destruct (Hall v Hv) as (H1 & H2 & H3); congruence.
Qed.

Lemma provisioned_found new_id users commit_fault clerk user users' :
  AuthUtils.get_current_db_user new_id users commit_fault clerk
    = (Return user, users') ->
  find_user users' clerk = Some user.
Proof.
  unfold AuthUtils.get_current_db_user.
  destruct (find_user users clerk) as [found|] eqn:Hfind.
  - intros [= <- <-]. exact Hfind.
  - destruct commit_fault as [e|]; [discriminate|].
    destruct (AuthUtils.insert_user None users _) as [added|e] eqn:Hins;
      [|discriminate].
    intros [= <- <-]. apply insert_user_Ok in Hins as (-> & _).
    apply (find_user_app_new users
             {| user_id := new_id; clerk_id := clerk;
                email := clerk ++ "@placeholder.intellimcp.local" |} Hfind).
Qed.

(** X20. The user row of a request. A returned user carries the Clerk id
    of the request and is in the table; the table is the prior one,
    either as it was or with that one user appended, the latter only if
    the Clerk id had no row, and then the e-mail address is the
    placeholder built from the Clerk id. Asking again with the same
    Clerk id returns the same user and changes nothing, whatever the
    state of the store. Uniqueness of ids, Clerk ids and addresses is
    kept. A failure is a 500 and leaves the table as it was. *)
Theorem get_current_db_user_provisions
    (new_id : Z) (users : list User) (commit_fault : option exn) (clerk : string) :
  let run := AuthUtils.get_current_db_user new_id users commit_fault clerk in
  match fst run with
  | Return user =>
      clerk_id user = clerk
      /\ In user (snd run)
      /\ (exists added, snd run = (users ++ added)%list
            /\ (added = [] \/ (added = [user] /\ find_user users clerk = None
                               /\ email user = clerk ++ "@placeholder.intellimcp.local")))
      /\ (forall new_id' fault',
            AuthUtils.get_current_db_user new_id' (snd run) fault' clerk
            = (Return user, snd run))
      /\ (AuthUtils.unique_users users -> AuthUtils.unique_users (snd run))
  | HTTPException status_code _ =>
      status_code = 500 /\ snd run = users /\ find_user users clerk = None
  end.
Proof.
  unfold AuthUtils.get_current_db_user.
  destruct (find_user users clerk) as [user|] eqn:Hfind; cbn [fst snd].
  - pose proof (find_user_Some _ _ _ Hfind) as [Hin Hclerk].
    repeat split; try assumption.
    + exists []. rewrite app_nil_r. auto.
    + intros new_id' fault'. rewrite Hfind. reflexivity.
    + apply H.
    + apply H.
    + apply H.
  - destruct commit_fault as [e|]; [cbn; auto|].
    destruct (AuthUtils.insert_user None users _) as [users'|e] eqn:Hins;
      cbn [fst snd]; [|auto].
    apply insert_user_Ok in Hins as (-> & Hid & Hck & Hem). cbn in Hid, Hck, Hem.
    set (user := {| user_id := new_id; clerk_id := clerk;
                    email := clerk ++ "@placeholder.intellimcp.local" |}) in *.
    pose proof (find_user_app_new users user Hfind) as Hfound.
    repeat split.
    + apply in_or_app. right. left. reflexivity.
    + exists [user]. split; [reflexivity|]. right. auto.
    + intros new_id' fault'. cbn in Hfound. rewrite Hfound. reflexivity.
    + rewrite List.map_app. apply NoDup_snoc; [apply H | exact Hid].
    + rewrite List.map_app. apply NoDup_snoc; [apply H | exact Hck].
    + rewrite List.map_app. apply NoDup_snoc; [apply H | exact Hem].
Qed.

Lemma get_current_db_user_provisions_witness :
  AuthUtils.unique_users
    (snd (AuthUtils.get_current_db_user 3 [Fixtures.alice; Fixtures.bob] None
            "user_carol")).
Proof.
  refine (proj2 (proj2 (proj2 (proj2
            (get_current_db_user_provisions 3 [Fixtures.alice; Fixtures.bob] None
               "user_carol")))) _).
  repeat split; repeat constructor; simpl; intuition discriminate.
Defined.

(** X21. A Clerk id for which the user dependency returned a user is
    known to the creation route: creating a record never answers 404,
    a created record is owned by that user, and when the key is free and
    the store accepts the write the user reads the record back and finds
    it in their listing. *)
Theorem provisioned_user_can_create
    (new_user_id : Z) (users users' : list User) (user_fault : option exn)
    (clerk : string) (user : User)
    (new_id : Z) (db : table) (commit_fault : option exn)
    (t_created t_updated : Z) (mcp_data : McpCreateRequest) :
  AuthUtils.get_current_db_user new_user_id users user_fault clerk
    = (Return user, users') ->
  keyed db ->
  let run := create_mcp new_id users' db commit_fault t_created t_updated
               mcp_data clerk in
  status_of (fst run) <> Some 404
  /\ (forall r, fst run = Return r -> owner_id r = user_id user)
  /\ (commit_fault = None -> db !! new_id = None ->
      exists r, fst run = Return r
        /\ get_mcp_by_id (snd run) new_id user = Return r
        /\ In r (list_user_mcps (snd run) user)).
Proof.
  intros Hdep Hkeyed.
  pose proof (provisioned_found _ _ _ _ _ _ Hdep) as Hfind.
  unfold create_mcp, insert_row. rewrite Hfind. cbn [id].
  destruct commit_fault as [e|]; cbn [fst snd].
  { repeat split; [discriminate | discriminate | discriminate]. }
  destruct (db !! new_id) as [old|] eqn:Hold; cbn [fst snd].
  { repeat split; [discriminate | discriminate | discriminate]. }
  split; [discriminate|]. split; [intros r [= <-]; reflexivity|].
  intros _ _. eexists. split; [reflexivity|].
  assert (Hget : forall r, r = {| id := new_id; name := mcpName mcp_data;
                           Models.domain := domain mcp_data;
                           Models.goal := goal mcp_data;
                           Models.roles := roles mcp_data;
                           constraints := None; created_at := t_created;
                           updated_at := t_updated; owner_id := user_id user;
                           generated_content := None; definition_json := JNull |} ->
            get_mcp_by_id (<[new_id := r]> db) new_id user = Return r).
  { intros r ->. unfold get_mcp_by_id, select_owned. rewrite lookup_insert_eq.
    cbn [owner_id]. rewrite Z.eqb_refl. reflexivity. }
  split; [apply Hget; reflexivity|].
  unfold list_user_mcps. apply filter_In. split.
  - apply In_rows. exists new_id. apply lookup_insert_eq.
  - cbn [owner_id]. apply Z.eqb_refl.
Qed.

Lemma provisioned_user_can_create_witness :
  status_of (fst (create_mcp 2 [Fixtures.alice; Fixtures.bob] Fixtures.one_mcp None
                    300 301
                    {| mcpName := "Triage"; domain := "support";
                       goal := "sort tickets"; roles := "agent" |} "user_bob"))
  <> Some 404.
Proof.
  refine (proj1 (provisioned_user_can_create 3 [Fixtures.alice; Fixtures.bob]
                   [Fixtures.alice; Fixtures.bob] None "user_bob" Fixtures.bob
                   2 Fixtures.one_mcp None 300 301
                   {| mcpName := "Triage"; domain := "support";
                      goal := "sort tickets"; roles := "agent" |} _ _)).
  - reflexivity.
  - intros k r Hk. unfold Fixtures.one_mcp in Hk.
    apply lookup_singleton_Some in Hk as [<- <-]. reflexivity.
Defined.

(* ===================================================================== *)
(** * Records made from a prompt                                          *)
(* ===================================================================== *)


Lemma lstrip_blank s : Prompt.lstrip s = "" <-> Prompt.blank s = true.
Proof.
  unfold Prompt.blank. induction s as [|c s IH]; simpl; [tauto|].
  destruct (Prompt.isspace c); simpl; [exact IH|]. split; discriminate.
Qed.

Lemma lstrip_head s c rest :
  Prompt.lstrip s = String c rest -> Prompt.isspace c = false.
Proof.
  induction s as [|a s IH]; simpl; [discriminate|].
  destruct (Prompt.isspace a) eqn:Ha; [exact IH|]. intros [= <- _]. exact Ha.
Qed.

Lemma rstrip_head c rest :
  Prompt.isspace c = false ->
  exists kept, Prompt.rstrip (String c rest) = String c kept.
Proof.
  intros Hc. simpl. destruct (Prompt.rstrip rest); [rewrite Hc|]; eauto.
Qed.

Lemma rstrip_length s : (String.length (Prompt.rstrip s) <= String.length s)%nat.
Proof.
  induction s as [|c s IH]; simpl; [lia|].
  destruct (Prompt.rstrip s); [destruct (Prompt.isspace c)|]; simpl in *; lia.
Qed.

Lemma lstrip_length s : (String.length (Prompt.lstrip s) <= String.length s)%nat.
Proof.
  induction s as [|c s IH]; simpl; [lia|].
  destruct (Prompt.isspace c); simpl; lia.
Qed.

Lemma strip_length s : (String.length (Prompt.strip s) <= String.length s)%nat.
Proof.
  unfold Prompt.strip. pose proof (rstrip_length (Prompt.lstrip s)).
  pose proof (lstrip_length s). lia.
Qed.

Lemma strip_blank s : Prompt.strip s = "" <-> Prompt.blank s = true.
Proof.
  rewrite <- lstrip_blank. unfold Prompt.strip. split.
  - destruct (Prompt.lstrip s) as [|c rest] eqn:Hl; [reflexivity|].
    destruct (rstrip_head c rest (lstrip_head _ _ _ Hl)) as [kept ->]. discriminate.
  - intros ->. reflexivity.
Qed.

Lemma strip_head s c rest :
  Prompt.strip s = String c rest -> Prompt.isspace c = false.
Proof.
  unfold Prompt.strip. destruct (Prompt.lstrip s) as [|a tail] eqn:Hl; [discriminate|].
  pose proof (lstrip_head _ _ _ Hl) as Ha.
  destruct (rstrip_head a tail Ha) as [kept ->]. intros [= <- _]. exact Ha.
Qed.

Lemma slice_to_length n s : (String.length (Prompt.slice_to n s) <= n)%nat.
Proof.
  revert s. induction n as [|n IH]; intros [|c s]; simpl; try lia.
  specialize (IH s). lia.
Qed.

Lemma slice_to_all n s : (String.length s <= n)%nat -> Prompt.slice_to n s = s.
Proof.
  revert s. induction n as [|n IH]; intros [|c s]; simpl; try reflexivity; try lia.
  intros H. rewrite IH by lia. reflexivity.
Qed.

Lemma append_empty (a b : string) : a ++ b = "" -> a = "" /\ b = "".
Proof. destruct a; [auto | discriminate]. Qed.

Lemma name_of_prompt_bounds p :
  (1 <= String.length (Prompt.name_of_prompt p) <= 33)%nat
  /\ forall c rest, Prompt.name_of_prompt p = String c rest -> Prompt.isspace c = false.
Proof.
  unfold Prompt.name_of_prompt.
  pose proof (strip_length (Prompt.slice_to 30 p)) as Hlen.
  pose proof (slice_to_length 30 p) as Hslice.
  set (base := Prompt.strip (Prompt.slice_to 30 p)) in *.
  assert (Hhead : forall c rest, base = String c rest -> Prompt.isspace c = false)
    by (intros c rest; apply strip_head).
  destruct (30 <? String.length p)%nat.
  - destruct (String.eqb (base ++ "...") "") eqn:He.
    + apply String.eqb_eq, append_empty in He as [_ He]. discriminate.
    + split.
      * rewrite length_append. simpl. lia.
      * intros c rest. destruct base as [|a tail]; simpl.
        -- intros [= <- _]. reflexivity.
        -- intros [= <- _]. apply (Hhead a tail). reflexivity.
  - destruct (String.eqb base "") eqn:He.
    + split; [simpl; lia|]. intros c rest [= <- _]. reflexivity.
    + apply String.eqb_neq in He. split; [|exact Hhead].
      destruct base; [congruence | simpl in *; lia].
Qed.

(** X22. A record made from a prompt (of characters below 128). On
    success the record can be read back by the caller; its goal is the
    prompt as it was sent, its domain "General", its roles "User, AI",
    it has no definition and is owned by the caller. Its name is never
    empty, at most 33 characters long and does not start with white
    space. The key was free and no other row changed. *)
Theorem initiate_mcp_from_prompt_record
    (new_id : Z) (db : table) (commit_fault : option exn) (t_created t_updated : Z)
    (request : Prompt.PromptInitiateRequest) (user : User)
    (resp : Prompt.PromptInitiateResponse) (db' : table) :
  is_ascii (Prompt.prompt request) = true ->
  Prompt.initiate_mcp_from_prompt new_id db commit_fault t_created t_updated
    request user = (Return resp, db') ->
  (exists r,
     get_mcp_by_id db' (Prompt.mcp_id resp) user = Return r
     /\ name r = Prompt.mcp_name resp
     /\ Models.goal r = Prompt.prompt request
     /\ Models.domain r = "General" /\ Models.roles r = "User, AI"
     /\ definition_json r = JNull /\ owner_id r = user_id user)
  /\ Prompt.goal resp = Prompt.prompt request
  /\ (1 <= String.length (Prompt.mcp_name resp) <= 33)%nat
  /\ (forall c rest, Prompt.mcp_name resp = String c rest -> Prompt.isspace c = false)
  /\ db !! Prompt.mcp_id resp = None
  /\ (forall k, k <> Prompt.mcp_id resp -> db' !! k = db !! k).
Proof.
  intros _. unfold Prompt.initiate_mcp_from_prompt, insert_row.
  destruct commit_fault as [e|]; [discriminate|]. cbn [id].
  destruct (db !! new_id) as [old|] eqn:Hold; [discriminate|].
  intros [= <- <-]. cbn [Prompt.mcp_id Prompt.mcp_name Prompt.goal name Models.goal].
  pose proof (name_of_prompt_bounds (Prompt.prompt request)) as [Hlen Hhead].
  split; [|split; [reflexivity|split; [exact Hlen|split; [exact Hhead|split]]]].
  - eexists. split.
    + unfold get_mcp_by_id, select_owned. rewrite lookup_insert_eq.
      cbn [owner_id]. rewrite Z.eqb_refl. reflexivity.
    + repeat split.
  - exact Hold.
  - intros k Hk. apply lookup_insert_ne. congruence.
Qed.

Lemma initiate_mcp_from_prompt_record_witness :
  Prompt.goal {| Prompt.mcp_id := 2; Prompt.mcp_name := "Sort the tickets";
                 Prompt.goal := "  Sort the tickets " |}
  = "  Sort the tickets ".
Proof.
  refine (proj1 (proj2 (initiate_mcp_from_prompt_record 2 Fixtures.one_mcp None 300 301
                          {| Prompt.prompt := "  Sort the tickets " |} Fixtures.alice
                          {| Prompt.mcp_id := 2; Prompt.mcp_name := "Sort the tickets";
                             Prompt.goal := "  Sort the tickets " |}
                          (<[2 := {| id := 2; name := "Sort the tickets";
                                     Models.domain := "General";
                                     Models.goal := "  Sort the tickets ";
                                     Models.roles := "User, AI";
                                     constraints := None; created_at := 300;
                                     updated_at := 301; owner_id := 1;
                                     generated_content := None;
                                     definition_json := JNull |}]> Fixtures.one_mcp)
                          _ _))).
  - reflexivity.
  - vm_compute. reflexivity.
Defined.

(** X23. The name made from a prompt (of characters below 128). A prompt
    of at most 30 characters gives its own text without the white space
    around it, or "Untitled MCP" when it is all white space. A longer
    prompt gives its first 30 characters without the white space around
    them, followed by three dots, never "Untitled MCP": when those 30
    characters are all white space the name is the three dots alone. *)
Theorem name_of_prompt_cases (p : string) :
  is_ascii p = true ->
  ((String.length p <= 30)%nat ->
     Prompt.name_of_prompt p
     = if Prompt.blank p then "Untitled MCP" else Prompt.strip p)
  /\ ((30 < String.length p)%nat ->
        Prompt.name_of_prompt p = Prompt.strip (Prompt.slice_to 30 p) ++ "..."
        /\ Prompt.name_of_prompt p <> "Untitled MCP"
        /\ (Prompt.blank (Prompt.slice_to 30 p) = true ->
            Prompt.name_of_prompt p = "...")).
Proof.
  intros _. unfold Prompt.name_of_prompt. split.
  - intros Hlen. rewrite (proj2 (Nat.ltb_ge _ _) Hlen), (slice_to_all 30 p Hlen).
    destruct (Prompt.blank p) eqn:Hb.
    + rewrite (proj2 (strip_blank p) Hb). reflexivity.
    + destruct (String.eqb (Prompt.strip p) "") eqn:He; [|reflexivity].
      apply String.eqb_eq, strip_blank in He. congruence.
  - intros Hlen. rewrite (proj2 (Nat.ltb_lt _ _) Hlen).
    set (base := Prompt.strip (Prompt.slice_to 30 p)).
    assert (Hne : String.eqb (base ++ "...") "" = false).
    { apply String.eqb_neq. intros He. apply append_empty in He as [_ He].
      discriminate. }
    rewrite Hne. split; [reflexivity|]. split.
    + intros Heq.
      assert (Hrev : forall a : string,
                 a ++ "..." = "Untitled MCP" -> False).
      { intros a H.
        repeat (destruct a as [|? a]; [discriminate H | simpl in H; injection H as _ H]).
        destruct a; discriminate H. }
      exact (Hrev base Heq).
    + intros Hb. unfold base. rewrite (proj2 (strip_blank _) Hb). reflexivity.
Qed.

Lemma name_of_prompt_cases_witness :
  Prompt.name_of_prompt "   " = "Untitled MCP".
Proof.
  refine (proj1 (name_of_prompt_cases "   " _) _).
  - reflexivity.
  - vm_compute. lia.
Defined.

(* ===================================================================== *)
(** * Test runs                                                           *)
(* ===================================================================== *)


Section TestRunFacts.

Variable llm : list Validation.message -> result string.
Variable refusal : json -> string.

Lemma test_run_validated db mcp_id request user r def :
  select_owned db mcp_id user = Some r ->
  McpDefinition_validate (definition_json r) = Ok def ->
  Validation.test_mcp_run llm refusal db mcp_id request user
  = if String.eqb (system_prompt def) "" then
      HTTPException 400 "System prompt within MCP definition is empty."
    else
      match llm [Validation.SystemMessage (system_prompt def);
                 Validation.HumanMessage (Validation.user_input request)] with
      | Ok out =>
          Return {| Validation.llm_output := out;
                    Validation.system_prompt_used := system_prompt def |}
      | Raise e => HTTPException 500 ("Failed to execute test run: " ++ exn_str e)
      end.
Proof.
  intros Hsel Hval. unfold Validation.test_mcp_run. rewrite Hsel.
  rewrite (validated_definition_truthy _ _ Hval). cbn [negb].
  destruct (definition_json r) as [| | | | |d]; try discriminate.
  simpl in Hval. destruct (McpDefinition_fields d) as [def'|] eqn:Hf; [|discriminate].
  injection Hval as ->. apply McpDefinition_fields_Some in Hf as (Hsp & _).
  unfold Validation.has_system_prompt, get_or. rewrite Hsp. cbn [truthy].
  destruct (String.eqb (system_prompt def) ""); reflexivity.
Qed.

End TestRunFacts.

(** X24. A test run answers with an output only for a record of the
    caller whose stored definition is a dict with a non-empty string
    under [system_prompt]; the model was then asked with exactly that
    string as system message and the user's input as human message, and
    the string is reported back unchanged. Every other answer is a 404,
    a 400 or a 500. *)
Theorem test_mcp_run_uses_stored_prompt
    (llm : list Validation.message -> result string) (refusal : json -> string)
    (db : table) (mcp_id : Z) (request : Validation.TestRunRequest) (user : User) :
  match Validation.test_mcp_run llm refusal db mcp_id request user with
  | Return resp =>
      exists r d,
        select_owned db mcp_id user = Some r
        /\ definition_json r = JObj d
        /\ dict_get "system_prompt" d
           = Some (JStr (Validation.system_prompt_used resp))
        /\ Validation.system_prompt_used resp <> ""
        /\ llm [Validation.SystemMessage (Validation.system_prompt_used resp);
                Validation.HumanMessage (Validation.user_input request)]
           = Ok (Validation.llm_output resp)
  | HTTPException status_code _ =>
      status_code = 404 \/ status_code = 400 \/ status_code = 500
  end.
Proof.
  unfold Validation.test_mcp_run.
  destruct (select_owned db mcp_id user) as [r|] eqn:Hsel; [|auto].
  destruct (negb (truthy (definition_json r))); [auto|].
  destruct (Validation.has_system_prompt (definition_json r)) as [[|]|] eqn:Hhas;
    [|auto|cbn; auto].
  destruct (definition_json r) as [| | | | |d] eqn:Hd; try (cbn; auto; fail).
  unfold get_or. simpl in Hhas.
  destruct (dict_get "system_prompt" d) as [sp|] eqn:Hsp; [|discriminate].
  destruct (negb (truthy sp)) eqn:Htruthy; [auto|].
  destruct sp as [| | |s| |]; auto.
  destruct (llm _) as [out|e] eqn:Hllm; [|auto].
  exists r, d. cbn [Validation.system_prompt_used Validation.llm_output].
  repeat split; try assumption; try reflexivity.
  intros ->. discriminate.
Qed.

(** X25. After a successful generation, a test run by the owner is run
    with the generated system prompt. A generated definition with an
    empty system prompt passes the generation route and is refused by
    the test run with 400. *)
Theorem generate_then_test_run
    (score : Type) (score_leb : score -> score -> bool)
    (distance : string -> string -> score) (format_instructions : string)
    (llm : string -> string -> result string) (parser : string -> result json)
    (test_llm : list Validation.message -> result string) (refusal : json -> string)
    (db : table) (w : chroma_world) (vs : Chroma) (sf cf : option exn)
    (now mcp_id : Z) (user : User)
    (resp : Generation.GenerationJsonResponse) (db' : table)
    (request : Validation.TestRunRequest) :
  keyed db ->
  Generation.generate_mcp_json score score_leb distance format_instructions llm parser
    db w vs sf cf now mcp_id user = (Return resp, db') ->
  let generated := system_prompt (Generation.definition_json resp) in
  Validation.test_mcp_run test_llm refusal db' mcp_id request user
  = if String.eqb generated "" then
      HTTPException 400 "System prompt within MCP definition is empty."
    else
      match test_llm [Validation.SystemMessage generated;
                      Validation.HumanMessage (Validation.user_input request)] with
      | Ok out =>
          Return {| Validation.llm_output := out;
                    Validation.system_prompt_used := generated |}
      | Raise e => HTTPException 500 ("Failed to execute test run: " ++ exn_str e)
      end.
Proof.
  intros Hkeyed Hrun generated.
  apply generate_success_row in Hrun as (old & j & Hsel & Hval & ->).
  apply select_owned_Some in Hsel as [Hold Ho].
  rewrite (Hkeyed mcp_id old Hold).
  set (r' := {| id := mcp_id; name := name old;
                Models.domain := Models.domain old;
                Models.goal := Models.goal old;
                Models.roles := Models.roles old;
                constraints := constraints old;
                created_at := created_at old; updated_at := now;
                owner_id := owner_id old;
                generated_content := generated_content old;
                definition_json := j |}).
  apply (test_run_validated test_llm refusal _ mcp_id request user r'); [|exact Hval].
  apply select_owned_Some. rewrite lookup_insert_eq. auto.
Qed.

Lemma generate_then_test_run_witness :
  Validation.test_mcp_run (fun _ => Ok "Done.") (fun _ => "")
    (<[1 := Fixtures.defined_mcp]> Fixtures.one_mcp) 1
    {| Validation.user_input := "My order is late." |} Fixtures.alice
  = Return {| Validation.llm_output := "Done.";
              Validation.system_prompt_used := "Be brief." |}.
Proof.
  refine (generate_then_test_run Z Z.leb Fixtures.text_distance "schema"
            (Fixtures.canned_llm (JsonText.dumps Fixtures.stored_definition))
            Fixtures.json_parser (fun _ => Ok "Done.") (fun _ => "")
            Fixtures.one_mcp empty_world
            Fixtures.documents_store None None 200 1 Fixtures.alice
            {| Generation.definition_json :=
                 {| system_prompt := "Be brief.";
                    input_schema_description := "a ticket";
                    output_schema_description := "a reply";
                    def_constraints := [];
                    examples := [] |} |}
            (<[1 := Fixtures.defined_mcp]> Fixtures.one_mcp)
            {| Validation.user_input := "My order is late." |} _ _).
  - intros k r Hk. unfold Fixtures.one_mcp in Hk.
    apply lookup_singleton_Some in Hk as [<- <-]. reflexivity.
  - vm_compute. reflexivity.
Defined.
